(** * GhostLedger: the adjusted-cost-base engine ([acb_engine.py])

    A shallow embedding of [ACBCalculator] and of the library values it
    computes with, followed by the properties of the cost-basis ledger
    engine; then of the functions of [parsers.py] that read an amount,
    refine the kind of a row and look a price up, with their properties.

    - [decimal.Decimal] is embedded as a finite decimal number
      [coefficient * 10 ^ exponent] under the default arithmetic context
      (28 significant digits, ROUND_HALF_EVEN, traps on
      [InvalidOperation] and [DivisionByZero]).  The exponent is an
      unbounded integer (the context limits +-999999 are not represented),
      there are no NaN or infinite values, and the sign of a zero is not
      represented: it influences neither a comparison nor a non-zero
      result.
    - a naive [datetime] is embedded as its instant, in microseconds since
      0001-01-01T00:00:00 of the proleptic Gregorian calendar; the calendar
      fields are recovered with the library's own day-number algorithms.
    - the calculator object is a record, its methods are functions from
      the record to a result in an exception monad.
    - strings are strings of ASCII characters; a dictionary with string
      keys is the list of its items.
    - the table of [export_for_schedule_3] is the list of its rows; the
      conversion [float] is left open, and a [TypeError] is [None].
    - an instant is not bounded: where the code adds days to a date, the
      properties are stated for dates inside the range of [datetime]. *)

From Stdlib Require Import String Ascii ZArith List Bool Lia Permutation Sorted.
From Stdlib Require Import DecimalString.
Import ListNotations.

Local Open Scope Z_scope.

(* ------------------------------------------------------------------ *)
(** ** Exceptions *)

Inductive exn : Type :=
| InvalidOperation
| DivisionByZero.

Inductive result (A : Type) : Type :=
| Ok (a : A)
| Raise (e : exn).

Arguments Ok {A} a.
Arguments Raise {A} e.

Definition bind {A B : Type} (m : result A) (k : A -> result B) : result B :=
  match m with
  | Ok a => k a
  | Raise e => Raise e
  end.

Declare Scope result_scope.
Delimit Scope result_scope with result.
Notation "x <- m ;; k" := (bind m (fun x => k))
  (at level 61, m at next level, right associativity) : result_scope.
Notation "' p <- m ;; k" := (bind m (fun x => match x with p => k end))
  (at level 61, p pattern, m at next level, right associativity) : result_scope.

Local Open Scope result_scope.

(* ------------------------------------------------------------------ *)
(** ** Decimal numbers under the default context *)

Module Dec.

(** [Decimal(sign, int, exp)]: the value is [coef * 10 ^ dexp]. *)
Record Decimal : Type := mkDecimal { coef : Z; dexp : Z }.

(** [getcontext().prec] *)
Definition prec : Z := 28.

Definition pow10 (k : Z) : Z := 10 ^ k.

(** [len(self._int)]: number of decimal digits of a coefficient. *)
Fixpoint ndigits_aux (fuel : nat) (n : Z) : Z :=
  match fuel with
  | O => 1
  | S f => if n <? 10 then 1 else 1 + ndigits_aux f (n / 10)
  end.

Definition ndigits (n : Z) : Z :=
  ndigits_aux (Z.to_nat (Z.log2 (Z.abs n))) (Z.abs n).

(** [self.adjusted()] *)
Definition adjusted (d : Decimal) : Z := ndigits (coef d) + dexp d - 1.

(** Rounding a magnitude [m] after dropping its [k] last digits
    ([k > 0]): the quotient and whether it is to be incremented. *)
Definition round_half_even (m k : Z) : Z :=
  let q := m / pow10 k in
  let r := m mod pow10 k in
  if 2 * r >? pow10 k then q + 1
  else if 2 * r =? pow10 k then (if Z.even q then q else q + 1)
  else q.

Definition round_half_up (m k : Z) : Z :=
  let q := m / pow10 k in
  let r := m mod pow10 k in
  if 2 * r >=? pow10 k then q + 1 else q.

(** [Decimal._fix]: round to the precision of the context. *)
Definition fix_ (d : Decimal) : Decimal :=
  if coef d =? 0 then d
  else
    let exp_min := ndigits (coef d) + dexp d - prec in
    if dexp d <? exp_min then
      let c := round_half_even (Z.abs (coef d)) (exp_min - dexp d) in
      if ndigits c >? prec
      then mkDecimal (Z.sgn (coef d) * (c / 10)) (exp_min + 1)
      else mkDecimal (Z.sgn (coef d) * c) exp_min
    else d.

(** [Decimal.__add__]: the exact sum at the smaller exponent, rounded. *)
Definition add (a b : Decimal) : Decimal :=
  let e := Z.min (dexp a) (dexp b) in
  fix_ (mkDecimal (coef a * pow10 (dexp a - e) + coef b * pow10 (dexp b - e)) e).

(** [Decimal.copy_negate] *)
Definition copy_negate (a : Decimal) : Decimal := mkDecimal (- coef a) (dexp a).

(** [Decimal.__sub__]: [self + other.copy_negate()] *)
Definition sub (a b : Decimal) : Decimal := add a (copy_negate b).

(** [Decimal.__mul__] *)
Definition mul (a b : Decimal) : Decimal :=
  fix_ (mkDecimal (coef a * coef b) (dexp a + dexp b)).

(** [Decimal.__abs__], which rounds *)
Definition abs (a : Decimal) : Decimal :=
  fix_ (mkDecimal (Z.abs (coef a)) (dexp a)).

(** The loop of [__truediv__] that brings an exact quotient as close to
    the ideal exponent as possible. *)
Fixpoint strip_zeros (fuel : nat) (c e ideal : Z) : Z * Z :=
  match fuel with
  | O => (c, e)
  | S f =>
      if (e <? ideal) && (c mod 10 =? 0)
      then strip_zeros f (c / 10) (e + 1) ideal
      else (c, e)
  end.

(** [Decimal.__truediv__] *)
Definition truediv (a b : Decimal) : result Decimal :=
  if coef b =? 0 then
    (if coef a =? 0 then Raise InvalidOperation else Raise DivisionByZero)
  else if coef a =? 0 then Ok (fix_ (mkDecimal 0 (dexp a - dexp b)))
  else
    let sign := Z.sgn (coef a) * Z.sgn (coef b) in
    let m1 := Z.abs (coef a) in
    let m2 := Z.abs (coef b) in
    let shift := ndigits m2 - ndigits m1 + prec + 1 in
    let exp := dexp a - dexp b - shift in
    let '(q, r) :=
      if shift >=? 0 then (m1 * pow10 shift / m2, (m1 * pow10 shift) mod m2)
      else (m1 / (m2 * pow10 (- shift)), m1 mod (m2 * pow10 (- shift))) in
    let '(c, e) :=
      if r =? 0 then
        let ideal_exp := dexp a - dexp b in
        strip_zeros (Z.to_nat (ideal_exp - exp)) q exp ideal_exp
      else ((if q mod 5 =? 0 then q + 1 else q), exp) in
    Ok (fix_ (mkDecimal (sign * c) e)).

(** [Decimal._rescale(exp, ROUND_HALF_UP)] *)
Definition rescale_half_up (a : Decimal) (exp : Z) : Decimal :=
  if coef a =? 0 then mkDecimal 0 exp
  else if dexp a >=? exp then mkDecimal (coef a * pow10 (dexp a - exp)) exp
  else mkDecimal (Z.sgn (coef a) * round_half_up (Z.abs (coef a)) (exp - dexp a)) exp.

(** [Decimal.quantize(exp, rounding=ROUND_HALF_UP)]: only the exponent
    of [exp] is used. *)
Definition quantize_half_up (a exp : Decimal) : result Decimal :=
  if coef a =? 0 then Ok (fix_ (mkDecimal 0 (dexp exp)))
  else if adjusted a - dexp exp + 1 >? prec then Raise InvalidOperation
  else
    let ans := rescale_half_up a (dexp exp) in
    if ndigits (coef ans) >? prec then Raise InvalidOperation
    else Ok (fix_ ans).

(** [Decimal._cmp]: comparison of the values. *)
Definition cmp (a b : Decimal) : comparison :=
  let e := Z.min (dexp a) (dexp b) in
  (coef a * pow10 (dexp a - e)) ?= (coef b * pow10 (dexp b - e)).

Definition eqb (a b : Decimal) : bool :=
  match cmp a b with Eq => true | _ => false end.
Definition ltb (a b : Decimal) : bool :=
  match cmp a b with Lt => true | _ => false end.
Definition leb (a b : Decimal) : bool :=
  match cmp a b with Gt => false | _ => true end.
Definition gtb (a b : Decimal) : bool := ltb b a.
Definition geb (a b : Decimal) : bool := leb b a.

(** The built-in [max(a, b)] on two decimals: [b] only when [b > a]. *)
Definition max (a b : Decimal) : Decimal := if gtb b a then b else a.

(** [Decimal('0')] *)
Definition zero : Decimal := mkDecimal 0 0.

(** [Decimal._rescale(exp, ROUND_HALF_EVEN)] *)
Definition rescale_half_even (a : Decimal) (exp : Z) : Decimal :=
  if coef a =? 0 then mkDecimal 0 exp
  else if dexp a >=? exp then mkDecimal (coef a * pow10 (dexp a - exp)) exp
  else mkDecimal (Z.sgn (coef a) * round_half_even (Z.abs (coef a)) (exp - dexp a)) exp.

(** [Decimal.to_integral_value()], with the rounding of the context. *)
Definition to_integral_value (a : Decimal) : Decimal :=
  if dexp a >=? 0 then a else rescale_half_even a 0.

End Dec.

Abbreviation Decimal := Dec.Decimal.

Declare Scope dec_scope.
Delimit Scope dec_scope with dec.
Infix "+" := Dec.add : dec_scope.
Infix "-" := Dec.sub : dec_scope.
Infix "*" := Dec.mul : dec_scope.
Infix "==" := Dec.eqb (at level 70, no associativity) : dec_scope.
Infix "<?" := Dec.ltb : dec_scope.
Infix "<=?" := Dec.leb : dec_scope.
Infix ">=?" := Dec.geb : dec_scope.


(* ------------------------------------------------------------------ *)
(** ** Naive datetimes *)

Module DT.

(** A naive datetime, as microseconds since 0001-01-01T00:00:00. *)
Definition datetime : Type := Z.

Definition us_per_day : Z := 86400 * 1000000.

Definition _is_leap (year : Z) : bool :=
  (year mod 4 =? 0) && (negb (year mod 100 =? 0) || (year mod 400 =? 0)).

Definition _days_before_year (year : Z) : Z :=
  let y := year - 1 in
  y * 365 + y / 4 - y / 100 + y / 400.

Definition _DAYS_IN_MONTH : list Z :=
  [-1; 31; 28; 31; 30; 31; 30; 31; 31; 30; 31; 30; 31].

Definition _DAYS_BEFORE_MONTH : list Z :=
  [-1; 0; 31; 59; 90; 120; 151; 181; 212; 243; 273; 304; 334].

Definition _days_before_month (year month : Z) : Z :=
  nth (Z.to_nat month) _DAYS_BEFORE_MONTH 0
  + (if (month >? 2) && _is_leap year then 1 else 0).

Definition _ymd2ord (year month day : Z) : Z :=
  _days_before_year year + _days_before_month year month + day.

Definition _DI400Y : Z := _days_before_year 401.
Definition _DI100Y : Z := _days_before_year 101.
Definition _DI4Y : Z := _days_before_year 5.

Definition _ord2ymd (n : Z) : Z * Z * Z :=
  let n := n - 1 in
  let n400 := n / _DI400Y in
  let n := n mod _DI400Y in
  let year := n400 * 400 + 1 in
  let n100 := n / _DI100Y in
  let n := n mod _DI100Y in
  let n4 := n / _DI4Y in
  let n := n mod _DI4Y in
  let n1 := n / 365 in
  let n := n mod 365 in
  let year := year + (n100 * 100 + n4 * 4 + n1) in
  if (n1 =? 4) || (n100 =? 4) then (year - 1, 12, 31)
  else
    let leapyear := (n1 =? 3) && (negb (n4 =? 24) || (n100 =? 3)) in
    let month := Z.shiftr (n + 50) 5 in
    let preceding :=
      nth (Z.to_nat month) _DAYS_BEFORE_MONTH 0
      + (if (month >? 2) && leapyear then 1 else 0) in
    if preceding >? n then
      let month := month - 1 in
      let preceding :=
        preceding - (nth (Z.to_nat month) _DAYS_IN_MONTH 0
                     + (if (month =? 2) && leapyear then 1 else 0)) in
      (year, month, n - preceding + 1)
    else (year, month, n - preceding + 1).

(** [datetime(year, month, day, hour, minute, second, microsecond)] *)
Definition make (year month day hour minute second microsecond : Z) : datetime :=
  (_ymd2ord year month day - 1) * us_per_day
  + ((hour * 60 + minute) * 60 + second) * 1000000 + microsecond.

(** [self.toordinal()] *)
Definition toordinal (d : datetime) : Z := d / us_per_day + 1.

(** [self.year] *)
Definition year (d : datetime) : Z := fst (fst (_ord2ymd (toordinal d))).
Definition month (d : datetime) : Z := snd (fst (_ord2ymd (toordinal d))).
Definition day (d : datetime) : Z := snd (_ord2ymd (toordinal d)).

(** [self - timedelta(days=n)] *)
Definition sub_days (d : datetime) (n : Z) : datetime := d - n * us_per_day.

Definition digit (n : Z) : ascii := ascii_of_nat (48 + Z.to_nat (n mod 10)).

(** A number printed on [w] digits, zero padded. *)
Fixpoint zfill (w : nat) (n : Z) : string :=
  match w with
  | O => EmptyString
  | S w' => (zfill w' (n / 10) ++ String (digit n) EmptyString)%string
  end.

(** [self.strftime('%Y-%m-%d')] (years of four digits) *)
Definition strftime_Ymd (d : datetime) : string :=
  (zfill 4 (year d) ++ "-" ++ zfill 2 (month d) ++ "-" ++ zfill 2 (day d))%string.

End DT.

Abbreviation datetime := DT.datetime.

(* ------------------------------------------------------------------ *)
(** ** The data classes *)

Module Transaction.
Record t : Type := mk {
  date : datetime;
  tx_type : string;
  amount_btc : Decimal;
  price_cad : Decimal;
  fee_cad : Decimal;
  label : string
}.
End Transaction.

Abbreviation Transaction := Transaction.t.

Module LedgerEntry.
Record t : Type := mk {
  date : datetime;
  tx_type : string;
  amount_btc : Decimal;
  price_cad : Decimal;
  fee_cad : Decimal;
  total_cost_after : Decimal;
  total_btc_after : Decimal;
  acb_per_btc : Decimal;
  proceeds : option Decimal;
  cost_basis : option Decimal;
  capital_gain : option Decimal;
  superficial_loss_flag : bool;
  superficial_loss_note : string;
  label : string
}.
End LedgerEntry.

Abbreviation LedgerEntry := LedgerEntry.t.

(** The attributes of an [ACBCalculator] object. *)
Record ACBCalculator : Type := mkACBCalculator {
  total_cost : Decimal;
  total_btc : Decimal;
  ledger : list LedgerEntry;
  _recent_transactions : list Transaction
}.

(** [ACBCalculator.__init__] *)
Definition __init__ : ACBCalculator :=
  mkACBCalculator Dec.zero Dec.zero [] [].

(* ------------------------------------------------------------------ *)
(** ** [sorted(transactions, key=lambda x: x.date)] *)

Section Sorted.
Context {A : Type} (key : A -> Z).

(** Insertion in front of the first element whose key is not smaller:
    an element inserted later stays behind the equal keys before it. *)
Fixpoint insert_by (x : A) (l : list A) : list A :=
  match l with
  | [] => [x]
  | y :: r => if key x <=? key y then x :: y :: r else y :: insert_by x r
  end.

(** The built-in [sorted]: ascending by key, stable. *)
Fixpoint sorted (l : list A) : list A :=
  match l with
  | [] => []
  | x :: r => insert_by x (sorted r)
  end.

(** The order of the keys. *)
Definition key_le (a b : A) : Prop := key a <= key b.
End Sorted.

(* ------------------------------------------------------------------ *)
(** ** The methods of [ACBCalculator] *)

Local Open Scope string_scope.

(** [tx.tx_type in ('buy', 'receive')] *)
Definition is_acquisition (tx_type : string) : bool :=
  String.eqb tx_type "buy" || String.eqb tx_type "receive".

(** [tx.tx_type in ('sell', 'spend', 'send')] *)
Definition is_disposition (tx_type : string) : bool :=
  String.eqb tx_type "sell" || String.eqb tx_type "spend"
  || String.eqb tx_type "send".

(** The property [acb_per_btc]. *)
Definition acb_per_btc (self : ACBCalculator) : result Decimal :=
  if (total_btc self <=? Dec.zero)%dec then Ok Dec.zero
  else
    q <- Dec.truediv (total_cost self) (total_btc self) ;;
    Dec.quantize_half_up q (Dec.mkDecimal 1 (-2)).

Definition _process_acquisition (self : ACBCalculator) (tx : Transaction)
  : result (ACBCalculator * LedgerEntry) :=
  let acquisition_cost :=
    (Transaction.amount_btc tx * Transaction.price_cad tx
     + Transaction.fee_cad tx)%dec in
  let self :=
    mkACBCalculator (total_cost self + acquisition_cost)%dec (total_btc self)
                    (ledger self) (_recent_transactions self) in
  let self :=
    mkACBCalculator (total_cost self)
                    (total_btc self + Transaction.amount_btc tx)%dec
                    (ledger self) (_recent_transactions self) in
  acb <- acb_per_btc self ;;
  Ok (self,
      LedgerEntry.mk
        (Transaction.date tx) (Transaction.tx_type tx)
        (Transaction.amount_btc tx) (Transaction.price_cad tx)
        (Transaction.fee_cad tx)
        (total_cost self) (total_btc self) acb
        None None None false "" (Transaction.label tx)).

(** The loop of [_check_superficial_loss] over [self._recent_transactions]. *)
Fixpoint _check_superficial_loss_scan
  (recent : list Transaction) (loss_date window_start : datetime)
  : bool * string :=
  match recent with
  | [] =>
      (false,
       "Note: Check for purchases within 30 days AFTER this sale for superficial loss.")
  | recent_tx :: rest =>
      if is_acquisition (Transaction.tx_type recent_tx)
         && ((window_start <=? Transaction.date recent_tx)%Z
             && (Transaction.date recent_tx <? loss_date)%Z)
      then
        (true,
         "POTENTIAL SUPERFICIAL LOSS: BTC acquired on "
         ++ DT.strftime_Ymd (Transaction.date recent_tx) ++ " "
         ++ "(within 30 days before this sale). "
         ++ "Review if still held 30 days after sale.")
      else _check_superficial_loss_scan rest loss_date window_start
  end.

Definition _check_superficial_loss (self : ACBCalculator) (tx : Transaction)
  : bool * string :=
  let loss_date := Transaction.date tx in
  let window_start := DT.sub_days loss_date 30 in
  _check_superficial_loss_scan (_recent_transactions self) loss_date window_start.

Definition _process_disposition (self : ACBCalculator) (tx : Transaction)
  : result (ACBCalculator * LedgerEntry) :=
  let proceeds := (Transaction.amount_btc tx * Transaction.price_cad tx)%dec in
  let proceeds := (proceeds - Transaction.fee_cad tx)%dec in
  acb <- acb_per_btc self ;;
  let cost_basis := (Transaction.amount_btc tx * acb)%dec in
  let capital_gain := (proceeds - cost_basis)%dec in
  let '(superficial_flag, superficial_note) :=
    if (capital_gain <? Dec.zero)%dec
    then _check_superficial_loss self tx
    else (false, "") in
  acb' <- acb_per_btc self ;;
  let cost_removed := (Transaction.amount_btc tx * acb')%dec in
  let self :=
    mkACBCalculator (total_cost self - cost_removed)%dec (total_btc self)
                    (ledger self) (_recent_transactions self) in
  let self :=
    mkACBCalculator (total_cost self)
                    (total_btc self - Transaction.amount_btc tx)%dec
                    (ledger self) (_recent_transactions self) in
  let self :=
    if (total_btc self <? Dec.mkDecimal 1 (-8))%dec
    then mkACBCalculator Dec.zero Dec.zero
                         (ledger self) (_recent_transactions self)
    else self in
  acb_after <- acb_per_btc self ;;
  Ok (self,
      LedgerEntry.mk
        (Transaction.date tx) (Transaction.tx_type tx)
        (Transaction.amount_btc tx) (Transaction.price_cad tx)
        (Transaction.fee_cad tx)
        (total_cost self) (total_btc self) acb_after
        (Some proceeds) (Some cost_basis) (Some capital_gain)
        superficial_flag superficial_note (Transaction.label tx)).

(** The body of the [for tx in sorted_txs] loop of [process_transactions]. *)
Definition process_one (self : ACBCalculator) (tx : Transaction)
  : result ACBCalculator :=
  if is_acquisition (Transaction.tx_type tx) then
    '(self, entry) <- _process_acquisition self tx ;;
    Ok (mkACBCalculator (total_cost self) (total_btc self)
                        (ledger self ++ [entry])
                        (_recent_transactions self ++ [tx]))
  else if is_disposition (Transaction.tx_type tx) then
    '(self, entry) <- _process_disposition self tx ;;
    Ok (mkACBCalculator (total_cost self) (total_btc self)
                        (ledger self ++ [entry])
                        (_recent_transactions self ++ [tx]))
  else Ok self.

Fixpoint process_loop (self : ACBCalculator) (sorted_txs : list Transaction)
  : result ACBCalculator :=
  match sorted_txs with
  | [] => Ok self
  | tx :: rest => self <- process_one self tx ;; process_loop self rest
  end.

(** [process_transactions]: the calculator after the call and the returned
    ledger. *)
Definition process_transactions
  (self : ACBCalculator) (transactions : list Transaction)
  : result (ACBCalculator * list LedgerEntry) :=
  let sorted_txs := sorted Transaction.date transactions in
  let self := mkACBCalculator Dec.zero Dec.zero [] [] in
  self <- process_loop self sorted_txs ;;
  Ok (self, ledger self).

(** The dictionary returned by [get_summary]. *)
Record Summary : Type := mkSummary {
  total_gains : Decimal;
  total_losses : Decimal;
  net_capital_gain : Decimal;
  taxable_capital_gain : Decimal;
  inclusion_rate : Decimal;
  superficial_loss_count : Z;
  current_holdings_btc : Decimal;
  current_acb_total : Decimal;
  current_acb_per_btc : Decimal
}.

(** The accumulation loop of [get_summary]. *)
Fixpoint get_summary_loop
  (entries : list LedgerEntry) (total_gains total_losses : Decimal)
  (superficial_count : Z) : Decimal * Decimal * Z :=
  match entries with
  | [] => (total_gains, total_losses, superficial_count)
  | entry :: rest =>
      match LedgerEntry.capital_gain entry with
      | Some capital_gain =>
          if (capital_gain >=? Dec.zero)%dec then
            get_summary_loop rest (total_gains + capital_gain)%dec
                             total_losses superficial_count
          else if LedgerEntry.superficial_loss_flag entry then
            get_summary_loop rest total_gains total_losses
                             (superficial_count + 1)%Z
          else
            get_summary_loop rest total_gains
                             (total_losses + Dec.abs capital_gain)%dec
                             superficial_count
      | None => get_summary_loop rest total_gains total_losses superficial_count
      end
  end.

(** [if tax_year:] on an [Optional[int]]: [None] and [0] are false. *)
Definition truthy (tax_year : option Z) : bool :=
  match tax_year with
  | Some y => negb (y =? 0)%Z
  | None => false
  end.

(** The entries that [get_summary] accumulates over. *)
Definition get_summary_entries
  (self : ACBCalculator) (tax_year : option Z) : list LedgerEntry :=
  if truthy tax_year then
    filter (fun e => match tax_year with
                     | Some y => (DT.year (LedgerEntry.date e) =? y)%Z
                     | None => false
                     end) (ledger self)
  else ledger self.

Definition get_summary (self : ACBCalculator) (tax_year : option Z)
  : result Summary :=
  let entries := get_summary_entries self tax_year in
  let '(total_gains, total_losses, superficial_count) :=
    get_summary_loop entries Dec.zero Dec.zero 0%Z in
  let net_gain := (total_gains - total_losses)%dec in
  let inclusion_rate := Dec.mkDecimal 50 (-2) in
  let taxable_gain := Dec.max Dec.zero (net_gain * inclusion_rate)%dec in
  acb <- acb_per_btc self ;;
  Ok (mkSummary total_gains total_losses net_gain taxable_gain inclusion_rate
                superficial_count (total_btc self) (total_cost self) acb).

(** [create_test_transactions] *)
Definition create_test_transactions : list Transaction :=
  [ Transaction.mk (DT.make 2024 1 15 0 0 0 0) "buy"
      (Dec.mkDecimal 5 (-1)) (Dec.mkDecimal 60000 0) (Dec.mkDecimal 50 0)
      "DCA Purchase";
    Transaction.mk (DT.make 2024 2 20 0 0 0 0) "buy"
      (Dec.mkDecimal 25 (-2)) (Dec.mkDecimal 65000 0) (Dec.mkDecimal 30 0)
      "DCA Purchase";
    Transaction.mk (DT.make 2024 3 10 0 0 0 0) "sell"
      (Dec.mkDecimal 3 (-1)) (Dec.mkDecimal 70000 0) (Dec.mkDecimal 25 0)
      "Taking profit";
    Transaction.mk (DT.make 2024 4 5 0 0 0 0) "buy"
      (Dec.mkDecimal 1 (-1)) (Dec.mkDecimal 55000 0) (Dec.mkDecimal 15 0)
      "Buying dip";
    Transaction.mk (DT.make 2024 4 20 0 0 0 0) "sell"
      (Dec.mkDecimal 2 (-1)) (Dec.mkDecimal 50000 0) (Dec.mkDecimal 20 0)
      "Loss sale - check superficial" ].

Local Close Scope string_scope.

(* ------------------------------------------------------------------ *)
(** ** Vocabulary of the properties *)

Local Open Scope string_scope.

(** A transaction that [process_transactions] does not skip. *)
Definition recognised (tx : Transaction) : bool :=
  is_acquisition (Transaction.tx_type tx)
  || is_disposition (Transaction.tx_type tx).

(** [window_start <= t < loss_date] with [window_start] thirty days
    before [loss_date]. *)
Definition in_window (loss_date t : datetime) : bool :=
  (DT.sub_days loss_date 30 <=? t)%Z && (t <? loss_date)%Z.

(** The acquisitions that disqualify a loss realised at [loss_date]. *)
Definition disqualifying (loss_date : datetime) (t : Transaction) : bool :=
  is_acquisition (Transaction.tx_type t)
  && in_window loss_date (Transaction.date t).

(** The note of a flagged loss, naming the acquisition date. *)
Definition flagged_note (acquired : datetime) : string :=
  "POTENTIAL SUPERFICIAL LOSS: BTC acquired on "
  ++ DT.strftime_Ymd acquired ++ " "
  ++ "(within 30 days before this sale). "
  ++ "Review if still held 30 days after sale.".

(** The note of a loss that is not flagged. *)
Definition forward_note : string :=
  "Note: Check for purchases within 30 days AFTER this sale for superficial loss.".

(** The pool of a calculator. *)
Definition pool (self : ACBCalculator) : Decimal * Decimal :=
  (total_cost self, total_btc self).

(** The pool of a disposal before the clamp: the two subtractions. *)
Definition reduced_cost (self : ACBCalculator) (tx : Transaction) (p : Decimal)
  : Decimal :=
  (total_cost self - Transaction.amount_btc tx * p)%dec.

Definition reduced_btc (self : ACBCalculator) (tx : Transaction) : Decimal :=
  (total_btc self - Transaction.amount_btc tx)%dec.

(** [Decimal('0.00000001')] *)
Definition epsilon : Decimal := Dec.mkDecimal 1 (-8).

(** The calculator of a disposal after the two subtractions and the
    clamp, [p] being the per-unit cost that was read. *)
Definition after_disposal
  (self : ACBCalculator) (tx : Transaction) (p : Decimal) : ACBCalculator :=
  if (reduced_btc self tx <? epsilon)%dec
  then mkACBCalculator Dec.zero Dec.zero
                       (ledger self) (_recent_transactions self)
  else mkACBCalculator (reduced_cost self tx p) (reduced_btc self tx)
                       (ledger self) (_recent_transactions self).

(** [quantity * unit_price - fee] *)
Definition proceeds_of (tx : Transaction) : Decimal :=
  (Transaction.amount_btc tx * Transaction.price_cad tx
   - Transaction.fee_cad tx)%dec.

(** [p] is [q] rounded to two decimal places, half up: with both
    magnitudes counted in units of [10 ^ e], a cent being [u] units, the
    magnitude [n] of [p] in cents is the integer nearest to [m / u], the
    tie going away from zero. *)
Definition rounds_to_cents_half_up (q p : Decimal) : Prop :=
  let e := Z.min (Dec.dexp q) (-2) in
  let m := Z.abs (Dec.coef q) * Dec.pow10 (Dec.dexp q - e) in
  let u := Dec.pow10 (-2 - e) in
  Dec.dexp p = -2
  /\ Dec.coef p = Z.sgn (Dec.coef q) * Z.abs (Dec.coef p)
  /\ 2 * (Z.abs (Dec.coef p) * u) <= 2 * m + u < 2 * ((Z.abs (Dec.coef p) + 1) * u).

(** Invariant of a run: the last entry reports the per-unit cost of the
    present pool, and every disposal after another entry took its cost
    basis at the per-unit cost which that entry reports. *)
Definition continuous (self : ACBCalculator) : Prop :=
  (forall l e, ledger self = (l ++ [e])%list ->
               acb_per_btc self = Ok (LedgerEntry.acb_per_btc e))
  /\ (forall l1 e_prev e l2,
        ledger self = (l1 ++ e_prev :: e :: l2)%list ->
        is_disposition (LedgerEntry.tx_type e) = true ->
        LedgerEntry.cost_basis e
        = Some (LedgerEntry.amount_btc e * LedgerEntry.acb_per_btc e_prev)%dec).

(** Invariant of a run: the entry at position [i] of the ledger echoes
    the date of the transaction at position [i] of the history and, for a
    negative gain, carries the verdict of the detector on the history
    before that position. *)
Definition detected (self : ACBCalculator) : Prop :=
  List.length (ledger self) = List.length (_recent_transactions self)
  /\ forall i t e g,
       nth_error (_recent_transactions self) i = Some t ->
       nth_error (ledger self) i = Some e ->
       LedgerEntry.capital_gain e = Some g ->
       (g <? Dec.zero)%dec = true ->
       LedgerEntry.date e = Transaction.date t
       /\ (LedgerEntry.superficial_loss_flag e,
           LedgerEntry.superficial_loss_note e)
          = _check_superficial_loss_scan
              (firstn i (_recent_transactions self)) (Transaction.date t)
              (DT.sub_days (Transaction.date t) 30).

(** A sum of decimals, accumulated from [Decimal('0')] in list order. *)
Definition dsum (l : list Decimal) : Decimal := fold_left Dec.add l Dec.zero.

(** The gains of the disposal entries with [gain >= 0]. *)
Definition gains_of (entries : list LedgerEntry) : list Decimal :=
  flat_map (fun e =>
    match LedgerEntry.capital_gain e with
    | Some g => if (g >=? Dec.zero)%dec then [g] else []
    | None => []
    end) entries.

(** [|gain|] of the disposal entries with [gain < 0] that are not flagged. *)
Definition losses_of (entries : list LedgerEntry) : list Decimal :=
  flat_map (fun e =>
    match LedgerEntry.capital_gain e with
    | Some g =>
        if (g <? Dec.zero)%dec && negb (LedgerEntry.superficial_loss_flag e)
        then [Dec.abs g] else []
    | None => []
    end) entries.

(** The disposal entries with [gain < 0] that are flagged. *)
Definition flagged_loss (e : LedgerEntry) : bool :=
  match LedgerEntry.capital_gain e with
  | Some g => (g <? Dec.zero)%dec && LedgerEntry.superficial_loss_flag e
  | None => false
  end.

(** The entries of a period: those of the year when one is given. *)
Definition entries_of_year (entries : list LedgerEntry) (y : Z)
  : list LedgerEntry :=
  filter (fun e => (DT.year (LedgerEntry.date e) =? y)%Z) entries.

(** The fixture: two acquisitions, then a disposal. *)
Definition fixture : list Transaction := firstn 3 create_test_transactions.

(** A purchase whose average cost rounds up, then the sale of all but
    1e-8 units. *)
Definition round_up_then_sell : list Transaction :=
  [ Transaction.mk (DT.make 2024 1 15 0 0 0 0) "buy"
      (Dec.mkDecimal 1 0) (Dec.mkDecimal 60000005 (-3)) Dec.zero "";
    Transaction.mk (DT.make 2024 3 10 0 0 0 0) "sell"
      (Dec.mkDecimal 99999999 (-8)) (Dec.mkDecimal 70000 0) Dec.zero "" ].

(** The pool of the fixture after its two acquisitions. *)
Definition fixture_pool : ACBCalculator :=
  mkACBCalculator (Dec.mkDecimal 4633000 (-2)) (Dec.mkDecimal 75 (-2)) [] [].

(** A disposal of 0.3 units at an unresolved (zero) price. *)
Definition zero_price_sale : Transaction :=
  Transaction.mk (DT.make 2024 3 10 0 0 0 0) "sell"
    (Dec.mkDecimal 3 (-1)) Dec.zero Dec.zero "".

(** A loss-making sale and a purchase [days] days before it. *)
Definition buy_then_loss (days : Z) : list Transaction :=
  [ Transaction.mk (DT.sub_days (DT.make 2024 4 20 0 0 0 0) days) "buy"
      (Dec.mkDecimal 1 0) (Dec.mkDecimal 55000 0) Dec.zero "";
    Transaction.mk (DT.make 2024 4 20 0 0 0 0) "sell"
      (Dec.mkDecimal 5 (-1)) (Dec.mkDecimal 50000 0) Dec.zero "" ].

(** A ledger entry of a disposal with the given gain. *)
Definition disposal_entry (d : datetime) (gain : Decimal) (flag : bool)
  : LedgerEntry :=
  LedgerEntry.mk d "sell" Dec.zero Dec.zero Dec.zero Dec.zero Dec.zero Dec.zero
                 (Some gain) (Some Dec.zero) (Some gain) flag "" "".

(** The entries of a period: all of them when no year is given. *)
Definition period_entries (entries : list LedgerEntry) (period : option Z)
  : list LedgerEntry :=
  match period with
  | Some y => entries_of_year entries y
  | None => entries
  end.

(** A ledger with the single gain 2463.00. *)
Definition one_gain_ledger : ACBCalculator :=
  mkACBCalculator Dec.zero Dec.zero
    [ disposal_entry (DT.make 2024 3 10 0 0 0 0) (Dec.mkDecimal 246300 (-2)) false ]
    [].

(** The disposal of all 0.75 units of the pool of the fixture. *)
Definition sell_all : Transaction :=
  Transaction.mk (DT.make 2024 3 10 0 0 0 0) "sell"
    (Dec.mkDecimal 75 (-2)) (Dec.mkDecimal 70000 0) Dec.zero "".

(** Invariant of a run: the per-unit cost of the pool can be read. *)
Definition priced (self : ACBCalculator) : Prop :=
  exists p, acb_per_btc self = Ok p.

(** A transaction of a kind the engine does not know. *)
Definition transfer : Transaction :=
  Transaction.mk (DT.make 2024 2 1 0 0 0 0) "transfer"
    (Dec.mkDecimal 1 0) (Dec.mkDecimal 60000 0) Dec.zero "".

Local Close Scope string_scope.

(* ------------------------------------------------------------------ *)
(** ** More of [acb_engine.py] *)

Local Open Scope string_scope.

(** The property [Transaction.total_cad]. *)
Definition total_cad (tx : Transaction) : Decimal :=
  (Transaction.amount_btc tx * Transaction.price_cad tx
   + Transaction.fee_cad tx)%dec.

(** An entry repeats the six fields of its transaction. *)
Definition echoes (tx : Transaction) (e : LedgerEntry) : Prop :=
  LedgerEntry.date e = Transaction.date tx
  /\ LedgerEntry.tx_type e = Transaction.tx_type tx
  /\ LedgerEntry.amount_btc e = Transaction.amount_btc tx
  /\ LedgerEntry.price_cad e = Transaction.price_cad tx
  /\ LedgerEntry.fee_cad e = Transaction.fee_cad tx
  /\ LedgerEntry.label e = Transaction.label tx.

(** The entry of an acquisition: no gain field, no flag, no note. *)
Definition gainless (e : LedgerEntry) : Prop :=
  LedgerEntry.proceeds e = None
  /\ LedgerEntry.cost_basis e = None
  /\ LedgerEntry.capital_gain e = None
  /\ LedgerEntry.superficial_loss_flag e = false
  /\ LedgerEntry.superficial_loss_note e = "".

(** The entry of a disposal: the three gain fields, and a flag and a note
    that follow the sign of the gain. *)
Definition realised (e : LedgerEntry) : Prop :=
  exists pr cb,
    LedgerEntry.proceeds e = Some pr
    /\ LedgerEntry.cost_basis e = Some cb
    /\ LedgerEntry.capital_gain e = Some (pr - cb)%dec
    /\ pr = (LedgerEntry.amount_btc e * LedgerEntry.price_cad e
             - LedgerEntry.fee_cad e)%dec
    /\ ((pr - cb <? Dec.zero)%dec = false ->
        LedgerEntry.superficial_loss_flag e = false
        /\ LedgerEntry.superficial_loss_note e = "")
    /\ ((pr - cb <? Dec.zero)%dec = true ->
        (LedgerEntry.superficial_loss_flag e = true
         /\ exists acquired,
              LedgerEntry.superficial_loss_note e = flagged_note acquired)
        \/ (LedgerEntry.superficial_loss_flag e = false
            /\ LedgerEntry.superficial_loss_note e = forward_note)).

(** What the loop appends for a transaction it does not skip. *)
Definition emitted (tx : Transaction) (e : LedgerEntry) : Prop :=
  echoes tx e
  /\ ((is_acquisition (Transaction.tx_type tx) = true /\ gainless e)
      \/ (is_disposition (Transaction.tx_type tx) = true /\ realised e)).

(** Invariant of a run: the ledger holds, position by position, what was
    emitted for the transactions of the history. *)
Definition mirrored (self : ACBCalculator) : Prop :=
  Forall2 emitted (_recent_transactions self) (ledger self).

(** Invariant of a run: the pool is the snapshot of the last entry, and
    empty while there is no entry. *)
Definition snapshot (self : ACBCalculator) : Prop :=
  (ledger self = [] -> pool self = (Dec.zero, Dec.zero))
  /\ (forall l e, ledger self = (l ++ [e])%list ->
                  LedgerEntry.total_cost_after e = total_cost self
                  /\ LedgerEntry.total_btc_after e = total_btc self
                  /\ acb_per_btc self = Ok (LedgerEntry.acb_per_btc e)).

Local Close Scope string_scope.

(* ------------------------------------------------------------------ *)
(** ** Strings (of ASCII characters) *)

Module Str.

Local Open Scope string_scope.

(** [c.lower()] *)
Definition lower_char (c : ascii) : ascii :=
  let n := nat_of_ascii c in
  if (65 <=? n)%nat && (n <=? 90)%nat then ascii_of_nat (n + 32) else c.

(** [s.lower()] *)
Fixpoint lower (s : string) : string :=
  match s with
  | EmptyString => EmptyString
  | String c r => String (lower_char c) (lower r)
  end.

(** [sub in s] *)
Fixpoint contains (sub s : string) : bool :=
  if String.prefix sub s then true
  else match s with
       | EmptyString => false
       | String _ r => contains sub r
       end.

(** [c.isspace()] *)
Definition isspace (c : ascii) : bool :=
  let n := nat_of_ascii c in
  ((9 <=? n)%nat && (n <=? 13)%nat) || ((28 <=? n)%nat && (n <=? 32)%nat).

(** [s.lstrip()] *)
Fixpoint lstrip (s : string) : string :=
  match s with
  | EmptyString => EmptyString
  | String c r => if isspace c then lstrip r else s
  end.

(** [s.rstrip()] *)
Fixpoint rstrip (s : string) : string :=
  match s with
  | EmptyString => EmptyString
  | String c r =>
      match rstrip r with
      | EmptyString => if isspace c then EmptyString else String c EmptyString
      | r' => String c r'
      end
  end.

(** [s.strip()] *)
Definition strip (s : string) : string := rstrip (lstrip s).

(** [s.lstrip(c)] for one character [c]. *)
Fixpoint lstrip_char (c : ascii) (s : string) : string :=
  match s with
  | EmptyString => EmptyString
  | String c' r => if Ascii.eqb c' c then lstrip_char c r else s
  end.

(** A character matched by [\d]. *)
Definition isdigit (c : ascii) : bool :=
  let n := nat_of_ascii c in (48 <=? n)%nat && (n <=? 57)%nat.

(** [re.sub(r'[^\d.]', '', s)] *)
Fixpoint keep_digits_dots (s : string) : string :=
  match s with
  | EmptyString => EmptyString
  | String c r =>
      if isdigit c || Ascii.eqb c "."
      then String c (keep_digits_dots r) else keep_digits_dots r
  end.

(** [int(s)] for a string of digits, [acc] being the value read so far. *)
Fixpoint int_of_digits (acc : Z) (s : string) : Z :=
  match s with
  | EmptyString => acc
  | String c r => int_of_digits (10 * acc + (Z.of_nat (nat_of_ascii c) - 48)) r
  end.

Fixpoint all_digits (s : string) : bool :=
  match s with
  | EmptyString => true
  | String c r => isdigit c && all_digits r
  end.

(** The digits before the first ['.'] and, when there is one, what
    follows it. *)
Fixpoint split_dot (s : string) : string * option string :=
  match s with
  | EmptyString => (EmptyString, None)
  | String c r =>
      if Ascii.eqb c "." then (EmptyString, Some r)
      else let '(i, f) := split_dot r in (String c i, f)
  end.

(** [str(n)] for an integer that is not negative. *)
Definition str_of_nonneg (n : Z) : string :=
  NilZero.string_of_uint (N.to_uint (Z.to_N n)).

(** [f'{z:+d}'] *)
Definition format_plus_d (z : Z) : string :=
  (if (z <? 0)%Z then "-" else "+") ++ str_of_nonneg (Z.abs z).

(** Commas between the groups of three digits, for a string of digits
    given last digit first; [n] digits of the current group were put. *)
Fixpoint group3_rev (n : nat) (rev_digits : string) : string :=
  match rev_digits with
  | EmptyString => EmptyString
  | String c r =>
      match n with
      | 3%nat => String "," (String c (group3_rev 1 r))
      | _ => String c (group3_rev (S n) r)
      end
  end.

Fixpoint rev (s : string) : string :=
  match s with
  | EmptyString => EmptyString
  | String c r => rev r ++ String c EmptyString
  end.

(** [_insert_thousands_sep] for the grouping by three with [','] *)
Definition insert_thousands_sep (digits : string) : string :=
  rev (group3_rev 0 (rev digits)).

End Str.

(** [Decimal(s)] for a string of digits and dots, which is what
    [re.sub(r'[^\d.]', '', ...)] leaves: no sign, no exponent. *)
Definition Decimal_of_string (s : string) : option Decimal :=
  match Str.split_dot s with
  | (i, None) =>
      if Str.all_digits i && negb (String.eqb i "")
      then Some (Dec.mkDecimal (Str.int_of_digits 0 i) 0) else None
  | (i, Some f) =>
      if Str.all_digits i && Str.all_digits f
         && negb (String.eqb i "" && String.eqb f "")
      then Some (Dec.mkDecimal (Str.int_of_digits 0 (i ++ f))
                               (- Z.of_nat (String.length f)))
      else None
  end.

(** [f'{d:,.2f}'] *)
Definition format_comma_2f (d : Decimal) : string :=
  let r := Dec.rescale_half_even d (-2) in
  let m := Z.abs (Dec.coef r) in
  ((if (Dec.coef d <? 0)%Z then "-" else "")
   ++ Str.insert_thousands_sep (Str.str_of_nonneg (m / 100))
   ++ "." ++ DT.zfill 2 (m mod 100))%string.

(* ------------------------------------------------------------------ *)
(** ** [parsers.py] *)

Module Parsers.

Local Open Scope string_scope.

(** [SATS_PER_BTC = Decimal('100000000')] *)
Definition SATS_PER_BTC : Decimal := Dec.mkDecimal 100000000 0.

(** [_parse_amount]: [value] is given by its printed form [str(value)],
    [None] standing for a missing value ([pd.isna]). *)
Definition _parse_amount (value : option string)
  : result (option Decimal * bool) :=
  match value with
  | None => Ok (None, false)
  | Some printed =>
      let value_str := Str.strip printed in
      let is_negative := String.prefix "-" value_str in
      let value_str := Str.lstrip_char "-" value_str in
      let has_decimal := Str.contains "." value_str in
      let value_str := Str.keep_digits_dots value_str in
      match Decimal_of_string value_str with
      | None => Ok (None, false)
      | Some amount =>
          if has_decimal && negb (amount == Dec.to_integral_value amount)%dec
          then Ok (Some amount, is_negative)
          else if Dec.gtb amount (Dec.mkDecimal 21000000 0) then
            amount <- Dec.truediv amount SATS_PER_BTC ;;
            Ok (Some amount, is_negative)
          else if Dec.gtb amount (Dec.mkDecimal 21 0)
                  && (amount == Dec.to_integral_value amount)%dec then
            amount <- Dec.truediv amount SATS_PER_BTC ;;
            Ok (Some amount, is_negative)
          else Ok (Some amount, is_negative)
      end
  end.

Definition buy_keywords : list string :=
  ["buy"; "purchase"; "dca"; "exchange"; "acquired"; "bought"].
Definition sell_keywords : list string :=
  ["sell"; "sold"; "exchange"; "profit"; "exit"].
Definition spend_keywords : list string :=
  ["spend"; "payment"; "paid"; "purchase"; "bought"].

(** [for kw in keywords: if kw in label_lower: return ...]: whether the
    loop returns. *)
Definition any_keyword (keywords : list string) (label_lower : string) : bool :=
  existsb (fun kw => Str.contains kw label_lower) keywords.

Definition _infer_tx_type (base_type label : string) : string :=
  let label_lower := Str.lower label in
  if String.eqb base_type "receive" && any_keyword buy_keywords label_lower
  then "buy"
  else if String.eqb base_type "send" && any_keyword sell_keywords label_lower
  then "sell"
  else if String.eqb base_type "send" && any_keyword spend_keywords label_lower
  then "spend"
  else base_type.

(** A dictionary with string keys, as its items: a key has the value of
    its first item. *)
Fixpoint dict_get {V : Type} (d : list (string * V)) (key : string) : option V :=
  match d with
  | [] => None
  | (k, v) :: r => if String.eqb k key then Some v else dict_get r key
  end.

(** The attributes of a [HistoricalPriceProvider] object. *)
Record HistoricalPriceProvider : Type := mkHistoricalPriceProvider {
  prices : list (string * Decimal);
  fallback_monthly : list (string * Z)
}.

(** [HistoricalPriceProvider.__init__], with [_load_fallback_prices]. *)
Definition HistoricalPriceProvider__init__ : HistoricalPriceProvider :=
  mkHistoricalPriceProvider []
    [ ("2023-01", 23000); ("2023-02", 31000); ("2023-03", 37000);
      ("2023-04", 39000); ("2023-05", 37000); ("2023-06", 41000);
      ("2023-07", 40000); ("2023-08", 36000); ("2023-09", 36000);
      ("2023-10", 46000); ("2023-11", 50000); ("2023-12", 58000);
      ("2024-01", 58000); ("2024-02", 70000); ("2024-03", 90000);
      ("2024-04", 85000); ("2024-05", 87000); ("2024-06", 85000);
      ("2024-07", 88000); ("2024-08", 80000); ("2024-09", 78000);
      ("2024-10", 92000); ("2024-11", 125000); ("2024-12", 130000);
      ("2025-01", 135000) ]%Z.

(** [date + pd.Timedelta(days=delta)] *)
Definition add_days (date : datetime) (delta : Z) : datetime :=
  (date + delta * DT.us_per_day)%Z.

(** [date.strftime('%Y-%m')] (years of four digits) *)
Definition strftime_Ym (d : datetime) : string :=
  DT.zfill 4 (DT.year d) ++ "-" ++ DT.zfill 2 (DT.month d).

(** The loop [for delta in [-days_offset, days_offset]] of [get_price]. *)
Fixpoint get_price_deltas (self : HistoricalPriceProvider) (date : datetime)
         (deltas : list Z) : option (Decimal * string) :=
  match deltas with
  | [] => None
  | delta :: rest =>
      let check_date := add_days date delta in
      let check_str := DT.strftime_Ymd check_date in
      match dict_get (prices self) check_str with
      | Some price =>
          Some (price, "nearest (" ++ Str.format_plus_d delta ++ " days)")
      | None => get_price_deltas self date rest
      end
  end.

(** The loop [for days_offset in range(1, 8)] of [get_price]. *)
Fixpoint get_price_offsets (self : HistoricalPriceProvider) (date : datetime)
         (offsets : list Z) : option (Decimal * string) :=
  match offsets with
  | [] => None
  | days_offset :: rest =>
      match get_price_deltas self date [(- days_offset)%Z; days_offset] with
      | Some found => Some found
      | None => get_price_offsets self date rest
      end
  end.

(** [HistoricalPriceProvider.get_price] *)
Definition get_price (self : HistoricalPriceProvider) (date : datetime)
  : Decimal * string :=
  let date_str := DT.strftime_Ymd date in
  match dict_get (prices self) date_str with
  | Some price => (price, "exact")
  | None =>
      match get_price_offsets self date [1; 2; 3; 4; 5; 6; 7]%Z with
      | Some found => found
      | None =>
          let month_str := strftime_Ym date in
          match dict_get (fallback_monthly self) month_str with
          | Some n => (Dec.mkDecimal n 0, "monthly_fallback")
          | None => (Dec.zero, "NO_PRICE_DATA")
          end
      end
  end.

(** [tx.price_cad = price] *)
Definition set_price_cad (tx : Transaction) (price : Decimal) : Transaction :=
  Transaction.mk (Transaction.date tx) (Transaction.tx_type tx)
                 (Transaction.amount_btc tx) price
                 (Transaction.fee_cad tx) (Transaction.label tx).

(** The loop of [add_prices_to_transactions]: the transactions with their
    price set, and the warnings appended. *)
Fixpoint add_prices_loop (transactions : list Transaction)
         (price_provider : HistoricalPriceProvider) (warnings : list string)
  : list Transaction * list string :=
  match transactions with
  | [] => ([], warnings)
  | tx :: rest =>
      let '(price, source) := get_price price_provider (Transaction.date tx) in
      let '(tx, warnings) :=
        if String.eqb source "NO_PRICE_DATA" then
          (set_price_cad tx Dec.zero,
           (warnings
            ++ [(DT.strftime_Ymd (Transaction.date tx)
                 ++ ": No price data available. "
                 ++ "Using $0 - MUST UPDATE for accurate tax calculation.")%string])%list)
        else if String.eqb source "monthly_fallback" then
          (set_price_cad tx price,
           (warnings
            ++ [(DT.strftime_Ymd (Transaction.date tx)
                 ++ ": Using monthly average price ($"
                 ++ format_comma_2f price ++ "). "
                 ++ "Upload historical price CSV for accuracy.")%string])%list)
        else (set_price_cad tx price, warnings) in
      let '(rest, warnings) := add_prices_loop rest price_provider warnings in
      (tx :: rest, warnings)
  end.

(** [add_prices_to_transactions]: the list it returns is the list it was
    given, whose transactions it has updated. *)
Definition add_prices_to_transactions (transactions : list Transaction)
           (price_provider : HistoricalPriceProvider)
  : list Transaction * list string :=
  add_prices_loop transactions price_provider [].

End Parsers.

(** [sub] occurs in [s]: what [sub in s] tests. *)
Definition occurs (sub s : string) : Prop :=
  exists pre post, s = (pre ++ sub ++ post)%string.

(** The price that the user's data holds for the day [delta] days from
    [date]. *)
Definition user_price (self : Parsers.HistoricalPriceProvider)
           (date : datetime) (delta : Z) : option Decimal :=
  Parsers.dict_get (Parsers.prices self)
                   (DT.strftime_Ymd (Parsers.add_days date delta)).

(** The source note of a price taken [delta] days from the date. *)
Definition nearest_note (delta : Z) : string :=
  ("nearest (" ++ Str.format_plus_d delta ++ " days)")%string.

(** The dates to which a week can be added and from which a week can be
    taken: [datetime.min + timedelta(days=7) <= date] and
    [date <= datetime.max - timedelta(days=7)]. *)
Definition week_inside (date : datetime) : Prop :=
  DT.make 1 1 8 0 0 0 0 <= date < DT.make 9999 12 25 0 0 0 0.

(** Whether the user's data has no price for any of the fifteen days
    around the date. *)
Definition unpriced (self : Parsers.HistoricalPriceProvider)
           (date : datetime) : bool :=
  forallb (fun delta => match user_price self date delta with
                        | None => true
                        | Some _ => false
                        end)
          [-7; -6; -5; -4; -3; -2; -1; 0; 1; 2; 3; 4; 5; 6; 7].

(** [tx] as [add_prices_to_transactions] leaves it. *)
Definition with_price (price_provider : Parsers.HistoricalPriceProvider)
           (tx : Transaction) : Transaction :=
  Parsers.set_price_cad tx
    (fst (Parsers.get_price price_provider (Transaction.date tx))).

(* ------------------------------------------------------------------ *)
(** ** The Schedule 3 export of [acb_engine.py] *)

(** A row of the table that [export_for_schedule_3] returns, with its
    nine columns; [F] is the type of the floats. *)
Record Schedule3Row (F : Type) : Type := mkSchedule3Row {
  Date_of_Disposition : string;
  Description : string;
  Number_of_Units : F;
  Proceeds_of_Disposition : F;
  Adjusted_Cost_Base : F;
  Outlays_and_Expenses : F;
  Gain_or_Loss : F;
  Superficial_Loss : string;
  Notes : string
}.

Arguments mkSchedule3Row {F} _ _ _ _ _ _ _ _ _.
Arguments Date_of_Disposition {F} _.
Arguments Description {F} _.
Arguments Number_of_Units {F} _.
Arguments Proceeds_of_Disposition {F} _.
Arguments Adjusted_Cost_Base {F} _.
Arguments Outlays_and_Expenses {F} _.
Arguments Gain_or_Loss {F} _.
Arguments Superficial_Loss {F} _.
Arguments Notes {F} _.

Section Schedule3.

(** The conversion [float] of a [Decimal] is left open. *)
Context {F : Type} (float : Decimal -> F).

(** The dictionary appended for one entry; [None] is the [TypeError] of
    [None + entry.fee_cad] or of [float(None)]. *)
Definition schedule_3_row (entry : LedgerEntry) : option (Schedule3Row F) :=
  match LedgerEntry.proceeds entry with
  | None => None
  | Some proceeds =>
      match LedgerEntry.cost_basis entry with
      | None => None
      | Some cost_basis =>
          match LedgerEntry.capital_gain entry with
          | None => None
          | Some capital_gain =>
              Some (mkSchedule3Row
                      (DT.strftime_Ymd (LedgerEntry.date entry))
                      ("Bitcoin (BTC) - " ++ LedgerEntry.tx_type entry)%string
                      (float (LedgerEntry.amount_btc entry))
                      (float (proceeds + LedgerEntry.fee_cad entry)%dec)
                      (float cost_basis)
                      (float (LedgerEntry.fee_cad entry))
                      (float capital_gain)
                      (if LedgerEntry.superficial_loss_flag entry
                       then "YES - REVIEW"%string else "No"%string)
                      (if LedgerEntry.superficial_loss_flag entry
                       then LedgerEntry.superficial_loss_note entry
                       else LedgerEntry.label entry))
          end
      end
  end.

(** The loop [for entry in dispositions: data.append({...})]. *)
Fixpoint schedule_3_rows (dispositions : list LedgerEntry)
  : option (list (Schedule3Row F)) :=
  match dispositions with
  | [] => Some []
  | entry :: rest =>
      match schedule_3_row entry with
      | None => None
      | Some row =>
          match schedule_3_rows rest with
          | None => None
          | Some data => Some (row :: data)
          end
      end
  end.

(** [ACBCalculator.export_for_schedule_3]: the rows of the table, an
    empty table having none. *)
Definition export_for_schedule_3 (self : ACBCalculator) (tax_year : Z)
  : option (list (Schedule3Row F)) :=
  let dispositions :=
    filter (fun e =>
              match LedgerEntry.capital_gain e with
              | Some _ => true
              | None => false
              end
              && (DT.year (LedgerEntry.date e) =? tax_year)%Z)
           (ledger self) in
  match dispositions with
  | [] => Some []
  | _ :: _ => schedule_3_rows dispositions
  end.

(** The row of a disposal entry: the proceeds column gives back the fee
    that the proceeds of the entry are net of, and the review mark goes
    with the flag of the entry. *)
Definition row_of (e : LedgerEntry) (row : Schedule3Row F) : Prop :=
  exists cb,
    LedgerEntry.cost_basis e = Some cb
    /\ Date_of_Disposition row = DT.strftime_Ymd (LedgerEntry.date e)
    /\ Description row
       = ("Bitcoin (BTC) - " ++ LedgerEntry.tx_type e)%string
    /\ Number_of_Units row = float (LedgerEntry.amount_btc e)
    /\ Proceeds_of_Disposition row
       = float ((LedgerEntry.amount_btc e * LedgerEntry.price_cad e
                 - LedgerEntry.fee_cad e) + LedgerEntry.fee_cad e)%dec
    /\ Adjusted_Cost_Base row = float cb
    /\ Outlays_and_Expenses row = float (LedgerEntry.fee_cad e)
    /\ Gain_or_Loss row
       = float ((LedgerEntry.amount_btc e * LedgerEntry.price_cad e
                 - LedgerEntry.fee_cad e) - cb)%dec
    /\ ((Superficial_Loss row = "YES - REVIEW"%string
         /\ LedgerEntry.superficial_loss_flag e = true
         /\ Notes row = LedgerEntry.superficial_loss_note e)
        \/ (Superficial_Loss row = "No"%string
            /\ LedgerEntry.superficial_loss_flag e = false
            /\ Notes row = LedgerEntry.label e)).

End Schedule3.

(** The disposal entries of a year. *)
Definition disposals_of_year (entries : list LedgerEntry) (y : Z)
  : list LedgerEntry :=
  filter (fun e => is_disposition (LedgerEntry.tx_type e)
                   && (DT.year (LedgerEntry.date e) =? y)%Z) entries.

(** The rows marked for review. *)
Definition marked {F : Type} (rows : list (Schedule3Row F))
  : list (Schedule3Row F) :=
  filter (fun row => String.eqb (Superficial_Loss row) "YES - REVIEW") rows.

(** An entry as a run writes it: of a disposal, with its gain fields, or
    of no disposal, without them. *)
Definition well_formed (e : LedgerEntry) : Prop :=
  (is_disposition (LedgerEntry.tx_type e) = false /\ gainless e)
  \/ (is_disposition (LedgerEntry.tx_type e) = true /\ realised e).

(* ------------------------------------------------------------------ *)
(** ** The exception monad *)

Lemma bind_Ok {A B : Type} (m : result A) (k : A -> result B) (b : B) :
  bind m k = Ok b -> exists a, m = Ok a /\ k a = Ok b.
Proof.
  destruct m as [a | e]; simpl; intros H; [eauto | discriminate].
Qed.

Tactic Notation "inv_bind" hyp(H) "as" ident(a) ident(Ha) :=
  apply bind_Ok in H; destruct H as [a [Ha H]].

(* ------------------------------------------------------------------ *)
(** ** One transaction *)

Lemma acb_per_btc_pool (self self' : ACBCalculator) :
  pool self = pool self' -> acb_per_btc self = acb_per_btc self'.
Proof.
  unfold pool, acb_per_btc. intros H. injection H as Hc Hb.
  rewrite Hc, Hb. reflexivity.
Qed.

Lemma is_disposition_not_acquisition (k : string) :
  is_disposition k = true -> is_acquisition k = false.
Proof.
  unfold is_disposition, is_acquisition. intros H.
  apply orb_true_iff in H. destruct H as [H | H].
  - apply orb_true_iff in H.
    destruct H as [H | H]; apply String.eqb_eq in H; subst k; reflexivity.
  - apply String.eqb_eq in H; subst k; reflexivity.
Qed.

(** What a successful [_process_acquisition] returns. *)
Lemma _process_acquisition_Ok (self self' : ACBCalculator)
      (tx : Transaction) (e : LedgerEntry) :
  _process_acquisition self tx = Ok (self', e) ->
  self' = mkACBCalculator
            (total_cost self
             + (Transaction.amount_btc tx * Transaction.price_cad tx
                + Transaction.fee_cad tx))%dec
            (total_btc self + Transaction.amount_btc tx)%dec
            (ledger self) (_recent_transactions self)
  /\ acb_per_btc self' = Ok (LedgerEntry.acb_per_btc e)
  /\ LedgerEntry.total_cost_after e = total_cost self'
  /\ LedgerEntry.total_btc_after e = total_btc self'
  /\ LedgerEntry.date e = Transaction.date tx
  /\ LedgerEntry.tx_type e = Transaction.tx_type tx
  /\ LedgerEntry.amount_btc e = Transaction.amount_btc tx
  /\ LedgerEntry.capital_gain e = None
  /\ LedgerEntry.cost_basis e = None.
Proof.
  unfold _process_acquisition. cbv zeta. intros H. inv_bind H as acb Hacb.
  injection H as Hs He. subst self' e. simpl.
  repeat split; try reflexivity. exact Hacb.
Qed.

(** What a successful [_process_disposition] returns: [p] is the per-unit
    cost read before the pool changes. *)
Lemma _process_disposition_Ok (self self' : ACBCalculator)
      (tx : Transaction) (e : LedgerEntry) :
  _process_disposition self tx = Ok (self', e) ->
  exists p : Decimal,
    acb_per_btc self = Ok p
    /\ self' = after_disposal self tx p
    /\ acb_per_btc self' = Ok (LedgerEntry.acb_per_btc e)
    /\ LedgerEntry.total_cost_after e = total_cost self'
    /\ LedgerEntry.total_btc_after e = total_btc self'
    /\ LedgerEntry.date e = Transaction.date tx
    /\ LedgerEntry.tx_type e = Transaction.tx_type tx
    /\ LedgerEntry.amount_btc e = Transaction.amount_btc tx
    /\ LedgerEntry.proceeds e = Some (proceeds_of tx)
    /\ LedgerEntry.cost_basis e = Some (Transaction.amount_btc tx * p)%dec
    /\ LedgerEntry.capital_gain e
       = Some (proceeds_of tx - Transaction.amount_btc tx * p)%dec
    /\ (LedgerEntry.superficial_loss_flag e,
        LedgerEntry.superficial_loss_note e)
       = (if (proceeds_of tx - Transaction.amount_btc tx * p <? Dec.zero)%dec
          then _check_superficial_loss self tx
          else (false, ""%string)).
Proof.
  unfold _process_disposition. cbv zeta.
  cbn [total_cost total_btc ledger _recent_transactions].
  fold (proceeds_of tx). fold epsilon. fold (reduced_btc self tx).
  intros H. inv_bind H as p Hp. exists p. split; [exact Hp |].
  fold (reduced_cost self tx p) in H.
  destruct (if (proceeds_of tx - Transaction.amount_btc tx * p <? Dec.zero)%dec
            then _check_superficial_loss self tx
            else (false, ""%string)) as [flag note] eqn:Hfn.
  inv_bind H as p2 Hp2. rewrite Hp in Hp2. injection Hp2 as <-.
  fold (reduced_cost self tx p) in H.
  inv_bind H as p' Hp'. injection H as Hs He.
  fold (after_disposal self tx p) in Hp', Hs, He.
  subst e. cbn [LedgerEntry.acb_per_btc LedgerEntry.total_cost_after
                LedgerEntry.total_btc_after LedgerEntry.date
                LedgerEntry.tx_type LedgerEntry.amount_btc
                LedgerEntry.proceeds LedgerEntry.cost_basis
                LedgerEntry.capital_gain LedgerEntry.superficial_loss_flag
                LedgerEntry.superficial_loss_note].
  rewrite Hs in *.
  repeat split; try reflexivity; assumption.
Qed.

(* ------------------------------------------------------------------ *)
(** ** Facts on decimals *)

Lemma pow10_pos (k : Z) : 0 <= k -> 0 < Dec.pow10 k.
Proof. intros H. unfold Dec.pow10. apply Z.pow_pos_nonneg; lia. Qed.

Lemma fix_small (d : Decimal) :
  (Dec.ndigits (Dec.coef d) >? Dec.prec) = false -> Dec.fix_ d = d.
Proof.
  intros H. unfold Dec.fix_.
  destruct (Dec.coef d =? 0); [reflexivity |].
  destruct (Z.ltb_spec (Dec.dexp d)
              (Dec.ndigits (Dec.coef d) + Dec.dexp d - Dec.prec)) as [Hlt | Hge];
    [| reflexivity].
  rewrite Z.gtb_ltb in H. apply Z.ltb_ge in H. lia.
Qed.

Lemma fix_zero (e : Z) : Dec.fix_ (Dec.mkDecimal 0 e) = Dec.mkDecimal 0 e.
Proof. reflexivity. Qed.

Lemma round_half_up_bounds (m k : Z) :
  0 <= m -> 0 <= k ->
  0 <= Dec.round_half_up m k
  /\ 2 * (Dec.round_half_up m k * Dec.pow10 k) <= 2 * m + Dec.pow10 k
     < 2 * ((Dec.round_half_up m k + 1) * Dec.pow10 k).
Proof.
  intros Hm Hk. unfold Dec.round_half_up.
  pose proof (pow10_pos k Hk) as HP.
  pose proof (Z.div_mod m (Dec.pow10 k) ltac:(lia)) as Hdm.
  pose proof (Z.mod_pos_bound m (Dec.pow10 k) HP) as Hr.
  assert (Hq : 0 <= m / Dec.pow10 k) by (apply Z.div_pos; lia).
  destruct (Z.geb_spec (2 * (m mod Dec.pow10 k)) (Dec.pow10 k)); nia.
Qed.

(** [quantize(Decimal('0.01'), ROUND_HALF_UP)] rounds to cents, half up. *)
Lemma quantize_half_up_cents (q p : Decimal) :
  Dec.quantize_half_up q (Dec.mkDecimal 1 (-2)) = Ok p ->
  rounds_to_cents_half_up q p.
Proof.
  unfold Dec.quantize_half_up, rounds_to_cents_half_up. cbn [Dec.dexp].
  destruct (Z.eqb_spec (Dec.coef q) 0) as [Hz | Hnz].
  - intros H. injection H as <-. rewrite fix_zero, Hz. cbn [Dec.dexp Dec.coef].
    pose proof (pow10_pos (-2 - Z.min (Dec.dexp q) (-2)) ltac:(lia)).
    repeat split; lia.
  - destruct (_ >? Dec.prec); [discriminate |].
    destruct (Dec.ndigits _ >? Dec.prec) eqn:Hnd; [discriminate |].
    intros H. injection H as <-. rewrite (fix_small _ Hnd).
    unfold Dec.rescale_half_up.
    destruct (Z.eqb_spec (Dec.coef q) 0) as [| _]; [contradiction |].
    destruct (Z.geb_spec (Dec.dexp q) (-2)) as [Hge | Hlt]; cbn [Dec.dexp Dec.coef].
    + rewrite Z.min_r by lia.
      replace (-2 - -2) with 0 by lia. change (Dec.pow10 0) with 1.
      pose proof (pow10_pos (Dec.dexp q - -2) ltac:(lia)) as HP.
      destruct (Dec.coef q) as [| c | c]; [contradiction | |];
        cbn [Z.sgn Z.abs]; repeat split; try nia.
    + rewrite Z.min_l by lia.
      replace (Dec.dexp q - Dec.dexp q) with 0 by lia.
      change (Dec.pow10 0) with 1.
      destruct (round_half_up_bounds (Z.abs (Dec.coef q)) (-2 - Dec.dexp q))
        as [Hr0 Hr]; [lia | lia |].
      assert (Habs : Z.abs (Z.sgn (Dec.coef q)
                            * Dec.round_half_up (Z.abs (Dec.coef q))
                                                (-2 - Dec.dexp q))
                     = Dec.round_half_up (Z.abs (Dec.coef q)) (-2 - Dec.dexp q)).
      { destruct (Dec.coef q) as [| c | c]; [contradiction | |];
          cbn [Z.sgn]; lia. }
      rewrite Habs. repeat split; try lia.
Qed.

(** The per-unit cost of a pool: zero for an empty pool, the quotient
    rounded to cents half up otherwise. *)
Lemma acb_per_btc_Ok (self : ACBCalculator) (p : Decimal) :
  acb_per_btc self = Ok p ->
  ((total_btc self <=? Dec.zero)%dec = true /\ p = Dec.zero)
  \/ ((total_btc self <=? Dec.zero)%dec = false
      /\ exists q, Dec.truediv (total_cost self) (total_btc self) = Ok q
                   /\ rounds_to_cents_half_up q p).
Proof.
  unfold acb_per_btc. destruct (_ <=? _)%dec.
  - intros H. injection H as <-. left. split; reflexivity.
  - intros H. inv_bind H as q Hq. right. split; [reflexivity |].
    exists q. split; [exact Hq |]. apply quantize_half_up_cents. exact H.
Qed.

(* ------------------------------------------------------------------ *)
(** ** The per-unit cost of a disposal *)

(** [fixture_pool] is the pool that the two acquisitions of the fixture
    leave. *)
Lemma fixture_pool_reached :
  exists self' led,
    process_transactions __init__ (firstn 2 fixture) = Ok (self', led)
    /\ pool self' = pool fixture_pool.
Proof.
  do 2 eexists. split; vm_compute; reflexivity.
Qed.

(** C1, as stated, fails: the entry reports the per-unit cost of the pool
    after the disposal.  Selling all 0.75 units of the pool of the
    fixture takes the cost basis at 61773.33 and reports 0, the per-unit
    cost of the emptied pool; the disposal of the fixture takes its cost
    basis at 61773.33 and reports 61773.34. *)
Lemma C1_reported_cost_differs :
  (exists self' e,
     _process_disposition fixture_pool sell_all = Ok (self', e)
     /\ acb_per_btc fixture_pool = Ok (Dec.mkDecimal 6177333 (-2))
     /\ LedgerEntry.cost_basis e
        = Some (Transaction.amount_btc sell_all * Dec.mkDecimal 6177333 (-2))%dec
     /\ LedgerEntry.acb_per_btc e = Dec.zero)
  /\ (exists self' e1 e2 e3,
        process_transactions __init__ fixture = Ok (self', [e1; e2; e3])
        /\ LedgerEntry.acb_per_btc e2 = Dec.mkDecimal 6177333 (-2)
        /\ LedgerEntry.cost_basis e3
           = Some (LedgerEntry.amount_btc e3 * Dec.mkDecimal 6177333 (-2))%dec
        /\ LedgerEntry.acb_per_btc e3 = Dec.mkDecimal 6177334 (-2)
        /\ (LedgerEntry.acb_per_btc e3 == Dec.mkDecimal 6177333 (-2))%dec = false).
Proof.
  split.
  - do 2 eexists. split; [vm_compute; reflexivity |].
    repeat split; vm_compute; reflexivity.
  - do 4 eexists. split; [vm_compute; reflexivity |].
    repeat split; vm_compute; reflexivity.
Qed.

(** C1 (amended): a disposal reads one per-unit cost [p] from the pool
    before it changes, zero for an empty pool and otherwise the quotient
    rounded to two decimal places half up; the cost basis is
    [quantity * p] and the pool loses [quantity * p] with that same [p];
    the entry reports the per-unit cost of the pool after the disposal. *)
Theorem C1_one_per_unit_cost (self self' : ACBCalculator)
        (tx : Transaction) (e : LedgerEntry) :
  _process_disposition self tx = Ok (self', e) ->
  exists p : Decimal,
    acb_per_btc self = Ok p
    /\ (((total_btc self <=? Dec.zero)%dec = true /\ p = Dec.zero)
        \/ ((total_btc self <=? Dec.zero)%dec = false
            /\ exists q,
                 Dec.truediv (total_cost self) (total_btc self) = Ok q
                 /\ rounds_to_cents_half_up q p))
    /\ LedgerEntry.cost_basis e = Some (Transaction.amount_btc tx * p)%dec
    /\ pool self'
       = (if (total_btc self - Transaction.amount_btc tx <? epsilon)%dec
          then (Dec.zero, Dec.zero)
          else ((total_cost self - Transaction.amount_btc tx * p)%dec,
                (total_btc self - Transaction.amount_btc tx)%dec))
    /\ acb_per_btc self' = Ok (LedgerEntry.acb_per_btc e).
Proof.
  intros H. apply _process_disposition_Ok in H.
  destruct H as (p & Hp & Hs & Hacb & _ & _ & _ & _ & _ & _ & Hcb & _).
  exists p. split; [exact Hp |].
  split; [apply acb_per_btc_Ok; exact Hp |].
  split; [exact Hcb |]. split; [| exact Hacb].
  rewrite Hs. unfold after_disposal, pool, reduced_btc, reduced_cost.
  destruct (_ <? _)%dec; reflexivity.
Qed.

Lemma C1_one_per_unit_cost_witness :
  exists self' e p,
    _process_disposition fixture_pool (nth 2 fixture zero_price_sale)
    = Ok (self', e)
    /\ acb_per_btc fixture_pool = Ok p
    /\ LedgerEntry.cost_basis e
       = Some (Transaction.amount_btc (nth 2 fixture zero_price_sale) * p)%dec
    /\ acb_per_btc self' = Ok (LedgerEntry.acb_per_btc e).
Proof.
  do 2 eexists.
  assert (Hrun : _process_disposition fixture_pool (nth 2 fixture zero_price_sale)
                 = Ok (_, _)) by (vm_compute; reflexivity).
  destruct (C1_one_per_unit_cost _ _ _ _ Hrun) as (p & Hp & _ & Hcb & _ & Hacb).
  exists p. split; [exact Hrun |]. split; [exact Hp |].
  split; [exact Hcb | exact Hacb].
Defined.

(* ------------------------------------------------------------------ *)
(** ** The fixture *)

(** C2, as stated, fails: the pool after the two acquisitions holds
    46330.00, not 46280.00, its per-unit cost is not 61706.67, and the
    disposal has neither the cost basis 18512.00 nor the gain 2463.00. *)
Lemma C2_fixture_not_as_stated :
  exists self' e1 e2 e3 cb g,
    process_transactions __init__ fixture = Ok (self', [e1; e2; e3])
    /\ (LedgerEntry.total_cost_after e2 == Dec.mkDecimal 4628000 (-2))%dec = false
    /\ (LedgerEntry.acb_per_btc e2 == Dec.mkDecimal 6170667 (-2))%dec = false
    /\ LedgerEntry.cost_basis e3 = Some cb
    /\ (cb == Dec.mkDecimal 1851200 (-2))%dec = false
    /\ LedgerEntry.capital_gain e3 = Some g
    /\ (g == Dec.mkDecimal 246300 (-2))%dec = false.
Proof.
  do 6 eexists. split; [vm_compute; reflexivity |].
  repeat split; vm_compute; reflexivity.
Qed.

(** C2 (amended): from any calculator, the fixture yields three entries;
    after the two acquisitions the pool is total_cost 46330.00,
    total_units 0.75, per-unit cost 61773.33; the disposal has proceeds
    20975.00, cost basis 18531.999, gain 2443.001, and no superficial-loss
    flag or note. *)
Theorem C2_fixture (self : ACBCalculator) :
  exists self' e1 e2 e3 pr cb g,
    process_transactions self fixture = Ok (self', [e1; e2; e3])
    /\ (LedgerEntry.total_cost_after e2 == Dec.mkDecimal 4633000 (-2))%dec = true
    /\ (LedgerEntry.total_btc_after e2 == Dec.mkDecimal 75 (-2))%dec = true
    /\ (LedgerEntry.acb_per_btc e2 == Dec.mkDecimal 6177333 (-2))%dec = true
    /\ LedgerEntry.proceeds e3 = Some pr
    /\ (pr == Dec.mkDecimal 2097500 (-2))%dec = true
    /\ LedgerEntry.cost_basis e3 = Some cb
    /\ (cb == Dec.mkDecimal 18531999 (-3))%dec = true
    /\ LedgerEntry.capital_gain e3 = Some g
    /\ (g == Dec.mkDecimal 2443001 (-3))%dec = true
    /\ LedgerEntry.superficial_loss_flag e3 = false
    /\ LedgerEntry.superficial_loss_note e3 = ""%string.
Proof.
  do 7 eexists. split; [vm_compute; reflexivity |].
  repeat split; vm_compute; reflexivity.
Qed.

(* ------------------------------------------------------------------ *)
(** ** The sign of the pool *)

(** C3 fails on the code: buying 1 unit at 60000.005 gives the per-unit
    cost 60000.01 (rounded up); selling 0.99999999 units then removes
    more cost than the pool holds.  The remaining 1e-8 units are not
    below the clamp threshold, so the pool keeps total_cost
    -0.0043999999 and reports the per-unit cost -439999.99. *)
Theorem C3_total_cost_negative :
  exists self' e1 e2,
    process_transactions __init__ round_up_then_sell = Ok (self', [e1; e2])
    /\ total_cost self' = Dec.mkDecimal (-43999999) (-10)
    /\ total_btc self' = Dec.mkDecimal 1 (-8)
    /\ (total_cost self' <? Dec.zero)%dec = true
    /\ LedgerEntry.total_cost_after e2 = total_cost self'
    /\ LedgerEntry.acb_per_btc e2 = Dec.mkDecimal (-43999999) (-2).
Proof.
  do 3 eexists. split; [vm_compute; reflexivity |].
  repeat split; vm_compute; reflexivity.
Qed.

(* ------------------------------------------------------------------ *)
(** ** The clamp *)

(** C5: in a disposal, when [total_units - quantity] is below 1e-8 the
    pool and the snapshot of the entry are exactly [Decimal('0')] for
    both totals; otherwise they are the two differences, unclamped. *)
Theorem C5_clamp (self self' : ACBCalculator)
        (tx : Transaction) (e : LedgerEntry) :
  _process_disposition self tx = Ok (self', e) ->
  exists p : Decimal,
    acb_per_btc self = Ok p
    /\ LedgerEntry.total_btc_after e = total_btc self'
    /\ LedgerEntry.total_cost_after e = total_cost self'
    /\ ((total_btc self - Transaction.amount_btc tx <? epsilon)%dec = true ->
        total_btc self' = Dec.zero /\ total_cost self' = Dec.zero)
    /\ ((total_btc self - Transaction.amount_btc tx <? epsilon)%dec = false ->
        total_btc self' = (total_btc self - Transaction.amount_btc tx)%dec
        /\ total_cost self'
           = (total_cost self - Transaction.amount_btc tx * p)%dec).
Proof.
  intros H. apply _process_disposition_Ok in H.
  destruct H as (p & Hp & Hs & _ & Hc & Hb & _).
  exists p. split; [exact Hp |]. split; [exact Hb |]. split; [exact Hc |].
  rewrite Hs. unfold after_disposal, reduced_btc, reduced_cost.
  split; intros Hlt; rewrite Hlt; split; reflexivity.
Qed.

Lemma C5_clamp_witness :
  exists self' e,
    _process_disposition (mkACBCalculator Dec.zero Dec.zero [] [])
                         zero_price_sale = Ok (self', e)
    /\ total_btc self' = Dec.zero /\ total_cost self' = Dec.zero
    /\ LedgerEntry.total_btc_after e = Dec.zero
    /\ LedgerEntry.total_cost_after e = Dec.zero.
Proof.
  do 2 eexists.
  assert (Hrun : _process_disposition (mkACBCalculator Dec.zero Dec.zero [] [])
                                      zero_price_sale = Ok (_, _))
    by (vm_compute; reflexivity).
  destruct (C5_clamp _ _ _ _ Hrun) as (p & _ & Hb & Hc & Hclamp & _).
  destruct (Hclamp eq_refl) as [Hb0 Hc0].
  split; [exact Hrun |]. split; [exact Hb0 |]. split; [exact Hc0 |].
  split; [rewrite Hb; exact Hb0 | rewrite Hc; exact Hc0].
Defined.

(* ------------------------------------------------------------------ *)
(** ** The sort *)

Section SortedFacts.
Context {A : Type} (key : A -> Z).

Local Abbreviation key_le := (key_le key).

Lemma insert_by_perm (x : A) (l : list A) :
  Permutation (x :: l) (insert_by key x l).
Proof.
  induction l as [| y r IH]; simpl.
  - apply Permutation_refl.
  - destruct (key x <=? key y).
    + apply Permutation_refl.
    + eapply perm_trans; [apply perm_swap |].
      apply perm_skip. exact IH.
Qed.

Lemma sorted_perm (l : list A) : Permutation l (sorted key l).
Proof.
  induction l as [| x r IH]; simpl.
  - apply perm_nil.
  - eapply perm_trans; [apply perm_skip; exact IH |].
    apply insert_by_perm.
Qed.

Lemma insert_by_Forall (P : A -> Prop) (x : A) (l : list A) :
  P x -> Forall P l -> Forall P (insert_by key x l).
Proof.
  intros Hx Hl.
  eapply Permutation_Forall; [apply insert_by_perm |].
  constructor; assumption.
Qed.

Lemma insert_by_sorted (x : A) (l : list A) :
  StronglySorted key_le l -> StronglySorted key_le (insert_by key x l).
Proof.
  induction 1 as [| y r Hr IH Hy]; simpl.
  - constructor; constructor.
  - destruct (Z.leb_spec (key x) (key y)) as [Hle | Hgt].
    + constructor.
      * constructor; assumption.
      * constructor; [exact Hle |].
        eapply Forall_impl; [| exact Hy].
        unfold key_le. intros z Hz. lia.
    + constructor; [exact IH |].
      apply insert_by_Forall; [unfold key_le; lia | exact Hy].
Qed.

Lemma sorted_sorted (l : list A) : StronglySorted key_le (sorted key l).
Proof.
  induction l as [| x r IH]; simpl.
  - constructor.
  - apply insert_by_sorted. exact IH.
Qed.

(** An element not above any of a list is inserted in front of it. *)
Lemma insert_by_front (x : A) (l : list A) :
  Forall (key_le x) l -> insert_by key x l = x :: l.
Proof.
  intros H. destruct l as [| y r]; simpl; [reflexivity |].
  inversion H as [| ? ? Hy _]; subst.
  unfold key_le in Hy.
  destruct (Z.leb_spec (key x) (key y)); [reflexivity | lia].
Qed.

(** Stability: the elements of one key keep their input order. *)
Lemma insert_by_stable (d : Z) (x : A) (l : list A) :
  filter (fun a => key a =? d) (insert_by key x l)
  = filter (fun a => key a =? d) (x :: l).
Proof.
  induction l as [| y r IH]; [reflexivity |].
  cbn [insert_by].
  destruct (Z.leb_spec (key x) (key y)) as [Hle | Hgt]; [reflexivity |].
  cbn [filter] in *. rewrite IH.
  destruct (Z.eqb_spec (key x) d), (Z.eqb_spec (key y) d);
    try reflexivity; lia.
Qed.

Lemma sorted_stable (d : Z) (l : list A) :
  filter (fun a => key a =? d) (sorted key l)
  = filter (fun a => key a =? d) l.
Proof.
  induction l as [| x r IH]; [reflexivity |].
  cbn [sorted]. rewrite insert_by_stable. cbn [filter].
  rewrite IH. reflexivity.
Qed.

(** Sorting commutes with the removal of elements. *)
Lemma filter_insert_by (p : A -> bool) (x : A) (l : list A) :
  StronglySorted key_le l ->
  filter p (insert_by key x l)
  = if p x then insert_by key x (filter p l) else filter p l.
Proof.
  induction 1 as [| y r Hr IH Hy]; cbn [insert_by filter].
  - destruct (p x); reflexivity.
  - destruct (Z.leb_spec (key x) (key y)) as [Hle | Hgt].
    + cbn [filter]. destruct (p x) eqn:Hpx; [| reflexivity].
      destruct (p y) eqn:Hpy.
      * cbn [insert_by].
        destruct (Z.leb_spec (key x) (key y)); [reflexivity | lia].
      * symmetry. apply insert_by_front.
        apply Forall_forall. intros z Hz.
        apply filter_In in Hz. destruct Hz as [Hz _].
        rewrite Forall_forall in Hy. specialize (Hy z Hz).
        unfold key_le in *. lia.
    + cbn [filter]. rewrite IH.
      destruct (p x) eqn:Hpx, (p y) eqn:Hpy; try reflexivity.
      cbn [insert_by].
      destruct (Z.leb_spec (key x) (key y)); [lia | reflexivity].
Qed.

Lemma filter_sorted (p : A -> bool) (l : list A) :
  filter p (sorted key l) = sorted key (filter p l).
Proof.
  induction l as [| x r IH]; [reflexivity |].
  cbn [sorted filter].
  rewrite filter_insert_by by apply sorted_sorted.
  rewrite IH. destruct (p x); reflexivity.
Qed.
End SortedFacts.

(* ------------------------------------------------------------------ *)
(** ** A run *)

Lemma is_acquisition_not_disposition (k : string) :
  is_acquisition k = true -> is_disposition k = false.
Proof.
  intros H. destruct (is_disposition k) eqn:Hd; [| reflexivity].
  apply is_disposition_not_acquisition in Hd. congruence.
Qed.

(** The three ways through the body of the loop. *)
Lemma process_one_Ok (self self' : ACBCalculator) (tx : Transaction) :
  process_one self tx = Ok self' ->
  (recognised tx = false /\ self' = self)
  \/ (exists s e,
        is_acquisition (Transaction.tx_type tx) = true
        /\ _process_acquisition self tx = Ok (s, e)
        /\ self' = mkACBCalculator (total_cost s) (total_btc s)
                     (ledger self ++ [e]) (_recent_transactions self ++ [tx]))
  \/ (exists s e,
        is_disposition (Transaction.tx_type tx) = true
        /\ _process_disposition self tx = Ok (s, e)
        /\ self' = mkACBCalculator (total_cost s) (total_btc s)
                     (ledger self ++ [e]) (_recent_transactions self ++ [tx])).
Proof.
  unfold process_one, recognised.
  destruct (is_acquisition (Transaction.tx_type tx)) eqn:Ha.
  - intros H. inv_bind H as r Hr. destruct r as [s e].
    injection H as <-. right. left. exists s, e.
    split; [reflexivity |]. split; [exact Hr |].
    apply _process_acquisition_Ok in Hr. destruct Hr as (Hs & _).
    rewrite Hs. reflexivity.
  - destruct (is_disposition (Transaction.tx_type tx)) eqn:Hd.
    + intros H. inv_bind H as r Hr. destruct r as [s e].
      injection H as <-. right. right. exists s, e.
      split; [reflexivity |]. split; [exact Hr |].
      apply _process_disposition_Ok in Hr. destruct Hr as (p & _ & Hs & _).
      rewrite Hs. unfold after_disposal.
      destruct (_ <? _)%dec; reflexivity.
    + intros H. injection H as <-. left. split; reflexivity.
Qed.

(** A property kept by every turn of the loop is kept by the loop. *)
Lemma process_loop_invariant (I : ACBCalculator -> Prop) :
  (forall self self' tx, I self -> process_one self tx = Ok self' -> I self') ->
  forall txs self self',
    I self -> process_loop self txs = Ok self' -> I self'.
Proof.
  intros Hstep txs. induction txs as [| tx rest IH]; simpl; intros self self' HI H.
  - injection H as <-. exact HI.
  - inv_bind H as s Hs. eapply IH; [| exact H]. eapply Hstep; eassumption.
Qed.

(** The history holds the transactions that were not skipped, in order. *)
Lemma process_loop_recent (txs : list Transaction) :
  forall self self',
    process_loop self txs = Ok self' ->
    _recent_transactions self'
    = _recent_transactions self ++ filter recognised txs.
Proof.
  induction txs as [| tx rest IH]; simpl; intros self self' H.
  - injection H as <-. rewrite app_nil_r. reflexivity.
  - inv_bind H as s Hs. apply IH in H. rewrite H.
    apply process_one_Ok in Hs.
    destruct Hs as [[Hn ->] | [(s0 & e & Ha & _ & ->) | (s0 & e & Hd & _ & ->)]].
    + rewrite Hn. reflexivity.
    + unfold recognised. rewrite Ha. cbn. rewrite <- app_assoc. reflexivity.
    + unfold recognised. rewrite Hd, orb_true_r. cbn.
      rewrite <- app_assoc. reflexivity.
Qed.

(** The loop does not see the transactions of an unknown kind. *)
Lemma process_loop_filter (txs : list Transaction) :
  forall self,
    process_loop self (filter recognised txs) = process_loop self txs.
Proof.
  induction txs as [| tx rest IH]; intros self; [reflexivity |].
  cbn [filter]. destruct (recognised tx) eqn:Hr.
  - cbn [process_loop]. destruct (process_one self tx); simpl; [apply IH | reflexivity].
  - cbn [process_loop]. unfold process_one. unfold recognised in Hr.
    apply orb_false_iff in Hr. destruct Hr as [-> ->]. simpl. apply IH.
Qed.

(* ------------------------------------------------------------------ *)
(** ** Continuity of the per-unit cost *)

Lemma snoc_adjacent {A : Type} (l l1 l2 : list A) (e a b : A) :
  l ++ [e] = l1 ++ a :: b :: l2 ->
  (l2 = [] /\ b = e /\ l = l1 ++ [a])
  \/ (exists l2', l2 = l2' ++ [e] /\ l = l1 ++ a :: b :: l2').
Proof.
  intros H. destruct (@exists_last _ (a :: b :: l2) ltac:(discriminate))
    as (m & z & Hm).
  rewrite Hm, app_assoc in H. apply app_inj_tail in H. destruct H as [Hl <-].
  destruct l2 as [| c l2].
  - left. change [a; b] with ([a] ++ [b]) in Hm.
    apply app_inj_tail in Hm. destruct Hm as [<- <-].
    repeat split; assumption.
  - right. destruct (@exists_last _ (c :: l2) ltac:(discriminate))
      as (m' & z' & Hm').
    rewrite Hm' in Hm. change (a :: b :: m' ++ [z']) with ((a :: b :: m') ++ [z']) in Hm.
    apply app_inj_tail in Hm. destruct Hm as [<- <-].
    exists m'. split; [exact Hm' | exact Hl].
Qed.

Lemma continuous_init : continuous (mkACBCalculator Dec.zero Dec.zero [] []).
Proof.
  split; cbn [ledger]; intros; exfalso; eapply app_cons_not_nil; eassumption.
Qed.

Lemma continuity_step (self self' : ACBCalculator) (tx : Transaction) :
  continuous self -> process_one self tx = Ok self' -> continuous self'.
Proof.
  intros [Hlast Hadj] H. apply process_one_Ok in H.
  destruct H as [[_ ->] | [(s & e0 & Ha & Hacq & ->) | (s & e0 & Hd & Hdis & ->)]].
  - split; assumption.
  - apply _process_acquisition_Ok in Hacq.
    destruct Hacq as (_ & Hacb & _ & _ & _ & Hty & _).
    unfold continuous. cbn [ledger]. split.
    + intros l e Hl. apply app_inj_tail in Hl. destruct Hl as [_ <-].
      rewrite <- Hacb. apply acb_per_btc_pool. reflexivity.
    + intros l1 e_prev e l2 Hl Hdisp. apply snoc_adjacent in Hl.
      destruct Hl as [(_ & -> & _) | (l2' & _ & Hl)].
      * rewrite Hty in Hdisp.
        apply is_acquisition_not_disposition in Ha. congruence.
      * eapply Hadj; eassumption.
  - apply _process_disposition_Ok in Hdis.
    destruct Hdis as (p & Hp & _ & Hacb & _ & _ & _ & _ & Ham & _ & Hcb & _).
    unfold continuous. cbn [ledger]. split.
    + intros l e Hl. apply app_inj_tail in Hl. destruct Hl as [_ <-].
      rewrite <- Hacb. apply acb_per_btc_pool. reflexivity.
    + intros l1 e_prev e l2 Hl Hdisp. apply snoc_adjacent in Hl.
      destruct Hl as [(_ & -> & Hl) | (l2' & _ & Hl)].
      * apply Hlast in Hl. rewrite Hp in Hl. injection Hl as ->.
        rewrite Hcb, Ham. reflexivity.
      * eapply Hadj; eassumption.
Qed.

(** C4: in the ledger of a run, a disposal that follows another entry has
    the cost basis [quantity * per-unit cost] with the per-unit cost that
    the entry just before it reports. *)
Theorem C4_continuity (self self' : ACBCalculator) (txs : list Transaction)
        (l1 l2 : list LedgerEntry) (e_prev e : LedgerEntry) :
  process_transactions self txs = Ok (self', l1 ++ e_prev :: e :: l2) ->
  is_disposition (LedgerEntry.tx_type e) = true ->
  LedgerEntry.cost_basis e
  = Some (LedgerEntry.amount_btc e * LedgerEntry.acb_per_btc e_prev)%dec.
Proof.
  unfold process_transactions. cbv zeta. intros H Hd.
  inv_bind H as s Hs. injection H as <- Hl.
  destruct (process_loop_invariant _ continuity_step _ _ _ continuous_init Hs)
    as [_ Hadj].
  eapply Hadj; eassumption.
Qed.

Lemma C4_continuity_witness :
  exists self' e1 e2 e3,
    process_transactions __init__ fixture = Ok (self', [e1; e2; e3])
    /\ is_disposition (LedgerEntry.tx_type e3) = true
    /\ LedgerEntry.cost_basis e3
       = Some (LedgerEntry.amount_btc e3 * LedgerEntry.acb_per_btc e2)%dec.
Proof.
  do 4 eexists.
  assert (Hrun : process_transactions __init__ fixture
                 = Ok (_, [_] ++ _ :: _ :: []))
    by (vm_compute; reflexivity).
  split; [exact Hrun |]. split; [reflexivity |].
  exact (C4_continuity _ _ _ _ _ _ _ Hrun eq_refl).
Defined.

(* ------------------------------------------------------------------ *)
(** ** The superficial-loss detector *)

(** The scan stops at the first disqualifying acquisition of the history. *)
Lemma _check_superficial_loss_scan_find
      (recent : list Transaction) (loss_date : datetime) :
  _check_superficial_loss_scan recent loss_date (DT.sub_days loss_date 30)
  = match find (disqualifying loss_date) recent with
    | Some t => (true, flagged_note (Transaction.date t))
    | None => (false, forward_note)
    end.
Proof.
  induction recent as [| t rest IH]; [reflexivity |].
  cbn [_check_superficial_loss_scan find].
  unfold disqualifying at 1, in_window.
  destruct (is_acquisition (Transaction.tx_type t)
            && ((DT.sub_days loss_date 30 <=? Transaction.date t)
                && (Transaction.date t <? loss_date))); [reflexivity | exact IH].
Qed.

Lemma disqualifying_iff (loss_date : datetime) (t : Transaction) :
  disqualifying loss_date t = true
  <-> is_acquisition (Transaction.tx_type t) = true
      /\ DT.sub_days loss_date 30 <= Transaction.date t < loss_date.
Proof.
  unfold disqualifying, in_window.
  rewrite !andb_true_iff, Z.leb_le, Z.ltb_lt. tauto.
Qed.

(** The verdict of the detector on a history. *)
Lemma _check_superficial_loss_spec
      (self : ACBCalculator) (tx : Transaction) (flag : bool) (note : string) :
  _check_superficial_loss self tx = (flag, note) ->
  (flag = true
   <-> exists t, In t (_recent_transactions self)
                 /\ is_acquisition (Transaction.tx_type t) = true
                 /\ DT.sub_days (Transaction.date tx) 30
                    <= Transaction.date t < Transaction.date tx)
  /\ (flag = true ->
      exists t, In t (_recent_transactions self)
                /\ disqualifying (Transaction.date tx) t = true
                /\ note = flagged_note (Transaction.date t))
  /\ (flag = false -> note = forward_note).
Proof.
  unfold _check_superficial_loss. cbv zeta.
  rewrite _check_superficial_loss_scan_find.
  destruct (find _ _) as [t |] eqn:Hfind; intros H; injection H as <- <-.
  - apply find_some in Hfind. destruct Hfind as [Hin Hdq].
    split; [| split].
    + split; [| reflexivity]. intros _. exists t.
      split; [exact Hin |]. apply disqualifying_iff. exact Hdq.
    + intros _. exists t. repeat split; assumption.
    + discriminate.
  - split; [| split].
    + split; [discriminate |]. intros (t & Hin & Hacq & Hwin).
      eapply find_none in Hfind; [| exact Hin].
      assert (disqualifying (Transaction.date tx) t = true)
        by (apply disqualifying_iff; split; assumption).
      congruence.
    + discriminate.
    + reflexivity.
Qed.

Lemma detected_init : detected (mkACBCalculator Dec.zero Dec.zero [] []).
Proof.
  split; [reflexivity |]. cbn [_recent_transactions].
  intros [| i] t e g Ht; discriminate Ht.
Qed.

Lemma detector_step (self self' : ACBCalculator) (tx : Transaction) :
  detected self -> process_one self tx = Ok self' -> detected self'.
Proof.
  intros [Hlen Hold] H.
  assert (Hsnoc : forall e0,
            (LedgerEntry.capital_gain e0 = None
             \/ exists p, LedgerEntry.capital_gain e0
                          = Some (proceeds_of tx - Transaction.amount_btc tx * p)%dec
                          /\ (LedgerEntry.superficial_loss_flag e0,
                              LedgerEntry.superficial_loss_note e0)
                             = (if (proceeds_of tx - Transaction.amount_btc tx * p
                                    <? Dec.zero)%dec
                                then _check_superficial_loss self tx
                                else (false, ""%string))) ->
            LedgerEntry.date e0 = Transaction.date tx ->
            forall i t e g,
              nth_error (_recent_transactions self ++ [tx]) i = Some t ->
              nth_error (ledger self ++ [e0]) i = Some e ->
              LedgerEntry.capital_gain e = Some g ->
              (g <? Dec.zero)%dec = true ->
              LedgerEntry.date e = Transaction.date t
              /\ (LedgerEntry.superficial_loss_flag e,
                  LedgerEntry.superficial_loss_note e)
                 = _check_superficial_loss_scan
                     (firstn i (_recent_transactions self ++ [tx]))
                     (Transaction.date t)
                     (DT.sub_days (Transaction.date t) 30)).
  { intros e0 Hgain Hdate i t e g Ht He Hg Hneg.
    destruct (Nat.lt_ge_cases i (length (_recent_transactions self)))
      as [Hlt | Hge].
    - rewrite nth_error_app1 in Ht by exact Hlt.
      rewrite nth_error_app1 in He by (rewrite Hlen; exact Hlt).
      rewrite firstn_app.
      replace (i - length (_recent_transactions self))%nat with 0%nat by lia.
      cbn [firstn]. rewrite app_nil_r. eapply Hold; eassumption.
    - assert (Hi : i = length (_recent_transactions self)).
      { assert (Hsome : nth_error (_recent_transactions self ++ [tx]) i <> None)
          by congruence.
        apply nth_error_Some in Hsome. rewrite length_app in Hsome.
        cbn [List.length] in Hsome. lia. }
      subst i.
      rewrite nth_error_app2, Nat.sub_diag in Ht by lia.
      rewrite nth_error_app2 in He by lia.
      rewrite Hlen, Nat.sub_diag in He.
      cbn in Ht, He. injection Ht as <-. injection He as <-.
      split; [exact Hdate |].
      rewrite firstn_app, firstn_all, Nat.sub_diag. cbn [firstn].
      rewrite app_nil_r.
      destruct Hgain as [Hnone | (p & Hsome & Hfn)]; [congruence |].
      rewrite Hsome in Hg. injection Hg as <-.
      rewrite Hneg in Hfn. exact Hfn. }
  apply process_one_Ok in H.
  destruct H as [[_ ->] | [(s & e0 & _ & Hacq & ->) | (s & e0 & _ & Hdis & ->)]].
  - split; assumption.
  - unfold detected. cbn [ledger _recent_transactions]. split.
    + rewrite !length_app, Hlen. reflexivity.
    + apply _process_acquisition_Ok in Hacq.
      destruct Hacq as (_ & _ & _ & _ & Hdate & _ & _ & Hnone & _).
      apply Hsnoc; [left; exact Hnone | exact Hdate].
  - unfold detected. cbn [ledger _recent_transactions]. split.
    + rewrite !length_app, Hlen. reflexivity.
    + apply _process_disposition_Ok in Hdis.
      destruct Hdis as (p & _ & _ & _ & _ & _ & Hdate & _ & _ & _ & _ & Hg & Hfn).
      apply Hsnoc; [right; exists p; split; assumption | exact Hdate].
Qed.

(** C6: in a run, let [processed] be the transactions that are not
    skipped, in processing order.  For a disposal entry with a negative
    gain, the flag is set exactly when an acquisition processed before it
    is dated in [[d - 30 days, d)], [d] being the date of the disposal;
    the note of a flagged loss names the date of the first such
    acquisition and asks to review the thirty days after the sale, the
    note of an unflagged loss asks to check the thirty days after the
    sale.  An earlier acquisition dated ten days before sets the flag;
    when every earlier acquisition is dated at least thirty-one days
    before, the flag is not set. *)
Theorem C6_superficial_loss (self self' : ACBCalculator)
        (txs : list Transaction) (led : list LedgerEntry) :
  process_transactions self txs = Ok (self', led) ->
  length led = length (filter recognised (sorted Transaction.date txs))
  /\ forall i tx e g,
       nth_error (filter recognised (sorted Transaction.date txs)) i = Some tx ->
       nth_error led i = Some e ->
       LedgerEntry.capital_gain e = Some g ->
       (g <? Dec.zero)%dec = true ->
       let earlier := firstn i (filter recognised (sorted Transaction.date txs)) in
       let d := Transaction.date tx in
       LedgerEntry.date e = d
       /\ (LedgerEntry.superficial_loss_flag e = true
           <-> exists t, In t earlier
                         /\ is_acquisition (Transaction.tx_type t) = true
                         /\ DT.sub_days d 30 <= Transaction.date t < d)
       /\ (LedgerEntry.superficial_loss_flag e = true ->
           exists t, In t earlier
                     /\ disqualifying d t = true
                     /\ LedgerEntry.superficial_loss_note e
                        = flagged_note (Transaction.date t))
       /\ (LedgerEntry.superficial_loss_flag e = false ->
           LedgerEntry.superficial_loss_note e = forward_note)
       /\ (forall t, In t earlier ->
                     is_acquisition (Transaction.tx_type t) = true ->
                     Transaction.date t = DT.sub_days d 10 ->
                     LedgerEntry.superficial_loss_flag e = true)
       /\ ((forall t, In t earlier ->
                      is_acquisition (Transaction.tx_type t) = true ->
                      Transaction.date t <= DT.sub_days d 31) ->
           LedgerEntry.superficial_loss_flag e = false).
Proof.
  intros H. unfold process_transactions in H. cbv zeta in H.
  inv_bind H as s Hs. injection H as <- <-.
  pose proof (process_loop_recent _ _ _ Hs) as Hrec. cbn in Hrec.
  destruct (process_loop_invariant _ detector_step _ _ _ detected_init Hs)
    as [Hlen Hall].
  rewrite Hrec in Hlen, Hall. split; [exact Hlen |].
  intros i tx e g Htx He Hg Hneg earlier d.
  destruct (Hall i tx e g Htx He Hg Hneg) as [Hdate Hfn].
  fold earlier in Hfn. fold d in Hfn, Hdate.
  destruct (_check_superficial_loss_spec
              (mkACBCalculator Dec.zero Dec.zero [] earlier) tx
              (LedgerEntry.superficial_loss_flag e)
              (LedgerEntry.superficial_loss_note e) (eq_sym Hfn))
    as (Hiff & Hnote & Hfwd).
  cbn [_recent_transactions] in Hiff, Hnote. fold d in Hiff, Hnote.
  split; [exact Hdate |]. split; [exact Hiff |].
  split; [exact Hnote |]. split; [exact Hfwd |]. split.
  - intros t Hin Hacq Ht. apply Hiff. exists t.
    split; [exact Hin |]. split; [exact Hacq |].
    rewrite Ht. unfold DT.sub_days, DT.us_per_day. lia.
  - intros Hfar.
    destruct (LedgerEntry.superficial_loss_flag e) eqn:Hflag; [| reflexivity].
    destruct (proj1 Hiff eq_refl) as (t & Hin & Hacq & Hwin).
    specialize (Hfar t Hin Hacq).
    unfold DT.sub_days, DT.us_per_day in *. lia.
Qed.

Lemma C6_superficial_loss_witness :
  (exists self' e1 e2,
     process_transactions __init__ (buy_then_loss 10) = Ok (self', [e1; e2])
     /\ LedgerEntry.superficial_loss_flag e2 = true
     /\ LedgerEntry.superficial_loss_note e2
        = flagged_note (DT.make 2024 4 10 0 0 0 0))
  /\ (exists self' e1 e2,
        process_transactions __init__ (buy_then_loss 31) = Ok (self', [e1; e2])
        /\ LedgerEntry.superficial_loss_flag e2 = false
        /\ LedgerEntry.superficial_loss_note e2 = forward_note).
Proof.
  split.
  - do 3 eexists.
    assert (Hrun : process_transactions __init__ (buy_then_loss 10)
                   = Ok (_, [_; _])) by (vm_compute; reflexivity).
    split; [exact Hrun |].
    destruct (C6_superficial_loss _ _ _ _ Hrun) as [_ Hall].
    destruct (Hall 1%nat _ _ _ eq_refl eq_refl eq_refl eq_refl)
      as (_ & _ & _ & _ & Hten & _).
    split; [| reflexivity].
    apply (Hten (nth 0 (buy_then_loss 10) transfer));
      [left; reflexivity | reflexivity | reflexivity].
  - do 3 eexists.
    assert (Hrun : process_transactions __init__ (buy_then_loss 31)
                   = Ok (_, [_; _])) by (vm_compute; reflexivity).
    split; [exact Hrun |].
    destruct (C6_superficial_loss _ _ _ _ Hrun) as [_ Hall].
    destruct (Hall 1%nat _ _ _ eq_refl eq_refl eq_refl eq_refl)
      as (_ & _ & _ & Hfwd & _ & Hfar).
    assert (Hflag := Hfar ltac:(intros t [<- | []] _; vm_compute; discriminate)).
    split; [exact Hflag | exact (Hfwd Hflag)].
Defined.

(* ------------------------------------------------------------------ *)
(** ** Sorting, reset and repetition *)

(** The run does not read the calculator it starts from. *)
Lemma process_transactions_reset (self : ACBCalculator)
      (txs : list Transaction) :
  process_transactions self txs
  = (s <- process_loop __init__ (sorted Transaction.date txs) ;;
     Ok (s, ledger s)).
Proof. reflexivity. Qed.

(** C8: [process_transactions] works on the input sorted by date, a
    permutation of the input that is ascending and keeps the input order
    of the transactions of one date; it starts from the empty calculator
    whatever the calculator it is called on; so two calls on the same
    input return the same ledger, also when the second call is made on
    the calculator that the first call left. *)
Theorem C8_sorted_reset_repeatable (txs : list Transaction) :
  Permutation txs (sorted Transaction.date txs)
  /\ StronglySorted (key_le Transaction.date) (sorted Transaction.date txs)
  /\ (forall d : datetime,
        filter (fun tx => Transaction.date tx =? d)%Z (sorted Transaction.date txs)
        = filter (fun tx => Transaction.date tx =? d)%Z txs)
  /\ (forall self,
        process_transactions self txs
        = (s <- process_loop __init__ (sorted Transaction.date txs) ;;
           Ok (s, ledger s)))
  /\ (forall self1 self2,
        process_transactions self1 txs = process_transactions self2 txs)
  /\ (forall self self' led,
        process_transactions self txs = Ok (self', led) ->
        process_transactions self' txs = Ok (self', led)).
Proof.
  split; [apply sorted_perm |].
  split; [apply sorted_sorted |].
  split; [intros d; apply sorted_stable |].
  split; [intros self; apply process_transactions_reset |].
  split.
  - intros self1 self2. rewrite !process_transactions_reset. reflexivity.
  - intros self self' led H.
    rewrite process_transactions_reset in *. exact H.
Qed.

Lemma C8_sorted_reset_repeatable_witness :
  exists self' led,
    process_transactions __init__ (rev fixture) = Ok (self', led)
    /\ process_transactions self' (rev fixture) = Ok (self', led)
    /\ sorted Transaction.date (rev fixture) = fixture.
Proof.
  do 2 eexists.
  assert (Hrun : process_transactions __init__ (rev fixture) = Ok (_, _))
    by (vm_compute; reflexivity).
  destruct (C8_sorted_reset_repeatable (rev fixture))
    as (_ & _ & _ & _ & _ & Hagain).
  split; [exact Hrun |]. split; [exact (Hagain _ _ _ Hrun) |].
  vm_compute. reflexivity.
Defined.

(* ------------------------------------------------------------------ *)
(** ** Transactions of an unknown kind *)

Lemma process_transactions_filter (self : ACBCalculator)
      (txs : list Transaction) :
  process_transactions self (filter recognised txs)
  = process_transactions self txs.
Proof.
  unfold process_transactions. cbv zeta.
  rewrite <- filter_sorted, process_loop_filter. reflexivity.
Qed.

(** C9: a transaction whose kind is neither an acquisition nor a disposal
    kind goes through the loop without an error and leaves the calculator
    as it is: pool, ledger and history; the loop goes on with the
    remaining transactions, and the run returns what it returns on the
    input without that transaction. *)
Theorem C9_unknown_kind_skipped (self : ACBCalculator) (tx : Transaction) :
  is_acquisition (Transaction.tx_type tx) = false ->
  is_disposition (Transaction.tx_type tx) = false ->
  process_one self tx = Ok self
  /\ (forall rest, process_loop self (tx :: rest) = process_loop self rest)
  /\ (forall self0 before after,
        process_transactions self0 (before ++ tx :: after)
        = process_transactions self0 (before ++ after)).
Proof.
  intros Ha Hd.
  assert (Hone : process_one self tx = Ok self)
    by (unfold process_one; rewrite Ha, Hd; reflexivity).
  split; [exact Hone |]. split.
  - intros rest. cbn [process_loop]. rewrite Hone. reflexivity.
  - intros self0 before after.
    rewrite <- (process_transactions_filter self0 (before ++ tx :: after)).
    rewrite <- (process_transactions_filter self0 (before ++ after)).
    rewrite !filter_app. cbn [filter]. unfold recognised at 2.
    rewrite Ha, Hd. reflexivity.
Qed.

Lemma C9_unknown_kind_skipped_witness :
  process_one fixture_pool transfer = Ok fixture_pool
  /\ process_transactions __init__ (transfer :: fixture)
     = process_transactions __init__ fixture.
Proof.
  destruct (C9_unknown_kind_skipped fixture_pool transfer eq_refl eq_refl)
    as (Hone & _ & Hrun).
  split; [exact Hone | exact (Hrun __init__ [] fixture)].
Defined.

(* ------------------------------------------------------------------ *)
(** ** The summary *)

Lemma cmp_antisym (a b : Decimal) : Dec.cmp b a = CompOpp (Dec.cmp a b).
Proof.
  unfold Dec.cmp. rewrite (Z.min_comm (Dec.dexp b) (Dec.dexp a)).
  apply Z.compare_antisym.
Qed.

(** [not (gain >= 0)] is [gain < 0]. *)
Lemma geb_negb_ltb (a b : Decimal) : (a >=? b)%dec = negb (a <? b)%dec.
Proof.
  unfold Dec.geb, Dec.leb, Dec.ltb. rewrite (cmp_antisym a b).
  destruct (Dec.cmp a b); reflexivity.
Qed.

(** The built-in [max] of two decimals is the one that is not smaller. *)
Lemma max_spec (a b : Decimal) :
  ((a <? b)%dec = true /\ Dec.max a b = b)
  \/ ((b <=? a)%dec = true /\ Dec.max a b = a).
Proof.
  unfold Dec.max, Dec.gtb.
  destruct (a <? b)%dec eqn:Hlt; [left; split; reflexivity |].
  right. split; [| reflexivity].
  change (b <=? a)%dec with (a >=? b)%dec.
  rewrite geb_negb_ltb, Hlt. reflexivity.
Qed.

(** The loop of [get_summary] computes the two sums and the count. *)
Lemma get_summary_loop_sums (entries : list LedgerEntry) :
  forall (tg tl : Decimal) (n : Z),
    get_summary_loop entries tg tl n
    = (fold_left Dec.add (gains_of entries) tg,
       fold_left Dec.add (losses_of entries) tl,
       n + Z.of_nat (List.length (filter flagged_loss entries))).
Proof.
  induction entries as [| e rest IH]; intros tg tl n.
  - cbn. rewrite Z.add_0_r. reflexivity.
  - cbn [get_summary_loop gains_of losses_of flat_map filter].
    unfold flagged_loss at 1.
    destruct (LedgerEntry.capital_gain e) as [g |]; [| apply IH].
    rewrite geb_negb_ltb.
    destruct (g <? Dec.zero)%dec; cbn [negb andb].
    + destruct (LedgerEntry.superficial_loss_flag e); cbn [negb app].
      * rewrite IH. cbn [List.length]. f_equal. lia.
      * rewrite IH. reflexivity.
    + rewrite IH. reflexivity.
Qed.

(** The entries that [get_summary] selects: those of the year, and all of
    them for no year or the year 0, which no date has. *)
Lemma get_summary_entries_period (self : ACBCalculator) (tax_year : option Z) :
  get_summary_entries self tax_year
  = match tax_year with
    | Some 0 => ledger self
    | _ => period_entries (ledger self) tax_year
    end.
Proof.
  unfold get_summary_entries, truthy, period_entries, entries_of_year.
  destruct tax_year as [[| y | y] |]; reflexivity.
Qed.

(** C7: the summary of a ledger over the selected entries (those of the
    year, or all of them when no year is given; a year 0 selects all of
    them too).  [total_gains] is the sum of the gains of the disposal
    entries with [gain >= 0]; [total_losses] is the sum of [|gain|] of
    those with [gain < 0] that are not flagged; the flagged ones are only
    counted; [net = total_gains - total_losses];
    [taxable = max(0, net * 0.50)].  When the gains are the single
    2463.00 and there is no unflagged loss, the totals are 2463.00 and 0,
    the net is 2463.00 and the taxable amount 1231.50. *)
Theorem C7_summary (self : ACBCalculator) (tax_year : option Z) (s : Summary) :
  get_summary self tax_year = Ok s ->
  let entries := get_summary_entries self tax_year in
  entries = match tax_year with
            | Some 0 => ledger self
            | _ => period_entries (ledger self) tax_year
            end
  /\ total_gains s = dsum (gains_of entries)
  /\ total_losses s = dsum (losses_of entries)
  /\ superficial_loss_count s
     = Z.of_nat (List.length (filter flagged_loss entries))
  /\ net_capital_gain s = (total_gains s - total_losses s)%dec
  /\ inclusion_rate s = Dec.mkDecimal 50 (-2)
  /\ taxable_capital_gain s
     = Dec.max Dec.zero (net_capital_gain s * inclusion_rate s)%dec
  /\ (((Dec.zero <? net_capital_gain s * inclusion_rate s)%dec = true
       /\ taxable_capital_gain s = (net_capital_gain s * inclusion_rate s)%dec)
      \/ ((net_capital_gain s * inclusion_rate s <=? Dec.zero)%dec = true
          /\ taxable_capital_gain s = Dec.zero))
  /\ (gains_of entries = [Dec.mkDecimal 246300 (-2)] ->
      losses_of entries = [] ->
      (total_gains s == Dec.mkDecimal 246300 (-2))%dec = true
      /\ (total_losses s == Dec.zero)%dec = true
      /\ (net_capital_gain s == Dec.mkDecimal 246300 (-2))%dec = true
      /\ (taxable_capital_gain s == Dec.mkDecimal 123150 (-2))%dec = true).
Proof.
  intros H entries. unfold get_summary in H. cbv zeta in H.
  fold entries in H. rewrite get_summary_loop_sums in H.
  inv_bind H as acb Hacb. injection H as <-.
  cbn [total_gains total_losses superficial_loss_count net_capital_gain
       inclusion_rate taxable_capital_gain].
  fold (dsum (gains_of entries)). fold (dsum (losses_of entries)).
  split; [apply get_summary_entries_period |].
  do 6 (split; [reflexivity |]).
  split; [apply max_spec |].
  intros Hg Hl. rewrite Hg, Hl. vm_compute. repeat split.
Qed.

Lemma C7_summary_witness :
  exists s,
    get_summary one_gain_ledger (Some 2024) = Ok s
    /\ (total_gains s == Dec.mkDecimal 246300 (-2))%dec = true
    /\ (total_losses s == Dec.zero)%dec = true
    /\ (net_capital_gain s == Dec.mkDecimal 246300 (-2))%dec = true
    /\ (taxable_capital_gain s == Dec.mkDecimal 123150 (-2))%dec = true.
Proof.
  eexists.
  assert (Hrun : get_summary one_gain_ledger (Some 2024) = Ok _)
    by (vm_compute; reflexivity).
  split; [exact Hrun |].
  destruct (C7_summary _ _ _ Hrun) as (_ & _ & _ & _ & _ & _ & _ & _ & Hone).
  apply Hone; vm_compute; reflexivity.
Defined.

(* ------------------------------------------------------------------ *)
(** ** The empty pool and the zero price *)

Lemma round_half_even_nonneg (m k : Z) :
  0 <= m -> 0 <= k -> 0 <= Dec.round_half_even m k.
Proof.
  intros Hm Hk. unfold Dec.round_half_even.
  pose proof (pow10_pos k Hk) as HP.
  assert (Hq : 0 <= m / Dec.pow10 k) by (apply Z.div_pos; lia).
  destruct (_ >? _); [lia |].
  destruct (_ =? _); [| lia].
  destruct (Z.even _); lia.
Qed.

(** Rounding to the precision keeps a value on its side of zero. *)
Lemma fix_nonpos (d : Decimal) :
  Dec.coef d <= 0 -> Dec.coef (Dec.fix_ d) <= 0.
Proof.
  intros H. unfold Dec.fix_.
  destruct (Dec.coef d =? 0); [exact H |].
  destruct (Z.ltb_spec (Dec.dexp d)
              (Dec.ndigits (Dec.coef d) + Dec.dexp d - Dec.prec)) as [Hlt | _];
    [| exact H].
  pose proof (round_half_even_nonneg (Z.abs (Dec.coef d))
                (Dec.ndigits (Dec.coef d) + Dec.dexp d - Dec.prec - Dec.dexp d)
                ltac:(lia) ltac:(lia)) as Hc.
  assert (Hs : Z.sgn (Dec.coef d) <= 0) by lia.
  destruct (_ >? Dec.prec); cbn [Dec.coef].
  - assert (0 <= Dec.round_half_even (Z.abs (Dec.coef d))
                   (Dec.ndigits (Dec.coef d) + Dec.dexp d - Dec.prec - Dec.dexp d)
                 / 10) by (apply Z.div_pos; lia).
    nia.
  - nia.
Qed.

Lemma fix_coef_zero (d : Decimal) :
  Dec.coef d = 0 -> Dec.coef (Dec.fix_ d) = 0.
Proof. intros H. unfold Dec.fix_. rewrite H. exact H. Qed.

Lemma eqb_zero (a : Decimal) :
  (a == Dec.zero)%dec = true <-> Dec.coef a = 0.
Proof.
  unfold Dec.eqb, Dec.cmp. cbn [Dec.coef Dec.dexp Dec.zero].
  pose proof (pow10_pos (Dec.dexp a - Z.min (Dec.dexp a) 0) ltac:(lia)) as HP.
  rewrite Z.mul_0_l.
  destruct (Z.compare_spec (Dec.coef a * Dec.pow10 (Dec.dexp a - Z.min (Dec.dexp a) 0)) 0);
    split; intros; try discriminate; try reflexivity; nia.
Qed.

Lemma leb_zero (a : Decimal) :
  Dec.coef a = 0 -> (a <=? Dec.zero)%dec = true.
Proof.
  intros H. unfold Dec.leb, Dec.cmp. rewrite H. reflexivity.
Qed.

Lemma geb_zero_nonneg (a : Decimal) :
  (a >=? Dec.zero)%dec = true -> 0 <= Dec.coef a.
Proof.
  unfold Dec.geb, Dec.leb, Dec.cmp. cbn [Dec.coef Dec.dexp Dec.zero].
  pose proof (pow10_pos (Dec.dexp a - Z.min 0 (Dec.dexp a)) ltac:(lia)) as HP.
  rewrite Z.mul_0_l.
  destruct (Z.compare_spec 0 (Dec.coef a * Dec.pow10 (Dec.dexp a - Z.min 0 (Dec.dexp a))));
    intros; try discriminate; nia.
Qed.

Lemma ltb_nonpos_epsilon (a : Decimal) :
  Dec.coef a <= 0 -> (a <? epsilon)%dec = true.
Proof.
  intros H. unfold Dec.ltb, Dec.cmp, epsilon. cbn [Dec.coef Dec.dexp].
  pose proof (pow10_pos (Dec.dexp a - Z.min (Dec.dexp a) (-8)) ltac:(lia)) as HP.
  pose proof (pow10_pos (-8 - Z.min (Dec.dexp a) (-8)) ltac:(lia)) as HP'.
  destruct (Z.compare_spec
              (Dec.coef a * Dec.pow10 (Dec.dexp a - Z.min (Dec.dexp a) (-8)))
              (1 * Dec.pow10 (-8 - Z.min (Dec.dexp a) (-8))));
    try reflexivity; nia.
Qed.

Lemma mul_zero_r (a b : Decimal) :
  Dec.coef b = 0 -> Dec.coef (a * b)%dec = 0.
Proof.
  intros H. unfold Dec.mul. apply fix_coef_zero. cbn [Dec.coef]. rewrite H. lia.
Qed.

Lemma sub_from_zero_nonpos (a b : Decimal) :
  Dec.coef a = 0 -> 0 <= Dec.coef b -> Dec.coef (a - b)%dec <= 0.
Proof.
  intros Ha Hb. unfold Dec.sub, Dec.add, Dec.copy_negate.
  apply fix_nonpos. cbn [Dec.coef Dec.dexp]. rewrite Ha.
  pose proof (pow10_pos (Dec.dexp b - Z.min (Dec.dexp a) (Dec.dexp b)) ltac:(lia)).
  nia.
Qed.

(** A disposal raises only where a per-unit cost does. *)
Lemma _process_disposition_run (self : ACBCalculator) (tx : Transaction)
      (p p' : Decimal) :
  acb_per_btc self = Ok p ->
  acb_per_btc (after_disposal self tx p) = Ok p' ->
  exists e, _process_disposition self tx = Ok (after_disposal self tx p, e).
Proof.
  intros Hp Hp'. unfold _process_disposition. cbv zeta.
  cbn [total_cost total_btc ledger _recent_transactions].
  rewrite Hp. cbn [bind].
  destruct (if (_ <? Dec.zero)%dec then _ else _) as [flag note].
  fold epsilon. fold (reduced_btc self tx). fold (reduced_cost self tx p).
  fold (after_disposal self tx p). rewrite Hp'. cbn [bind].
  eexists. reflexivity.
Qed.

Lemma after_disposal_amount (self : ACBCalculator) (tx tx' : Transaction)
      (p : Decimal) :
  Transaction.amount_btc tx' = Transaction.amount_btc tx ->
  after_disposal self tx' p = after_disposal self tx p.
Proof.
  intros H. unfold after_disposal, reduced_btc, reduced_cost. rewrite H.
  reflexivity.
Qed.




(* ------------------------------------------------------------------ *)
(** ** What always holds of a run *)

Lemma fix_nonneg (d : Decimal) :
  0 <= Dec.coef d -> 0 <= Dec.coef (Dec.fix_ d).
Proof.
  intros H. unfold Dec.fix_.
  destruct (Dec.coef d =? 0); [exact H |].
  destruct (Z.ltb_spec (Dec.dexp d)
              (Dec.ndigits (Dec.coef d) + Dec.dexp d - Dec.prec)) as [Hlt | _];
    [| exact H].
  pose proof (round_half_even_nonneg (Z.abs (Dec.coef d))
                (Dec.ndigits (Dec.coef d) + Dec.dexp d - Dec.prec - Dec.dexp d)
                ltac:(lia) ltac:(lia)) as Hc.
  assert (Hs : 0 <= Z.sgn (Dec.coef d)) by lia.
  destruct (_ >? Dec.prec); cbn [Dec.coef].
  - assert (0 <= Dec.round_half_even (Z.abs (Dec.coef d))
                   (Dec.ndigits (Dec.coef d) + Dec.dexp d - Dec.prec - Dec.dexp d)
                 / 10) by (apply Z.div_pos; lia).
    nia.
  - nia.
Qed.

Lemma add_nonneg (a b : Decimal) :
  0 <= Dec.coef a -> 0 <= Dec.coef b -> 0 <= Dec.coef (a + b)%dec.
Proof.
  intros Ha Hb. unfold Dec.add. apply fix_nonneg. cbn [Dec.coef].
  pose proof (pow10_pos (Dec.dexp a - Z.min (Dec.dexp a) (Dec.dexp b)) ltac:(lia)).
  pose proof (pow10_pos (Dec.dexp b - Z.min (Dec.dexp a) (Dec.dexp b)) ltac:(lia)).
  nia.
Qed.

Lemma ltb_epsilon_false_pos (a : Decimal) :
  (a <? epsilon)%dec = false -> 0 < Dec.coef a.
Proof.
  unfold Dec.ltb, Dec.cmp, epsilon. cbn [Dec.coef Dec.dexp].
  pose proof (pow10_pos (Dec.dexp a - Z.min (Dec.dexp a) (-8)) ltac:(lia)) as HP.
  pose proof (pow10_pos (-8 - Z.min (Dec.dexp a) (-8)) ltac:(lia)) as HP'.
  destruct (Z.compare_spec
              (Dec.coef a * Dec.pow10 (Dec.dexp a - Z.min (Dec.dexp a) (-8)))
              (1 * Dec.pow10 (-8 - Z.min (Dec.dexp a) (-8))));
    intros; try discriminate; nia.
Qed.

(** The units of the pool never go below zero: an acquisition of a
    quantity that is not negative keeps them so, and a disposal leaves
    either at least 1e-8 units or exactly none. *)
Lemma total_btc_nonneg (self self' : ACBCalculator) (tx : Transaction) :
  process_one self tx = Ok self' ->
  0 <= Dec.coef (total_btc self) ->
  0 <= Dec.coef (Transaction.amount_btc tx) ->
  0 <= Dec.coef (total_btc self').
Proof.
  intros H Hb Ha. apply process_one_Ok in H.
  destruct H as [[_ ->] | [(s & e & _ & Hacq & ->) | (s & e & _ & Hdis & ->)]];
    cbn [total_btc].
  - exact Hb.
  - apply _process_acquisition_Ok in Hacq. destruct Hacq as (-> & _).
    cbn [total_btc]. apply add_nonneg; assumption.
  - apply _process_disposition_Ok in Hdis. destruct Hdis as (p & _ & -> & _).
    unfold after_disposal.
    destruct (reduced_btc self tx <? epsilon)%dec eqn:Hlt; cbn [total_btc].
    + reflexivity.
    + apply ltb_epsilon_false_pos in Hlt. lia.
Qed.

(** After a run the per-unit cost of the pool can be read, so that the
    summary of its ledger is returned. *)
Lemma priced_step (self self' : ACBCalculator) (tx : Transaction) :
  priced self -> process_one self tx = Ok self' -> priced self'.
Proof.
  intros Hp H. apply process_one_Ok in H.
  destruct H as [[_ ->] | [(s & e & _ & Hacq & ->) | (s & e & _ & Hdis & ->)]].
  - exact Hp.
  - apply _process_acquisition_Ok in Hacq. destruct Hacq as (_ & Hacb & _).
    exists (LedgerEntry.acb_per_btc e). rewrite <- Hacb.
    apply acb_per_btc_pool. reflexivity.
  - apply _process_disposition_Ok in Hdis. destruct Hdis as (p & _ & _ & Hacb & _).
    exists (LedgerEntry.acb_per_btc e). rewrite <- Hacb.
    apply acb_per_btc_pool. reflexivity.
Qed.

Lemma get_summary_after_run (self self' : ACBCalculator)
      (txs : list Transaction) (led : list LedgerEntry) (tax_year : option Z) :
  process_transactions self txs = Ok (self', led) ->
  exists s, get_summary self' tax_year = Ok s.
Proof.
  unfold process_transactions. cbv zeta. intros H.
  inv_bind H as s Hs. injection H as <- _.
  assert (Hinit : priced (mkACBCalculator Dec.zero Dec.zero [] []))
    by (exists Dec.zero; reflexivity).
  destruct (process_loop_invariant _ priced_step _ _ _ Hinit Hs) as [p Hp].
  unfold get_summary. cbv zeta.
  destruct (get_summary_loop _ _ _ _) as [[tg tl] n].
  rewrite Hp. cbn [bind]. eexists. reflexivity.
Qed.

(* ------------------------------------------------------------------ *)
(** ** The shape of a ledger *)

Lemma _process_acquisition_emitted (self self' : ACBCalculator)
      (tx : Transaction) (e : LedgerEntry) :
  _process_acquisition self tx = Ok (self', e) ->
  echoes tx e /\ gainless e.
Proof.
  unfold _process_acquisition. cbv zeta. intros H. inv_bind H as acb Hacb.
  injection H as _ <-. split; repeat split.
Qed.

Lemma _process_disposition_emitted (self self' : ACBCalculator)
      (tx : Transaction) (e : LedgerEntry) :
  _process_disposition self tx = Ok (self', e) ->
  echoes tx e /\ realised e.
Proof.
  unfold _process_disposition. cbv zeta. intros H.
  inv_bind H as p Hp.
  destruct (if (_ <? Dec.zero)%dec then _ else _) as [flag note] eqn:Hfn.
  inv_bind H as p2 Hp2. inv_bind H as p' Hp'. injection H as _ <-.
  split; [repeat split |].
  exists (Transaction.amount_btc tx * Transaction.price_cad tx
          - Transaction.fee_cad tx)%dec,
         (Transaction.amount_btc tx * p)%dec.
  cbn [LedgerEntry.proceeds LedgerEntry.cost_basis LedgerEntry.capital_gain
       LedgerEntry.amount_btc LedgerEntry.price_cad LedgerEntry.fee_cad
       LedgerEntry.superficial_loss_flag LedgerEntry.superficial_loss_note].
  do 4 (split; [reflexivity |]).
  split; intros Hsign; rewrite Hsign in Hfn.
  - injection Hfn as <- <-. split; reflexivity.
  - unfold _check_superficial_loss in Hfn. cbv zeta in Hfn.
    rewrite _check_superficial_loss_scan_find in Hfn.
    destruct (find _ _) as [t |]; injection Hfn as <- <-.
    + left. split; [reflexivity |]. eexists. reflexivity.
    + right. split; reflexivity.
Qed.

Lemma mirrored_step (self self' : ACBCalculator) (tx : Transaction) :
  mirrored self -> process_one self tx = Ok self' -> mirrored self'.
Proof.
  unfold mirrored. intros Hm H. apply process_one_Ok in H.
  destruct H as [[_ ->] | [(s & e & Ha & Hacq & ->) | (s & e & Hd & Hdis & ->)]];
    [exact Hm | |]; cbn [ledger _recent_transactions];
    (apply Forall2_app; [exact Hm |]); (constructor; [| constructor]).
  - apply _process_acquisition_emitted in Hacq. destruct Hacq as [He Hg].
    split; [exact He |]. left. split; assumption.
  - apply _process_disposition_emitted in Hdis. destruct Hdis as [He Hr].
    split; [exact He |]. right. split; assumption.
Qed.

(** The ledger of a run, position by position against the transactions
    that were not skipped, in processing order. *)
Lemma run_mirrored (self self' : ACBCalculator) (txs : list Transaction)
      (led : list LedgerEntry) :
  process_transactions self txs = Ok (self', led) ->
  Forall2 emitted (filter recognised (sorted Transaction.date txs)) led.
Proof.
  unfold process_transactions. cbv zeta. intros H.
  inv_bind H as s Hs. injection H as <- <-.
  pose proof (process_loop_recent _ _ _ Hs) as Hrec. cbn in Hrec.
  rewrite <- Hrec.
  assert (Hinit : mirrored (mkACBCalculator Dec.zero Dec.zero [] []))
    by constructor.
  exact (process_loop_invariant _ mirrored_step _ _ _ Hinit Hs).
Qed.

(** X1: the ledger of a run has one entry for each transaction of a known
    kind, in the order of the input sorted by date, and each entry repeats
    the date, kind, quantity, price, fee and label of its transaction. *)
Theorem ledger_echoes_sorted_input (self self' : ACBCalculator)
        (txs : list Transaction) (led : list LedgerEntry) :
  process_transactions self txs = Ok (self', led) ->
  Forall2 echoes (filter recognised (sorted Transaction.date txs)) led
  /\ List.length led = List.length (filter recognised txs).
Proof.
  intros H. apply run_mirrored in H. split.
  - eapply Forall2_impl; [| exact H]. intros tx e [He _]. exact He.
  - apply Forall2_length in H. rewrite <- H, filter_sorted.
    symmetry. apply Permutation_length, sorted_perm.
Qed.

Lemma ledger_echoes_sorted_input_witness :
  exists self' led,
    process_transactions __init__ (rev fixture ++ [transfer]) = Ok (self', led)
    /\ Forall2 echoes fixture led.
Proof.
  do 2 eexists.
  assert (Hrun : process_transactions __init__ (rev fixture ++ [transfer])
                 = Ok (_, _)) by (vm_compute; reflexivity).
  split; [exact Hrun |].
  exact (proj1 (ledger_echoes_sorted_input _ _ _ _ Hrun)).
Defined.

Lemma StronglySorted_filter_key {A : Type} (key : A -> Z) (p : A -> bool)
      (l : list A) :
  StronglySorted (key_le key) l -> StronglySorted (key_le key) (filter p l).
Proof.
  induction 1 as [| a r Hr IH Ha]; cbn [filter]; [constructor |].
  destruct (p a); [| exact IH].
  constructor; [exact IH |].
  apply Forall_forall. intros b Hb. apply filter_In in Hb.
  rewrite Forall_forall in Ha. apply Ha. tauto.
Qed.

Lemma StronglySorted_Forall2 {A B : Type} (ka : A -> Z) (kb : B -> Z)
      (R : A -> B -> Prop) (la : list A) (lb : list B) :
  (forall a b, R a b -> kb b = ka a) ->
  Forall2 R la lb ->
  StronglySorted (key_le ka) la -> StronglySorted (key_le kb) lb.
Proof.
  intros HR H. induction H as [| a b la lb Hab Hl IH]; intros Hs; [constructor |].
  apply StronglySorted_inv in Hs. destruct Hs as [Hs Ha].
  constructor; [apply IH; exact Hs |].
  clear IH Hs. induction Hl as [| a' b' la lb Hab' Hl IH]; [constructor |].
  inversion Ha as [| ? ? Haa' Hrest]; subst.
  constructor; [| apply IH; exact Hrest].
  unfold key_le in *. rewrite (HR _ _ Hab), (HR _ _ Hab'). exact Haa'.
Qed.

(** X2: the entries of the ledger of a run are in ascending order of
    date, whatever the order of the input. *)
Theorem ledger_chronological (self self' : ACBCalculator)
        (txs : list Transaction) (led : list LedgerEntry) :
  process_transactions self txs = Ok (self', led) ->
  StronglySorted (key_le LedgerEntry.date) led.
Proof.
  intros H. apply run_mirrored in H.
  eapply (StronglySorted_Forall2 Transaction.date LedgerEntry.date emitted);
    [| exact H |].
  - intros tx e [(Hd & _) _]. exact Hd.
  - apply StronglySorted_filter_key, sorted_sorted.
Qed.

Lemma ledger_chronological_witness :
  exists self' led,
    process_transactions __init__ (rev create_test_transactions) = Ok (self', led)
    /\ StronglySorted (key_le LedgerEntry.date) led.
Proof.
  do 2 eexists.
  assert (Hrun : process_transactions __init__ (rev create_test_transactions)
                 = Ok (_, _)) by (vm_compute; reflexivity).
  split; [exact Hrun | exact (ledger_chronological _ _ _ _ Hrun)].
Defined.

Lemma Forall2_In_right {A B : Type} (R : A -> B -> Prop)
      (la : list A) (lb : list B) (b : B) :
  Forall2 R la lb -> In b lb -> exists a, In a la /\ R a b.
Proof.
  induction 1 as [| a b' la lb Hab Hl IH]; intros Hin; [contradiction |].
  destruct Hin as [<- | Hin].
  - exists a. split; [left; reflexivity | exact Hab].
  - destruct (IH Hin) as (a' & Ha' & HR). exists a'.
    split; [right; exact Ha' | exact HR].
Qed.

(** X3: in the ledger of a run every entry is of one of two shapes.  The
    entry of a buy or a receive has no proceeds, no cost basis, no gain,
    no flag and an empty note.  The entry of a sell, a spend or a send
    has all three, with [proceeds = quantity * price - fee] and
    [gain = proceeds - cost_basis]. *)
Theorem ledger_entry_shapes (self self' : ACBCalculator)
        (txs : list Transaction) (led : list LedgerEntry) (e : LedgerEntry) :
  process_transactions self txs = Ok (self', led) ->
  In e led ->
  (is_acquisition (LedgerEntry.tx_type e) = true /\ gainless e)
  \/ (is_disposition (LedgerEntry.tx_type e) = true
      /\ exists pr cb,
           LedgerEntry.proceeds e = Some pr
           /\ LedgerEntry.cost_basis e = Some cb
           /\ LedgerEntry.capital_gain e = Some (pr - cb)%dec
           /\ pr = (LedgerEntry.amount_btc e * LedgerEntry.price_cad e
                    - LedgerEntry.fee_cad e)%dec).
Proof.
  intros H Hin. apply run_mirrored in H.
  destruct (Forall2_In_right _ _ _ _ H Hin)
    as (tx & _ & (_ & Hty & _) & Hshape).
  rewrite Hty. destruct Hshape as [[Ha Hg] | [Hd Hr]].
  - left. split; assumption.
  - right. split; [exact Hd |].
    destruct Hr as (pr & cb & Hp & Hc & Hg & Hpr & _).
    exists pr, cb. repeat split; assumption.
Qed.

Lemma ledger_entry_shapes_witness :
  exists self' e1 e2 e3,
    process_transactions __init__ fixture = Ok (self', [e1; e2; e3])
    /\ gainless e1
    /\ exists pr cb,
         LedgerEntry.proceeds e3 = Some pr
         /\ LedgerEntry.cost_basis e3 = Some cb
         /\ LedgerEntry.capital_gain e3 = Some (pr - cb)%dec.
Proof.
  do 4 eexists.
  assert (Hrun : process_transactions __init__ fixture = Ok (_, [_; _; _]))
    by (vm_compute; reflexivity).
  split; [exact Hrun |]. split.
  - destruct (ledger_entry_shapes _ _ _ _ _ Hrun (or_introl eq_refl))
      as [[_ Hg] | [Hd _]]; [exact Hg | discriminate Hd].
  - destruct (ledger_entry_shapes _ _ _ _ _ Hrun
                (or_intror (or_intror (or_introl eq_refl))))
      as [[Ha _] | [_ (pr & cb & Hp & Hc & Hg & _)]]; [discriminate Ha |].
    exists pr, cb. repeat split; assumption.
Defined.

(** X4: in the ledger of a run the superficial-loss flag is set only on
    a disposal with a negative gain, and the note then names an
    acquisition date; a disposal whose gain is not negative has no flag
    and an empty note; a negative gain that is not flagged carries the
    reminder to check the thirty days after the sale. *)
Theorem flag_only_on_losses (self self' : ACBCalculator)
        (txs : list Transaction) (led : list LedgerEntry) (e : LedgerEntry) :
  process_transactions self txs = Ok (self', led) ->
  In e led ->
  (LedgerEntry.superficial_loss_flag e = true ->
   exists g acquired,
     LedgerEntry.capital_gain e = Some g
     /\ (g <? Dec.zero)%dec = true
     /\ LedgerEntry.superficial_loss_note e = flagged_note acquired)
  /\ (forall g,
        LedgerEntry.capital_gain e = Some g ->
        (g >=? Dec.zero)%dec = true ->
        LedgerEntry.superficial_loss_flag e = false
        /\ LedgerEntry.superficial_loss_note e = ""%string)
  /\ (forall g,
        LedgerEntry.capital_gain e = Some g ->
        (g <? Dec.zero)%dec = true ->
        LedgerEntry.superficial_loss_flag e = false ->
        LedgerEntry.superficial_loss_note e = forward_note).
Proof.
  intros H Hin. apply run_mirrored in H.
  destruct (Forall2_In_right _ _ _ _ H Hin) as (tx & _ & _ & Hshape).
  destruct Hshape as [[_ (_ & _ & Hnone & Hflag & _)]
                     | [_ (pr & cb & _ & _ & Hg & _ & Hpos & Hneg)]].
  - split; [congruence |]. split; intros g Hsome; congruence.
  - split; [| split].
    + intros Hflag. exists (pr - cb)%dec.
      destruct (pr - cb <? Dec.zero)%dec eqn:Hsign.
      * destruct (Hneg eq_refl) as [[_ [acquired Hnote]] | [Hf _]];
          [| congruence].
        exists acquired. repeat split; assumption.
      * destruct (Hpos eq_refl) as [Hf _]. congruence.
    + intros g Hsome Hge. rewrite Hg in Hsome. injection Hsome as <-.
      rewrite geb_negb_ltb in Hge. apply negb_true_iff in Hge.
      apply Hpos. exact Hge.
    + intros g Hsome Hlt Hf. rewrite Hg in Hsome. injection Hsome as <-.
      destruct (Hneg Hlt) as [[Hf' _] | [_ Hnote]]; [congruence | exact Hnote].
Qed.

Lemma flag_only_on_losses_witness :
  exists self' e1 e2 g acquired,
    process_transactions __init__ (buy_then_loss 10) = Ok (self', [e1; e2])
    /\ LedgerEntry.capital_gain e2 = Some g
    /\ (g <? Dec.zero)%dec = true
    /\ LedgerEntry.superficial_loss_note e2 = flagged_note acquired.
Proof.
  do 3 eexists.
  assert (Hrun : process_transactions __init__ (buy_then_loss 10)
                 = Ok (_, [_; _])) by (vm_compute; reflexivity).
  destruct (flag_only_on_losses _ _ _ _ _ Hrun (or_intror (or_introl eq_refl)))
    as (Hflag & _ & _).
  destruct (Hflag eq_refl) as (g & acquired & Hg & Hlt & Hnote).
  exists g, acquired.
  split; [exact Hrun |]. split; [exact Hg |]. split; [exact Hlt | exact Hnote].
Defined.

(* ------------------------------------------------------------------ *)
(** ** Runs of acquisitions *)

Lemma process_loop_acquisitions (txs : list Transaction) :
  forall self self',
    Forall (fun tx => is_acquisition (Transaction.tx_type tx) = true) txs ->
    process_loop self txs = Ok self' ->
    total_btc self'
    = fold_left Dec.add (map Transaction.amount_btc txs) (total_btc self)
    /\ total_cost self'
       = fold_left Dec.add (map total_cad txs) (total_cost self).
Proof.
  induction txs as [| tx rest IH]; intros self self' Hall H.
  - injection H as <-. split; reflexivity.
  - inversion Hall as [| ? ? Hacq Hrest]; subst.
    cbn [process_loop] in H. inv_bind H as s Hs.
    apply process_one_Ok in Hs.
    destruct Hs as [[Hn _] | [(s0 & e & _ & Hrun & ->) | (s0 & e & Hd & _ & _)]].
    + unfold recognised in Hn. rewrite Hacq in Hn. discriminate Hn.
    + apply _process_acquisition_Ok in Hrun. destruct Hrun as (-> & _).
      destruct (IH _ _ Hrest H) as [Hb Hc]. cbn [total_btc total_cost] in Hb, Hc.
      split; [exact Hb | exact Hc].
    + apply is_disposition_not_acquisition in Hd. congruence.
Qed.

(** X5: after a run on acquisitions only, the units of the pool are the
    quantities and its cost is the [total_cad] of the transactions
    (quantity * price + fee), each added up in order of date from
    [Decimal('0')], and no entry of the ledger has a gain. *)
Theorem acquisitions_accumulate (self self' : ACBCalculator)
        (txs : list Transaction) (led : list LedgerEntry) :
  Forall (fun tx => is_acquisition (Transaction.tx_type tx) = true) txs ->
  process_transactions self txs = Ok (self', led) ->
  total_btc self'
  = dsum (map Transaction.amount_btc (sorted Transaction.date txs))
  /\ total_cost self' = dsum (map total_cad (sorted Transaction.date txs))
  /\ Forall gainless led.
Proof.
  intros Hall H.
  assert (Hsorted : Forall (fun tx => is_acquisition (Transaction.tx_type tx) = true)
                           (sorted Transaction.date txs))
    by (eapply Permutation_Forall; [apply sorted_perm | exact Hall]).
  pose proof (run_mirrored _ _ _ _ H) as Hm.
  unfold process_transactions in H. cbv zeta in H.
  inv_bind H as s Hs. injection H as <- <-.
  destruct (process_loop_acquisitions _ _ _ Hsorted Hs) as [Hb Hc].
  split; [exact Hb |]. split; [exact Hc |].
  apply Forall_forall. intros e Hin.
  destruct (Forall2_In_right _ _ _ _ Hm Hin) as (tx & Htx & _ & Hshape).
  destruct Hshape as [[_ Hg] | [Hd _]]; [exact Hg |].
  apply filter_In in Htx. destruct Htx as [Htx _].
  rewrite Forall_forall in Hsorted. specialize (Hsorted tx Htx).
  apply is_disposition_not_acquisition in Hd. congruence.
Qed.

Lemma acquisitions_accumulate_witness :
  exists self' led,
    process_transactions __init__ (firstn 2 fixture) = Ok (self', led)
    /\ total_btc self'
       = dsum (map Transaction.amount_btc
                   (sorted Transaction.date (firstn 2 fixture)))
    /\ total_cost self'
       = dsum (map total_cad (sorted Transaction.date (firstn 2 fixture))).
Proof.
  do 2 eexists.
  assert (Hrun : process_transactions __init__ (firstn 2 fixture) = Ok (_, _))
    by (vm_compute; reflexivity).
  assert (Hall : Forall (fun tx => is_acquisition (Transaction.tx_type tx) = true)
                        (firstn 2 fixture))
    by (repeat constructor).
  destruct (acquisitions_accumulate _ _ _ _ Hall Hrun) as (Hb & Hc & _).
  split; [exact Hrun |]. split; [exact Hb | exact Hc].
Defined.

(* ------------------------------------------------------------------ *)
(** ** The order of the input *)

(** Two sorted lists with the same elements, no two of the same key, are
    the same list. *)
Lemma sorted_lists_equal {A : Type} (key : A -> Z) (l1 : list A) :
  forall l2,
    StronglySorted (key_le key) l1 ->
    StronglySorted (key_le key) l2 ->
    Permutation l1 l2 ->
    (forall a b, In a l1 -> In b l1 -> key a = key b -> a = b) ->
    l1 = l2.
Proof.
  induction l1 as [| a r1 IH]; intros l2 H1 H2 Hperm Hinj.
  - apply Permutation_nil in Hperm. symmetry. exact Hperm.
  - destruct l2 as [| b r2].
    + apply Permutation_sym, Permutation_nil in Hperm. discriminate Hperm.
    + apply StronglySorted_inv in H1. destruct H1 as [Hr1 Ha].
      apply StronglySorted_inv in H2. destruct H2 as [Hr2 Hb].
      rewrite Forall_forall in Ha, Hb.
      assert (Hab : a = b).
      { assert (Hin_b : In b (a :: r1))
          by (eapply Permutation_in; [apply Permutation_sym; exact Hperm
                                      | left; reflexivity]).
        assert (Hin_a : In a (b :: r2))
          by (eapply Permutation_in; [exact Hperm | left; reflexivity]).
        destruct Hin_b as [Heq | Hin_b]; [exact Heq |].
        destruct Hin_a as [Heq | Hin_a]; [symmetry; exact Heq |].
        apply Hinj; [left; reflexivity | right; exact Hin_b |].
        specialize (Ha b Hin_b). specialize (Hb a Hin_a).
        unfold key_le in *. lia. }
      subst b. f_equal. apply IH; [exact Hr1 | exact Hr2 | |].
      * eapply Permutation_cons_inv. exact Hperm.
      * intros x y Hx Hy. apply Hinj; right; assumption.
Qed.

Lemma NoDup_map_injective {A : Type} (key : A -> Z) (l : list A) :
  NoDup (map key l) ->
  forall a b, In a l -> In b l -> key a = key b -> a = b.
Proof.
  induction l as [| x r IH]; intros Hnd a b Ha Hb Hk; [contradiction |].
  cbn [map] in Hnd. inversion Hnd as [| ? ? Hx Hr]; subst.
  destruct Ha as [<- | Ha], Hb as [<- | Hb].
  - reflexivity.
  - exfalso. apply Hx. rewrite Hk. apply in_map. exact Hb.
  - exfalso. apply Hx. rewrite <- Hk. apply in_map. exact Ha.
  - apply IH; assumption.
Qed.

(** X6: when no two transactions have the same date, the order of the
    input does not matter: a run on any rearrangement of the input gives
    the same result. *)
Theorem input_order_irrelevant (self1 self2 : ACBCalculator)
        (txs txs' : list Transaction) :
  NoDup (map Transaction.date txs) ->
  Permutation txs txs' ->
  process_transactions self1 txs = process_transactions self2 txs'.
Proof.
  intros Hnd Hperm.
  rewrite !process_transactions_reset.
  replace (sorted Transaction.date txs') with (sorted Transaction.date txs);
    [reflexivity |].
  apply (sorted_lists_equal Transaction.date).
  - apply sorted_sorted.
  - apply sorted_sorted.
  - eapply perm_trans; [apply Permutation_sym, sorted_perm |].
    eapply perm_trans; [exact Hperm | apply sorted_perm].
  - intros a b Ha Hb. apply (NoDup_map_injective Transaction.date txs Hnd).
    + eapply Permutation_in; [apply Permutation_sym, sorted_perm | exact Ha].
    + eapply Permutation_in; [apply Permutation_sym, sorted_perm | exact Hb].
Qed.

Lemma input_order_irrelevant_witness :
  process_transactions __init__ create_test_transactions
  = process_transactions fixture_pool (rev create_test_transactions).
Proof.
  apply input_order_irrelevant.
  - vm_compute. repeat (constructor; [cbn; intuition discriminate |]).
    constructor.
  - apply Permutation_rev.
Defined.

(* ------------------------------------------------------------------ *)
(** ** Disposing of more than is held *)

Lemma sub_leb_nonpos (a b : Decimal) :
  (a <=? b)%dec = true -> Dec.coef (a - b)%dec <= 0.
Proof.
  unfold Dec.leb, Dec.cmp, Dec.sub, Dec.add, Dec.copy_negate. intros H.
  apply fix_nonpos. cbn [Dec.coef Dec.dexp].
  destruct (Z.compare_spec
              (Dec.coef a * Dec.pow10 (Dec.dexp a - Z.min (Dec.dexp a) (Dec.dexp b)))
              (Dec.coef b * Dec.pow10 (Dec.dexp b - Z.min (Dec.dexp a) (Dec.dexp b))));
    try discriminate; lia.
Qed.



(* ------------------------------------------------------------------ *)
(** ** The summary of a run *)

Lemma snapshot_step (self self' : ACBCalculator) (tx : Transaction) :
  snapshot self -> process_one self tx = Ok self' -> snapshot self'.
Proof.
  intros Hsnap H. apply process_one_Ok in H.
  destruct H as [[_ ->] | [(s & e0 & _ & Hacq & ->) | (s & e0 & _ & Hdis & ->)]];
    [exact Hsnap | |]; unfold snapshot; cbn [ledger total_cost total_btc]; split.
  - intros Hnil. exfalso. eapply app_cons_not_nil. symmetry. exact Hnil.
  - intros l e Hl. apply app_inj_tail in Hl. destruct Hl as [_ <-].
    apply _process_acquisition_Ok in Hacq.
    destruct Hacq as (_ & Hacb & Hc & Hb & _).
    split; [exact Hc |]. split; [exact Hb |].
    rewrite <- Hacb. apply acb_per_btc_pool. reflexivity.
  - intros Hnil. exfalso. eapply app_cons_not_nil. symmetry. exact Hnil.
  - intros l e Hl. apply app_inj_tail in Hl. destruct Hl as [_ <-].
    apply _process_disposition_Ok in Hdis.
    destruct Hdis as (p & _ & _ & Hacb & Hc & Hb & _).
    split; [exact Hc |]. split; [exact Hb |].
    rewrite <- Hacb. apply acb_per_btc_pool. reflexivity.
Qed.



Lemma nonneg_geb_zero (a : Decimal) :
  0 <= Dec.coef a -> (a >=? Dec.zero)%dec = true.
Proof.
  intros H. unfold Dec.geb, Dec.leb, Dec.cmp. cbn [Dec.coef Dec.dexp Dec.zero].
  pose proof (pow10_pos (Dec.dexp a - Z.min 0 (Dec.dexp a)) ltac:(lia)) as HP.
  rewrite Z.mul_0_l.
  destruct (Z.compare_spec 0 (Dec.coef a * Dec.pow10 (Dec.dexp a - Z.min 0 (Dec.dexp a))));
    try reflexivity; nia.
Qed.

Lemma abs_nonneg (a : Decimal) : 0 <= Dec.coef (Dec.abs a).
Proof. unfold Dec.abs. apply fix_nonneg. cbn [Dec.coef]. lia. Qed.

Lemma fold_add_nonneg (l : list Decimal) :
  forall acc,
    0 <= Dec.coef acc ->
    Forall (fun d => 0 <= Dec.coef d) l ->
    0 <= Dec.coef (fold_left Dec.add l acc).
Proof.
  induction l as [| d r IH]; intros acc Hacc Hall; [exact Hacc |].
  inversion Hall as [| ? ? Hd Hr]; subst. cbn [fold_left].
  apply IH; [apply add_nonneg; assumption | exact Hr].
Qed.

Lemma gains_of_nonneg (entries : list LedgerEntry) :
  Forall (fun d => 0 <= Dec.coef d) (gains_of entries).
Proof.
  unfold gains_of. apply Forall_forall. intros d Hd.
  apply in_flat_map in Hd. destruct Hd as (e & _ & Hd).
  destruct (LedgerEntry.capital_gain e) as [g |]; [| contradiction].
  destruct (g >=? Dec.zero)%dec eqn:Hge; [| contradiction].
  destruct Hd as [<- | []]. apply geb_zero_nonneg. exact Hge.
Qed.

Lemma losses_of_nonneg (entries : list LedgerEntry) :
  Forall (fun d => 0 <= Dec.coef d) (losses_of entries).
Proof.
  unfold losses_of. apply Forall_forall. intros d Hd.
  apply in_flat_map in Hd. destruct Hd as (e & _ & Hd).
  destruct (LedgerEntry.capital_gain e) as [g |]; [| contradiction].
  destruct (_ && _); [| contradiction].
  destruct Hd as [<- | []]. apply abs_nonneg.
Qed.

Lemma mul_nonpos_nonneg (a b : Decimal) :
  Dec.coef a <= 0 -> 0 <= Dec.coef b -> Dec.coef (a * b)%dec <= 0.
Proof.
  intros Ha Hb. unfold Dec.mul. apply fix_nonpos. cbn [Dec.coef]. nia.
Qed.

Lemma max_zero_nonpos (a : Decimal) :
  Dec.coef a <= 0 -> Dec.max Dec.zero a = Dec.zero.
Proof.
  intros H. unfold Dec.max, Dec.gtb, Dec.ltb, Dec.cmp.
  cbn [Dec.coef Dec.dexp Dec.zero].
  pose proof (pow10_pos (Dec.dexp a - Z.min 0 (Dec.dexp a)) ltac:(lia)) as HP.
  rewrite Z.mul_0_l.
  destruct (Z.compare_spec 0 (Dec.coef a * Dec.pow10 (Dec.dexp a - Z.min 0 (Dec.dexp a))));
    try reflexivity.
  exfalso. nia.
Qed.

(** X9: whatever the ledger, the summary has total gains, total losses
    and a taxable amount that are not negative; and when the losses are
    at least the gains, the taxable amount is exactly [Decimal('0')]: a
    net loss is never taxed negatively. *)
Theorem summary_amounts_not_negative (self : ACBCalculator)
        (tax_year : option Z) (s : Summary) :
  get_summary self tax_year = Ok s ->
  (total_gains s >=? Dec.zero)%dec = true
  /\ (total_losses s >=? Dec.zero)%dec = true
  /\ (taxable_capital_gain s >=? Dec.zero)%dec = true
  /\ ((total_gains s <=? total_losses s)%dec = true ->
      taxable_capital_gain s = Dec.zero).
Proof.
  intros H. unfold get_summary in H. cbv zeta in H.
  rewrite get_summary_loop_sums in H.
  inv_bind H as acb Hacb. injection H as <-.
  cbn [total_gains total_losses taxable_capital_gain].
  split; [apply nonneg_geb_zero, fold_add_nonneg;
          [reflexivity | apply gains_of_nonneg] |].
  split; [apply nonneg_geb_zero, fold_add_nonneg;
          [reflexivity | apply losses_of_nonneg] |].
  split.
  - match goal with
    | |- context [Dec.max Dec.zero ?x] =>
        destruct (max_spec Dec.zero x) as [[Hlt ->] | [_ ->]]
    end.
    + unfold Dec.geb, Dec.leb. unfold Dec.ltb in Hlt.
      destruct (Dec.cmp Dec.zero _); try reflexivity; discriminate Hlt.
    + reflexivity.
  - intros Hle. apply max_zero_nonpos, mul_nonpos_nonneg;
      [apply sub_leb_nonpos; exact Hle | cbn; lia].
Qed.

Lemma summary_amounts_not_negative_witness :
  exists s,
    get_summary
      (mkACBCalculator Dec.zero Dec.zero
         [disposal_entry (DT.make 2024 4 20 0 0 0 0)
                         (Dec.mkDecimal (-2133818) (-3)) false] [])
      None = Ok s
    /\ (total_losses s >=? Dec.zero)%dec = true
    /\ taxable_capital_gain s = Dec.zero.
Proof.
  eexists.
  assert (Hrun : get_summary
                   (mkACBCalculator Dec.zero Dec.zero
                      [disposal_entry (DT.make 2024 4 20 0 0 0 0)
                                      (Dec.mkDecimal (-2133818) (-3)) false] [])
                   None = Ok _) by (vm_compute; reflexivity).
  destruct (summary_amounts_not_negative _ _ _ Hrun) as (_ & Hl & _ & Hzero).
  split; [exact Hrun |]. split; [exact Hl |].
  apply Hzero. vm_compute. reflexivity.
Defined.

(* ------------------------------------------------------------------ *)
(** ** The detector over the whole input *)

(** In a sorted list, what is strictly below the element at a position is
    before that position. *)
Lemma StronglySorted_before {A : Type} (key : A -> Z) (l : list A) :
  forall i x t,
    StronglySorted (key_le key) l ->
    nth_error l i = Some x ->
    In t l -> key t < key x ->
    In t (firstn i l).
Proof.
  induction l as [| a r IH]; intros i x t Hs Hx Ht Hlt; [contradiction |].
  apply StronglySorted_inv in Hs. destruct Hs as [Hr Ha].
  rewrite Forall_forall in Ha.
  destruct i as [| i]; cbn in Hx.
  - injection Hx as ->. exfalso. destruct Ht as [-> | Ht]; [lia |].
    specialize (Ha t Ht). unfold key_le in Ha. lia.
  - cbn [firstn]. destruct Ht as [-> | Ht]; [left; reflexivity |].
    right. eapply IH; eassumption.
Qed.

Lemma In_firstn_In {A : Type} (l : list A) :
  forall i t, In t (firstn i l) -> In t l.
Proof.
  induction l as [| a r IH]; intros [| i] t H; try contradiction.
  cbn [firstn] in H. destruct H as [<- | H]; [left; reflexivity |].
  right. eapply IH. exact H.
Qed.

(** The verdict on the entry at a position of the ledger of a run. *)
Lemma run_detected (self self' : ACBCalculator) (txs : list Transaction)
      (led : list LedgerEntry) :
  process_transactions self txs = Ok (self', led) ->
  forall i tx e g,
    nth_error (filter recognised (sorted Transaction.date txs)) i = Some tx ->
    nth_error led i = Some e ->
    LedgerEntry.capital_gain e = Some g ->
    (g <? Dec.zero)%dec = true ->
    LedgerEntry.date e = Transaction.date tx
    /\ (LedgerEntry.superficial_loss_flag e = true
        <-> exists t,
              In t (firstn i (filter recognised (sorted Transaction.date txs)))
              /\ is_acquisition (Transaction.tx_type t) = true
              /\ DT.sub_days (Transaction.date tx) 30
                 <= Transaction.date t < Transaction.date tx).
Proof.
  intros H. unfold process_transactions in H. cbv zeta in H.
  inv_bind H as s Hs. injection H as <- <-.
  pose proof (process_loop_recent _ _ _ Hs) as Hrec. cbn in Hrec.
  destruct (process_loop_invariant _ detector_step _ _ _ detected_init Hs)
    as [_ Hall].
  rewrite Hrec in Hall. intros i tx e g Htx He Hg Hneg.
  destruct (Hall i tx e g Htx He Hg Hneg) as [Hdate Hfn].
  split; [exact Hdate |].
  exact (proj1 (_check_superficial_loss_spec
                  (mkACBCalculator Dec.zero Dec.zero []
                     (firstn i (filter recognised (sorted Transaction.date txs))))
                  tx _ _ (eq_sym Hfn))).
Qed.

(** X10: in the ledger of a run, a disposal entry with a negative gain is
    flagged exactly when the input, wherever in it, holds a buy or a
    receive dated in the thirty days before the date of the entry, that
    date excluded and the day thirty days before included.  Scanning only
    the transactions processed so far loses none of them, and an
    acquisition dated after the disposal, or at the same instant, never
    counts. *)
Theorem flag_iff_acquisition_in_input (self self' : ACBCalculator)
        (txs : list Transaction) (led : list LedgerEntry)
        (e : LedgerEntry) (g : Decimal) :
  process_transactions self txs = Ok (self', led) ->
  In e led ->
  LedgerEntry.capital_gain e = Some g ->
  (g <? Dec.zero)%dec = true ->
  (LedgerEntry.superficial_loss_flag e = true
   <-> exists t,
         In t txs
         /\ is_acquisition (Transaction.tx_type t) = true
         /\ DT.sub_days (LedgerEntry.date e) 30
            <= Transaction.date t < LedgerEntry.date e).
Proof.
  intros H Hin Hg Hneg.
  pose proof (run_mirrored _ _ _ _ H) as Hm.
  apply In_nth_error in Hin. destruct Hin as [i He].
  assert (Htx : exists tx,
            nth_error (filter recognised (sorted Transaction.date txs)) i = Some tx).
  { destruct (nth_error (filter recognised (sorted Transaction.date txs)) i)
      as [tx |] eqn:Hnth; [exists tx; reflexivity |].
    exfalso. apply nth_error_None in Hnth.
    apply Forall2_length in Hm. rewrite Hm in Hnth.
    apply nth_error_None in Hnth. congruence. }
  destruct Htx as [tx Htx].
  destruct (run_detected _ _ _ _ H i tx e g Htx He Hg Hneg) as [Hdate Hiff].
  rewrite Hdate, Hiff. split.
  - intros (t & Ht & Hacq & Hwin). exists t. split; [| split; assumption].
    apply In_firstn_In in Ht. apply filter_In in Ht. destruct Ht as [Ht _].
    eapply Permutation_in; [apply Permutation_sym, sorted_perm | exact Ht].
  - intros (t & Ht & Hacq & Hwin). exists t. split; [| split; assumption].
    apply (StronglySorted_before Transaction.date _ i tx t).
    + apply StronglySorted_filter_key, sorted_sorted.
    + exact Htx.
    + apply filter_In. split.
      * eapply Permutation_in; [apply sorted_perm | exact Ht].
      * unfold recognised. rewrite Hacq. reflexivity.
    + lia.
Qed.

Lemma flag_iff_acquisition_in_input_witness :
  exists self' e1 e2 g,
    process_transactions __init__ (rev (buy_then_loss 30)) = Ok (self', [e1; e2])
    /\ LedgerEntry.capital_gain e2 = Some g
    /\ LedgerEntry.superficial_loss_flag e2 = true.
Proof.
  do 3 eexists.
  assert (Hrun : process_transactions __init__ (rev (buy_then_loss 30))
                 = Ok (_, [_; _])) by (vm_compute; reflexivity).
  match type of Hrun with
  | _ = Ok (_, [_; ?e]) =>
      assert (Hg : LedgerEntry.capital_gain e = Some (Dec.mkDecimal (-2500000) (-3)))
        by reflexivity
  end.
  assert (Hneg : (Dec.mkDecimal (-2500000) (-3) <? Dec.zero)%dec = true)
    by (vm_compute; reflexivity).
  eexists. split; [exact Hrun |]. split; [exact Hg |].
  apply (proj2 (flag_iff_acquisition_in_input _ _ _ _ _ _ Hrun
                  (or_intror (or_introl eq_refl)) Hg Hneg)).
  exists (nth 0 (buy_then_loss 30) transfer).
  split; [vm_compute; right; left; reflexivity |].
  split; [vm_compute; reflexivity |].
  vm_compute. split; [discriminate | reflexivity].
Defined.

(* ------------------------------------------------------------------ *)
(** ** Nothing to process *)

(** X11: when no transaction of the input has a known kind, and so for
    the empty input, the run returns an empty ledger and an empty pool
    without an error, and the summary of any year then has all its
    amounts at [Decimal('0')] and counts no flagged loss. *)
Theorem nothing_recognised (self : ACBCalculator) (txs : list Transaction)
        (tax_year : option Z) :
  Forall (fun tx => recognised tx = false) txs ->
  process_transactions self txs = Ok (__init__, [])
  /\ get_summary __init__ tax_year
     = Ok (mkSummary Dec.zero Dec.zero (Dec.zero - Dec.zero)%dec Dec.zero
                     (Dec.mkDecimal 50 (-2)) 0 Dec.zero Dec.zero Dec.zero).
Proof.
  intros Hall. split.
  - rewrite <- process_transactions_filter.
    replace (filter recognised txs) with (@nil Transaction); [reflexivity |].
    symmetry. induction Hall as [| tx r Htx _ IH]; [reflexivity |].
    cbn [filter]. rewrite Htx. exact IH.
  - unfold get_summary, get_summary_entries. cbn [ledger __init__ filter].
    destruct (truthy tax_year); vm_compute; reflexivity.
Qed.

Lemma nothing_recognised_witness :
  process_transactions fixture_pool [transfer; transfer] = Ok (__init__, []).
Proof.
  apply (nothing_recognised fixture_pool [transfer; transfer] None).
  repeat constructor.
Defined.

(* ------------------------------------------------------------------ *)
(** ** The kind inferred from a label *)

Lemma prefix_occurs (a s : string) :
  String.prefix a s = true <-> exists b, s = (a ++ b)%string.
Proof.
  revert s. induction a as [| c a IH]; intros s.
  - destruct s; cbn; split; intros; try reflexivity; eexists; reflexivity.
  - destruct s as [| c' s]; cbn.
    + split; [discriminate | intros [b Hb]; discriminate Hb].
    + destruct (Ascii.ascii_dec c c') as [<- | Hne].
      * rewrite IH. split; intros [b Hb]; exists b.
        -- rewrite Hb. reflexivity.
        -- injection Hb as Hb. exact Hb.
      * split; [discriminate |]. intros [b Hb]. injection Hb as Hc _.
        congruence.
Qed.

(** [Str.contains] is the test of Python's [in] on strings. *)
Lemma contains_occurs (sub s : string) :
  Str.contains sub s = true <-> occurs sub s.
Proof.
  unfold occurs. induction s as [| c s IH].
  - cbn [Str.contains].
    destruct (String.prefix sub "") eqn:Hp.
    + split; [| reflexivity]. intros _.
      apply prefix_occurs in Hp. destruct Hp as [b Hb].
      exists EmptyString, b. exact Hb.
    + split; [discriminate |]. intros (pre & post & H).
      destruct pre; [| discriminate H]. cbn in H.
      assert (String.prefix sub "" = true)
        by (apply prefix_occurs; exists post; exact H).
      congruence.
  - cbn [Str.contains].
    destruct (String.prefix sub (String c s)) eqn:Hp.
    + split; [| reflexivity]. intros _.
      apply prefix_occurs in Hp. destruct Hp as [b Hb].
      exists EmptyString, b. exact Hb.
    + rewrite IH. split.
      * intros (pre & post & H). exists (String c pre), post.
        rewrite H. reflexivity.
      * intros (pre & post & H). destruct pre as [| c' pre].
        -- cbn in H.
           assert (String.prefix sub (String c s) = true)
             by (apply prefix_occurs; exists post; exact H).
           congruence.
        -- injection H as _ H. exists pre, post. exact H.
Qed.

Lemma any_keyword_occurs (keywords : list string) (label_lower : string) :
  Parsers.any_keyword keywords label_lower = true
  <-> exists kw, In kw keywords /\ occurs kw label_lower.
Proof.
  unfold Parsers.any_keyword. rewrite existsb_exists.
  split; intros (kw & Hin & H); exists kw; (split; [exact Hin |]);
    apply contains_occurs; exact H.
Qed.

(** X12: whatever the label, the kind inferred for a row received is a
    kind of acquisition ('receive' or 'buy') and the kind inferred for a
    row sent is a kind of disposal ('send', 'sell' or 'spend'), so that
    the engine skips neither; any other kind is returned as it is. *)
Theorem inferred_kind_keeps_direction (label : string) :
  is_acquisition (Parsers._infer_tx_type "receive" label) = true
  /\ is_disposition (Parsers._infer_tx_type "send" label) = true
  /\ (forall base_type,
        base_type <> "receive"%string -> base_type <> "send"%string ->
        Parsers._infer_tx_type base_type label = base_type).
Proof.
  unfold Parsers._infer_tx_type. cbv zeta. split; [| split].
  - cbn [String.eqb Ascii.eqb Bool.eqb andb].
    destruct (Parsers.any_keyword Parsers.buy_keywords _); reflexivity.
  - cbn [String.eqb Ascii.eqb Bool.eqb andb].
    destruct (Parsers.any_keyword Parsers.sell_keywords _); [reflexivity |].
    destruct (Parsers.any_keyword Parsers.spend_keywords _); reflexivity.
  - intros base_type Hr Hs.
    apply String.eqb_neq in Hr. apply String.eqb_neq in Hs.
    rewrite Hr, Hs. reflexivity.
Qed.

Lemma inferred_kind_keeps_direction_witness :
  Parsers._infer_tx_type "transfer" "Bought coffee" = "transfer"%string.
Proof.
  apply (proj2 (proj2 (inferred_kind_keeps_direction "Bought coffee")));
    discriminate.
Defined.

(** X13: which labels change the kind.  A row received becomes a 'buy'
    exactly when its label, in lower case, contains one of the buy
    keywords anywhere; a row sent becomes a 'sell' exactly when it
    contains one of the sell keywords, and a 'spend' exactly when it
    contains one of the spend keywords and none of the sell keywords. *)
Theorem inferred_kind_by_keyword (label : string) :
  (Parsers._infer_tx_type "receive" label = "buy"%string
   <-> exists kw, In kw Parsers.buy_keywords /\ occurs kw (Str.lower label))
  /\ (Parsers._infer_tx_type "send" label = "sell"%string
      <-> exists kw, In kw Parsers.sell_keywords /\ occurs kw (Str.lower label))
  /\ (Parsers._infer_tx_type "send" label = "spend"%string
      <-> (exists kw, In kw Parsers.spend_keywords /\ occurs kw (Str.lower label))
          /\ ~ (exists kw, In kw Parsers.sell_keywords
                           /\ occurs kw (Str.lower label))).
Proof.
  rewrite <- !any_keyword_occurs.
  unfold Parsers._infer_tx_type. cbv zeta.
  cbn [String.eqb Ascii.eqb Bool.eqb andb].
  split; [| split].
  - destruct (Parsers.any_keyword Parsers.buy_keywords _);
      split; intros; try reflexivity; discriminate.
  - destruct (Parsers.any_keyword Parsers.sell_keywords _);
      [split; reflexivity |].
    destruct (Parsers.any_keyword Parsers.spend_keywords _);
      split; intros; discriminate.
  - destruct (Parsers.any_keyword Parsers.sell_keywords _).
    + split; [discriminate |]. intros [_ Hn]. exfalso. apply Hn. reflexivity.
    + destruct (Parsers.any_keyword Parsers.spend_keywords _).
      * split; [| reflexivity]. intros _. split; [reflexivity | discriminate].
      * split; [discriminate |]. intros [H _]. discriminate H.
Qed.

(* ------------------------------------------------------------------ *)
(** ** Amounts *)

Lemma isdigit_value (c : ascii) :
  Str.isdigit c = true -> 0 <= Z.of_nat (nat_of_ascii c) - 48 <= 9.
Proof.
  unfold Str.isdigit. intros H. apply andb_true_iff in H.
  destruct H as [H1 H2]. apply Nat.leb_le in H1. apply Nat.leb_le in H2. lia.
Qed.

Lemma int_of_digits_nonneg (s : string) :
  forall acc, Str.all_digits s = true -> 0 <= acc ->
              0 <= Str.int_of_digits acc s.
Proof.
  induction s as [| c s IH]; intros acc Hd Hacc; [exact Hacc |].
  cbn in Hd. apply andb_true_iff in Hd. destruct Hd as [Hc Hs].
  cbn [Str.int_of_digits]. apply IH; [exact Hs |].
  pose proof (isdigit_value c Hc). lia.
Qed.

Lemma all_digits_app (a b : string) :
  Str.all_digits (a ++ b) = Str.all_digits a && Str.all_digits b.
Proof.
  induction a as [| c a IH]; [reflexivity |].
  cbn. rewrite IH, andb_assoc. reflexivity.
Qed.

(** A decimal read from a string of digits and dots is not negative. *)
Lemma Decimal_of_string_nonneg (s : string) (a : Decimal) :
  Decimal_of_string s = Some a -> 0 <= Dec.coef a.
Proof.
  unfold Decimal_of_string.
  destruct (Str.split_dot s) as [i [f |]].
  - destruct (Str.all_digits i) eqn:Hi; [| discriminate].
    destruct (Str.all_digits f) eqn:Hf; [| discriminate].
    cbn [andb]. destruct (negb _); [| discriminate].
    intros H. injection H as <-. cbn [Dec.coef].
    apply int_of_digits_nonneg; [| lia].
    rewrite all_digits_app, Hi, Hf. reflexivity.
  - destruct (Str.all_digits i) eqn:Hi; [| discriminate].
    cbn [andb]. destruct (negb _); [| discriminate].
    intros H. injection H as <-. cbn [Dec.coef].
    apply int_of_digits_nonneg; [exact Hi | lia].
Qed.

Lemma strip_zeros_nonneg (fuel : nat) :
  forall c e ideal, 0 <= c -> 0 <= fst (Dec.strip_zeros fuel c e ideal).
Proof.
  induction fuel as [| f IH]; intros c e ideal Hc; [exact Hc |].
  cbn [Dec.strip_zeros]. destruct (_ && _); [| exact Hc].
  apply IH. apply Z.div_pos; lia.
Qed.

(** A quotient by a positive decimal is returned, and is not negative
    when the dividend is not. *)
Lemma truediv_positive_divisor (a b : Decimal) :
  0 <= Dec.coef a -> 0 < Dec.coef b ->
  exists r, Dec.truediv a b = Ok r /\ 0 <= Dec.coef r.
Proof.
  intros Ha Hb. unfold Dec.truediv.
  destruct (Z.eqb_spec (Dec.coef b) 0) as [Hz | _]; [lia |].
  destruct (Z.eqb_spec (Dec.coef a) 0) as [_ | Hnz].
  - eexists. split; [reflexivity |]. rewrite fix_zero. cbn. lia.
  - set (m1 := Z.abs (Dec.coef a)). set (m2 := Z.abs (Dec.coef b)).
    set (shift := Dec.ndigits m2 - Dec.ndigits m1 + Dec.prec + 1).
    assert (Hm1 : 0 <= m1) by (unfold m1; lia).
    assert (Hm2 : 0 < m2) by (unfold m2; lia).
    assert (Hsign : Z.sgn (Dec.coef a) * Z.sgn (Dec.coef b) = 1) by lia.
    rewrite Hsign.
    destruct (shift >=? 0) eqn:Hshift.
    + assert (Hq : 0 <= m1 * Dec.pow10 shift / m2).
      { apply Z.div_pos; [| exact Hm2].
        apply Z.geb_le in Hshift. pose proof (pow10_pos shift ltac:(lia)). nia. }
      destruct (_ =? 0).
      * destruct (Dec.strip_zeros _ _ _ _) as [c e] eqn:Hstrip.
        eexists. split; [reflexivity |]. apply fix_nonneg. cbn [Dec.coef].
        pose proof (strip_zeros_nonneg
                      (Z.to_nat (Dec.dexp a - Dec.dexp b
                                 - (Dec.dexp a - Dec.dexp b - shift)))
                      _ (Dec.dexp a - Dec.dexp b - shift)
                      (Dec.dexp a - Dec.dexp b) Hq) as Hc.
        rewrite Hstrip in Hc. cbn in Hc. lia.
      * eexists. split; [reflexivity |]. apply fix_nonneg. cbn [Dec.coef].
        destruct (_ =? 0); lia.
    + assert (Hq : 0 <= m1 / (m2 * Dec.pow10 (- shift))).
      { apply Z.div_pos; [exact Hm1 |].
        rewrite Z.geb_leb in Hshift. apply Z.leb_gt in Hshift.
        pose proof (pow10_pos (- shift) ltac:(lia)). nia. }
      destruct (_ =? 0).
      * destruct (Dec.strip_zeros _ _ _ _) as [c e] eqn:Hstrip.
        eexists. split; [reflexivity |]. apply fix_nonneg. cbn [Dec.coef].
        pose proof (strip_zeros_nonneg
                      (Z.to_nat (Dec.dexp a - Dec.dexp b
                                 - (Dec.dexp a - Dec.dexp b - shift)))
                      _ (Dec.dexp a - Dec.dexp b - shift)
                      (Dec.dexp a - Dec.dexp b) Hq) as Hc.
        rewrite Hstrip in Hc. cbn in Hc. lia.
      * eexists. split; [reflexivity |]. apply fix_nonneg. cbn [Dec.coef].
        destruct (_ =? 0); lia.
Qed.



Lemma ndigits_aux_le (fuel : nat) :
  forall n k, 0 <= n < Dec.pow10 k -> 1 <= k -> Dec.ndigits_aux fuel n <= k.
Proof.
  induction fuel as [| f IH]; intros n k Hn Hk; [exact Hk |].
  cbn [Dec.ndigits_aux]. destruct (Z.ltb_spec n 10) as [_ | Hge]; [exact Hk |].
  assert (Hk2 : 2 <= k).
  { destruct (Z.eq_dec k 1) as [-> | Hne]; [| lia].
    change (Dec.pow10 1) with 10 in Hn. lia. }
  assert (Hdiv : 0 <= n / 10 < Dec.pow10 (k - 1)).
  { split; [apply Z.div_pos; lia |].
    apply Z.div_lt_upper_bound; [lia |].
    replace (10 * Dec.pow10 (k - 1)) with (Dec.pow10 k); [lia |].
    unfold Dec.pow10. replace k with (1 + (k - 1)) at 1 by lia.
    rewrite Z.pow_add_r by lia. reflexivity. }
  specialize (IH (n / 10) (k - 1) Hdiv ltac:(lia)). lia.
Qed.

(** A number below [10 ^ k] has at most [k] digits. *)
Lemma ndigits_le (n k : Z) :
  0 <= n < Dec.pow10 k -> 1 <= k -> Dec.ndigits n <= k.
Proof.
  intros Hn Hk. unfold Dec.ndigits. rewrite Z.abs_eq by lia.
  apply ndigits_aux_le; assumption.
Qed.

Lemma ndigits_aux_pos (fuel : nat) (n : Z) : 1 <= Dec.ndigits_aux fuel n.
Proof.
  revert n. induction fuel as [| f IH]; intros n; cbn [Dec.ndigits_aux]; [lia |].
  destruct (n <? 10); [lia |]. specialize (IH (n / 10)). lia.
Qed.

Lemma strip_zeros_steps (j : nat) :
  forall fuel c e ideal,
    (j <= fuel)%nat -> e + Z.of_nat j <= ideal ->
    Dec.strip_zeros fuel (c * Dec.pow10 (Z.of_nat j)) e ideal
    = Dec.strip_zeros (fuel - j) c (e + Z.of_nat j) ideal.
Proof.
  induction j as [| j IH]; intros fuel c e ideal Hj He.
  - change (Dec.pow10 (Z.of_nat 0)) with 1.
    rewrite Z.mul_1_r, Nat.sub_0_r, Z.add_0_r. reflexivity.
  - destruct fuel as [| f]; [lia |].
    cbn [Dec.strip_zeros].
    assert (Hpow : c * Dec.pow10 (Z.of_nat (S j))
                   = c * Dec.pow10 (Z.of_nat j) * 10).
    { unfold Dec.pow10. rewrite Nat2Z.inj_succ, Z.pow_succ_r by lia. lia. }
    rewrite Hpow, Z.mod_mul, Z.div_mul by lia.
    destruct (Z.ltb_spec e ideal) as [_ | Hge]; [| lia].
    cbn [andb Z.eqb]. rewrite IH by lia.
    replace (e + 1 + Z.of_nat j) with (e + Z.of_nat (S j)) by lia.
    reflexivity.
Qed.

Lemma strip_zeros_value (fuel : nat) :
  forall c e ideal c' e',
    0 <= c ->
    Dec.strip_zeros fuel c e ideal = (c', e') ->
    0 <= c' /\ e <= e' /\ c = c' * Dec.pow10 (e' - e).
Proof.
  induction fuel as [| f IH]; intros c e ideal c' e' Hc H.
  - injection H as <- <-. replace (e - e) with 0 by lia.
    change (Dec.pow10 0) with 1. lia.
  - cbn [Dec.strip_zeros] in H.
    destruct (Z.ltb_spec e ideal) as [Hlt | Hge];
      destruct (Z.eqb_spec (c mod 10) 0) as [Hmod | Hmod]; cbn [andb] in H;
      try (injection H as <- <-; replace (e - e) with 0 by lia;
           change (Dec.pow10 0) with 1; lia).
    apply IH in H; [| apply Z.div_pos; lia].
    destruct H as (Hc' & He' & Hval).
    split; [exact Hc' |]. split; [lia |].
    pose proof (Z.div_mod c 10 ltac:(lia)) as Hdm. rewrite Hmod in Hdm.
    rewrite Hdm, Hval, Z.add_0_r.
    replace (e' - e) with (1 + (e' - (e + 1))) by lia.
    unfold Dec.pow10. rewrite Z.pow_add_r by lia. lia.
Qed.

(** The quotient of a whole number by 100000000 is exact as long as the
    number has at most twenty-eight digits. *)
Lemma truediv_sats_exact (n : Z) :
  0 < n < Dec.pow10 28 ->
  exists a,
    Dec.truediv (Dec.mkDecimal n 0) Parsers.SATS_PER_BTC = Ok a
    /\ (a == Dec.mkDecimal n (-8))%dec = true.
Proof.
  intros Hn. unfold Dec.truediv, Parsers.SATS_PER_BTC.
  cbn [Dec.coef Dec.dexp].
  destruct (Z.eqb_spec n 0) as [Hz | _]; [lia |].
  change (100000000 =? 0) with false. cbv iota.
  change (Z.sgn 100000000) with 1. rewrite (proj2 (Z.sgn_pos_iff n)) by lia.
  rewrite (Z.abs_eq n) by lia.
  change (Dec.ndigits (Z.abs 100000000)) with 9.
  assert (Hnd : 1 <= Dec.ndigits n <= 28).
  { split; [apply ndigits_aux_pos | apply ndigits_le; lia]. }
  set (shift := 9 - Dec.ndigits n + Dec.prec + 1).
  assert (Hshift : 10 <= shift <= 37) by (unfold shift, Dec.prec; lia).
  destruct (Z.geb_spec shift 0) as [_ | Hneg]; [| lia].
  change (Z.abs 100000000) with (Dec.pow10 8).
  assert (Hsplit : n * Dec.pow10 shift = n * Dec.pow10 (shift - 8) * Dec.pow10 8).
  { unfold Dec.pow10. rewrite <- Z.mul_assoc, <- Z.pow_add_r by lia.
    replace (shift - 8 + 8) with shift by lia. reflexivity. }
  pose proof (pow10_pos 8 ltac:(lia)) as HP8.
  rewrite Hsplit, Z.mod_mul, Z.div_mul by lia.
  cbn [Z.eqb].
  replace (0 - 0 - (0 - 0 - shift)) with shift by lia.
  replace (0 - 0 - shift) with (- shift) by lia.
  replace (0 - 0) with 0 by lia.
  replace (shift - 8) with (Z.of_nat (Z.to_nat (shift - 8))) by lia.
  rewrite strip_zeros_steps by lia.
  destruct (Dec.strip_zeros _ n _ 0) as [c e] eqn:Hstrip.
  apply strip_zeros_value in Hstrip; [| lia].
  destruct Hstrip as (Hc & He & Hval).
  replace (- shift + Z.of_nat (Z.to_nat (shift - 8))) with (-8) in He, Hval by lia.
  pose proof (pow10_pos (e - -8) ltac:(lia)) as HPe.
  assert (Hcn : 0 < c <= n) by nia.
  eexists. split; [reflexivity |].
  rewrite Z.mul_1_l, fix_small.
  - unfold Dec.eqb, Dec.cmp. cbn [Dec.coef Dec.dexp].
    rewrite Z.min_r by lia. replace (-8 - -8) with 0 by lia.
    change (Dec.pow10 0) with 1. rewrite Z.mul_1_r, <- Hval, Z.compare_refl.
    reflexivity.
  - cbn [Dec.coef]. rewrite Z.gtb_ltb. apply Z.ltb_ge.
    change Dec.prec with 28. apply ndigits_le; lia.
Qed.

Lemma isdigit_not_space (c : ascii) :
  Str.isdigit c = true -> Str.isspace c = false.
Proof.
  unfold Str.isdigit, Str.isspace. intros H.
  apply andb_true_iff in H. destruct H as [H1 H2].
  apply Nat.leb_le in H1. apply Nat.leb_le in H2.
  apply orb_false_iff. split; apply andb_false_iff.
  - right. apply Nat.leb_gt. lia.
  - right. apply Nat.leb_gt. lia.
Qed.

Lemma isdigit_not_char (c : ascii) (n : nat) :
  Str.isdigit c = true -> (n < 48)%nat -> Ascii.eqb c (ascii_of_nat n) = false.
Proof.
  unfold Str.isdigit. intros H Hn.
  apply andb_true_iff in H. destruct H as [H1 _]. apply Nat.leb_le in H1.
  apply Ascii.eqb_neq. intros ->.
  rewrite nat_ascii_embedding in H1 by lia. lia.
Qed.

(** A string of digits goes unchanged through the cleaning steps of
    [_parse_amount]. *)
Lemma digits_clean (s : string) :
  Str.all_digits s = true ->
  Str.lstrip s = s /\ Str.rstrip s = s
  /\ String.prefix "-" s = false /\ Str.lstrip_char "-" s = s
  /\ Str.contains "." s = false /\ Str.keep_digits_dots s = s
  /\ Str.split_dot s = (s, None).
Proof.
  induction s as [| c s IH]; intros H; [repeat split |].
  cbn in H. apply andb_true_iff in H. destruct H as [Hc Hs].
  destruct (IH Hs) as (_ & Hr & _ & _ & Hcont & Hkeep & Hsplit).
  pose proof (isdigit_not_space c Hc) as Hsp.
  pose proof (isdigit_not_char c 45 Hc ltac:(lia)) as Hminus.
  pose proof (isdigit_not_char c 46 Hc ltac:(lia)) as Hdot.
  change (ascii_of_nat 45) with "-"%char in Hminus.
  change (ascii_of_nat 46) with "."%char in Hdot.
  split; [cbn; rewrite Hsp; reflexivity |].
  split; [cbn [Str.rstrip]; rewrite Hr, Hsp; destruct s; reflexivity |].
  split.
  { cbn [String.prefix].
    destruct (Ascii.ascii_dec "-" c) as [<- | _]; [| reflexivity].
    discriminate Hminus. }
  split; [cbn; rewrite Hminus; reflexivity |].
  split.
  { cbn [Str.contains String.prefix]. rewrite Hcont.
    destruct (Ascii.ascii_dec "." c) as [<- | _]; [| reflexivity].
    discriminate Hdot. }
  split; [cbn; rewrite Hc, Hkeep; reflexivity |].
  cbn [Str.split_dot]. rewrite Hdot, Hsplit. reflexivity.
Qed.

(** X15: a whole number of satoshis written in digits, with or without a
    leading minus sign, is returned as that number of hundred-millionths
    of a bitcoin, exactly, when it is above 21 and has at most
    twenty-eight digits; the minus sign is returned as the flag. *)
Theorem parse_amount_satoshis (digits : string) (negative : bool) :
  Str.all_digits digits = true ->
  21 < Str.int_of_digits 0 digits < Dec.pow10 28 ->
  exists a,
    Parsers._parse_amount
      (Some ((if negative then "-" else "") ++ digits)%string)
    = Ok (Some a, negative)
    /\ (a == Dec.mkDecimal (Str.int_of_digits 0 digits) (-8))%dec = true.
Proof.
  intros Hd Hn.
  destruct (digits_clean digits Hd)
    as (Hl & Hr & Hpre & Hlc & Hcont & Hkeep & Hsplit).
  assert (Hne : digits <> EmptyString)
    by (intros ->; cbn [Str.int_of_digits] in Hn; lia).
  destruct (truediv_sats_exact (Str.int_of_digits 0 digits) ltac:(lia))
    as (a & Ha & Heq).
  exists a. split; [| exact Heq].
  assert (Hstrip : Str.strip ((if negative then "-" else "") ++ digits)%string
                   = ((if negative then "-" else "") ++ digits)%string).
  { unfold Str.strip. destruct negative; cbn [append].
    - change (Str.lstrip (String "-" digits)) with (String "-" digits).
      cbn [Str.rstrip]. rewrite Hr.
      destruct digits; [contradiction | reflexivity].
    - rewrite Hl. exact Hr. }
  unfold Parsers._parse_amount. cbv zeta. rewrite Hstrip.
  assert (Hsign : String.prefix "-" ((if negative then "-" else "") ++ digits)%string
                  = negative)
    by (destruct negative; [destruct digits; reflexivity | exact Hpre]).
  assert (Hbody : Str.lstrip_char "-"
                    ((if negative then "-" else "") ++ digits)%string = digits)
    by (destruct negative; [cbn; exact Hlc | exact Hlc]).
  rewrite Hsign, Hbody, Hcont, Hkeep.
  unfold Decimal_of_string. rewrite Hsplit, Hd.
  destruct (String.eqb_spec digits "") as [-> | _]; [contradiction |].
  cbn [andb negb].
  assert (Hint : Dec.to_integral_value
                   (Dec.mkDecimal (Str.int_of_digits 0 digits) 0)
                 = Dec.mkDecimal (Str.int_of_digits 0 digits) 0) by reflexivity.
  rewrite Hint.
  assert (Hself : (Dec.mkDecimal (Str.int_of_digits 0 digits) 0
                   == Dec.mkDecimal (Str.int_of_digits 0 digits) 0)%dec = true)
    by (unfold Dec.eqb, Dec.cmp; rewrite Z.compare_refl; reflexivity).
  rewrite Hself.
  assert (Hgt : Dec.gtb (Dec.mkDecimal (Str.int_of_digits 0 digits) 0)
                        (Dec.mkDecimal 21 0) = true).
  { unfold Dec.gtb, Dec.ltb, Dec.cmp. cbn [Dec.coef Dec.dexp].
    change (Dec.pow10 (0 - Z.min 0 0)) with 1. rewrite !Z.mul_1_r.
    destruct (Z.compare_spec 21 (Str.int_of_digits 0 digits));
      [lia | reflexivity | lia]. }
  rewrite Hgt, Ha. cbn [andb bind].
  destruct (Dec.gtb _ (Dec.mkDecimal 21000000 0)); reflexivity.
Qed.

Lemma parse_amount_satoshis_witness :
  exists a,
    Parsers._parse_amount (Some "-30000000"%string) = Ok (Some a, true)
    /\ (a == Dec.mkDecimal 3 (-1))%dec = true.
Proof.
  destruct (parse_amount_satoshis "30000000" true eq_refl)
    as (a & Ha & Heq); [vm_compute; split; reflexivity |].
  exists a. split; [exact Ha |].
  assert (Hval : Parsers._parse_amount (Some "-30000000"%string)
                 = Ok (Some (Dec.mkDecimal 3 (-1)), true))
    by (vm_compute; reflexivity).
  change (Parsers._parse_amount (Some "-30000000"%string))
    with (Parsers._parse_amount (Some ("-" ++ "30000000")%string)) in Hval.
  rewrite Hval in Ha. injection Ha as <-. vm_compute. reflexivity.
Defined.

(* ------------------------------------------------------------------ *)
(** ** Prices *)

Lemma add_days_0 (date : datetime) : Parsers.add_days date 0 = date.
Proof. unfold Parsers.add_days. lia. Qed.

Ltac skip_unpriced Hnone :=
  repeat match goal with
         | |- context [Parsers.dict_get (Parsers.prices ?s)
                         (DT.strftime_Ymd (Parsers.add_days ?d ?k))] =>
             rewrite (Hnone k) by lia
         end.

(** X16: the price of the nearest day.  When the user's data has a price
    for a day at most seven days from the date and none for any day
    nearer to the date, nor, if that day is after the date, for the day
    as far before it, [get_price] (of a date a week inside the range of
    [datetime]) returns that price with the note
    'nearest (+n days)' or 'nearest (-n days)': the nearest day wins, and
    of two days as near the earlier one. *)
Theorem get_price_nearest (self : Parsers.HistoricalPriceProvider)
        (date : datetime) (delta : Z) (p : Decimal) :
  week_inside date ->
  1 <= Z.abs delta <= 7 ->
  user_price self date delta = Some p ->
  (forall d, Z.abs d < Z.abs delta -> user_price self date d = None) ->
  (0 < delta -> user_price self date (- delta) = None) ->
  Parsers.get_price self date = (p, nearest_note delta).
Proof.
  unfold user_price. intros _ Hd Hp Hnone Hbefore.
  pose proof (Hnone 0 ltac:(lia)) as H0. rewrite add_days_0 in H0.
  unfold Parsers.get_price. cbv zeta. rewrite H0.
  cbn [Parsers.get_price_offsets Parsers.get_price_deltas Z.opp].
  assert (Hcases : delta = -1 \/ delta = 1 \/ delta = -2 \/ delta = 2
                   \/ delta = -3 \/ delta = 3 \/ delta = -4 \/ delta = 4
                   \/ delta = -5 \/ delta = 5 \/ delta = -6 \/ delta = 6
                   \/ delta = -7 \/ delta = 7) by lia.
  repeat destruct Hcases as [-> | Hcases]; try subst delta;
    skip_unpriced Hnone;
    try (pose proof (Hbefore ltac:(lia)) as Hb; cbn [Z.opp] in Hb;
         rewrite Hb);
    rewrite Hp; reflexivity.
Qed.

Lemma get_price_nearest_witness :
  Parsers.get_price
    (Parsers.mkHistoricalPriceProvider
       [("2024-03-08"%string, Dec.mkDecimal 9000000 (-2));
        ("2024-03-12"%string, Dec.mkDecimal 9100000 (-2))] [])
    (DT.make 2024 3 10 9 0 0 0)
  = (Dec.mkDecimal 9000000 (-2), "nearest (-2 days)"%string).
Proof.
  apply (get_price_nearest _ _ (-2)).
  - vm_compute. split; [discriminate | reflexivity].
  - lia.
  - vm_compute. reflexivity.
  - intros d Hd. assert (Hc : d = -1 \/ d = 0 \/ d = 1) by lia.
    destruct Hc as [-> | [-> | ->]]; vm_compute; reflexivity.
  - lia.
Defined.

Lemma within_days (P : Z -> Prop) (n : nat) :
  Forall P (map (fun i => Z.of_nat i - Z.of_nat n) (seq 1 (2 * n - 1))) ->
  forall d, Z.abs d < Z.of_nat n -> P d.
Proof.
  intros HF d Hd. rewrite Forall_forall in HF. apply HF.
  apply in_map_iff. exists (Z.to_nat (d + Z.of_nat n)). split; [lia |].
  apply in_seq. lia.
Qed.

Ltac each_day :=
  match goal with
  | |- Forall ?P ?l =>
      let l' := eval vm_compute in l in
      change (Forall P l'); repeat (constructor; [assumption |]); constructor
  end.

Ltac try_day k :=
  let H := fresh "Hk" in
  destruct (Parsers.dict_get (Parsers.prices _)
              (DT.strftime_Ymd (Parsers.add_days _ k))) eqn:H;
  cbv iota beta;
  [intros Heq; injection Heq as <- <-; right; left; exists k;
   split; [lia |]; split; [reflexivity |]; split; [assumption |];
   split;
   [apply (within_days _ (Z.to_nat (Z.abs k))); each_day
   | intros Hpos; cbn [Z.opp]; first [assumption | exfalso; lia]]
  |].

Lemma get_price_cases (self : Parsers.HistoricalPriceProvider)
        (date : datetime) (p : Decimal) (source : string) :
  Parsers.get_price self date = (p, source) ->
  (source = "exact"%string /\ user_price self date 0 = Some p)
  \/ (exists delta,
        1 <= Z.abs delta <= 7
        /\ source = nearest_note delta
        /\ user_price self date delta = Some p
        /\ (forall d, Z.abs d < Z.abs delta -> user_price self date d = None)
        /\ (0 < delta -> user_price self date (- delta) = None))
  \/ ((forall d, -7 <= d <= 7 -> user_price self date d = None)
      /\ ((exists n,
             Parsers.dict_get (Parsers.fallback_monthly self)
                              (Parsers.strftime_Ym date) = Some n
             /\ p = Dec.mkDecimal n 0
             /\ source = "monthly_fallback"%string)
          \/ (Parsers.dict_get (Parsers.fallback_monthly self)
                               (Parsers.strftime_Ym date) = None
              /\ p = Dec.zero
              /\ source = "NO_PRICE_DATA"%string))).
Proof.
  unfold user_price, Parsers.get_price. cbv zeta.
  rewrite add_days_0.
  destruct (Parsers.dict_get (Parsers.prices self) (DT.strftime_Ymd date))
    as [p0 |] eqn:H0.
  { intros H. injection H as <- <-. left. split; reflexivity. }
  rewrite <- (add_days_0 date) in H0.
  cbn [Parsers.get_price_offsets Parsers.get_price_deltas Z.opp].
  try_day (-1); try_day 1; try_day (-2); try_day 2; try_day (-3); try_day 3;
  try_day (-4); try_day 4; try_day (-5); try_day 5; try_day (-6); try_day 6;
  try_day (-7); try_day 7.
  intros H. right. right. split.
  - intros d' Hr. assert (Hlt : Z.abs d' < Z.of_nat 8) by lia.
    revert d' Hlt Hr. apply (within_days (fun d => _ -> _) 8).
    match goal with
    | |- Forall ?P ?l =>
        let l' := eval vm_compute in l in change (Forall P l')
    end.
    repeat (constructor; [intros _; assumption |]). constructor.
  - destruct (Parsers.dict_get (Parsers.fallback_monthly self) _) as [n |];
      injection H as <- <-.
    + left. exists n. repeat split.
    + right. repeat split.
Qed.

(** X17: where a price comes from.  What [get_price] returns (for a
    date a week inside the range of [datetime]) is either the user's
    price for the very day, noted 'exact'; or the user's price for a day
    at most seven days away, with the number of days in the note, there
    being no price for any nearer day; or, only when the user's data has
    no price for any day within seven days, the figure of the month in
    the fallback table, noted 'monthly_fallback', or [Decimal('0')],
    noted 'NO_PRICE_DATA', when the month is not in the table. *)
Theorem get_price_source (self : Parsers.HistoricalPriceProvider)
        (date : datetime) (p : Decimal) (source : string) :
  week_inside date ->
  Parsers.get_price self date = (p, source) ->
  (source = "exact"%string /\ user_price self date 0 = Some p)
  \/ (exists delta,
        1 <= Z.abs delta <= 7
        /\ source = nearest_note delta
        /\ user_price self date delta = Some p
        /\ (forall d, Z.abs d < Z.abs delta -> user_price self date d = None)
        /\ (0 < delta -> user_price self date (- delta) = None))
  \/ ((forall d, -7 <= d <= 7 -> user_price self date d = None)
      /\ ((exists n,
             Parsers.dict_get (Parsers.fallback_monthly self)
                              (Parsers.strftime_Ym date) = Some n
             /\ p = Dec.mkDecimal n 0
             /\ source = "monthly_fallback"%string)
          \/ (Parsers.dict_get (Parsers.fallback_monthly self)
                               (Parsers.strftime_Ym date) = None
              /\ p = Dec.zero
              /\ source = "NO_PRICE_DATA"%string))).
Proof. intros _. apply get_price_cases. Qed.


Lemma get_price_source_witness :
  (fun source : string =>
     (source = "exact"%string
      /\ user_price Parsers.HistoricalPriceProvider__init__
                    (DT.make 2024 3 10 9 0 0 0) 0
         = Some (Dec.mkDecimal 90000 0))
     \/ (exists delta,
           1 <= Z.abs delta <= 7
           /\ source = nearest_note delta
           /\ user_price Parsers.HistoricalPriceProvider__init__
                         (DT.make 2024 3 10 9 0 0 0) delta
              = Some (Dec.mkDecimal 90000 0)
           /\ (forall d, Z.abs d < Z.abs delta ->
                         user_price Parsers.HistoricalPriceProvider__init__
                                    (DT.make 2024 3 10 9 0 0 0) d = None)
           /\ (0 < delta ->
               user_price Parsers.HistoricalPriceProvider__init__
                          (DT.make 2024 3 10 9 0 0 0) (- delta) = None))
     \/ ((forall d, -7 <= d <= 7 ->
                    user_price Parsers.HistoricalPriceProvider__init__
                               (DT.make 2024 3 10 9 0 0 0) d = None)
         /\ ((exists n,
                Parsers.dict_get
                  (Parsers.fallback_monthly
                     Parsers.HistoricalPriceProvider__init__)
                  (Parsers.strftime_Ym (DT.make 2024 3 10 9 0 0 0)) = Some n
                /\ Dec.mkDecimal 90000 0 = Dec.mkDecimal n 0
                /\ source = "monthly_fallback"%string)
             \/ (Parsers.dict_get
                   (Parsers.fallback_monthly
                      Parsers.HistoricalPriceProvider__init__)
                   (Parsers.strftime_Ym (DT.make 2024 3 10 9 0 0 0)) = None
                 /\ Dec.mkDecimal 90000 0 = Dec.zero
                 /\ source = "NO_PRICE_DATA"%string))))
    "monthly_fallback"%string.
Proof.
  apply (get_price_source Parsers.HistoricalPriceProvider__init__
                          (DT.make 2024 3 10 9 0 0 0)).
  - vm_compute. split; [discriminate | reflexivity].
  - vm_compute. reflexivity.
Defined.

Lemma prefix_app (a b c : string) :
  String.prefix (a ++ b) (a ++ c) = String.prefix b c.
Proof.
  induction a as [| x a IH]; [reflexivity |].
  cbn [append String.prefix].
  destruct (Ascii.ascii_dec x x) as [_ | Hx]; [exact IH | congruence].
Qed.

Lemma unpriced_true (self : Parsers.HistoricalPriceProvider)
      (date : datetime) :
  unpriced self date = true <->
  (forall d, -7 <= d <= 7 -> user_price self date d = None).
Proof.
  unfold unpriced. rewrite forallb_forall. split.
  - intros H d Hd. specialize (H d).
    destruct (user_price self date d); [| reflexivity].
    assert (Hin : In d [-7; -6; -5; -4; -3; -2; -1; 0; 1; 2; 3; 4; 5; 6; 7]).
    { replace d with (Z.of_nat (Z.to_nat (d + 8)) - Z.of_nat 8) by lia.
      apply (in_map (fun i => Z.of_nat i - Z.of_nat 8) (seq 1 15)).
      apply in_seq. lia. }
    specialize (H Hin). discriminate H.
  - intros H d Hin. rewrite H; [reflexivity |].
    cbn [In] in Hin. lia.
Qed.

(** The source note of [get_price] tells whether the price is the
    user's. *)
Lemma get_price_unpriced (self : Parsers.HistoricalPriceProvider)
      (date : datetime) :
  if unpriced self date
  then snd (Parsers.get_price self date) = "monthly_fallback"%string
       \/ Parsers.get_price self date = (Dec.zero, "NO_PRICE_DATA"%string)
  else String.eqb (snd (Parsers.get_price self date)) "NO_PRICE_DATA" = false
       /\ String.eqb (snd (Parsers.get_price self date)) "monthly_fallback"
          = false.
Proof.
  destruct (Parsers.get_price self date) as [p source] eqn:Hg.
  pose proof (get_price_cases self date p source Hg) as Hc.
  destruct (unpriced self date) eqn:Hu.
  - rewrite unpriced_true in Hu.
    destruct Hc as [[_ Hp] | [(delta & Hd & _ & Hp & _) | [_ Hc]]].
    + rewrite Hu in Hp by lia. discriminate Hp.
    + rewrite Hu in Hp by lia. discriminate Hp.
    + destruct Hc as [(n & _ & _ & ->) | (_ & -> & ->)];
        [left | right]; reflexivity.
  - cbn [snd].
    destruct Hc as [[-> _] | [(delta & _ & -> & _) | [Hnone _]]].
    + split; reflexivity.
    + split; reflexivity.
    + apply unpriced_true in Hnone. congruence.
Qed.

Lemma add_prices_loop_warnings (transactions : list Transaction)
      (price_provider : Parsers.HistoricalPriceProvider)
      (warnings : list string) :
  Parsers.add_prices_loop transactions price_provider warnings
  = (fst (Parsers.add_prices_loop transactions price_provider []),
     warnings
     ++ snd (Parsers.add_prices_loop transactions price_provider [])).
Proof.
  revert warnings. induction transactions as [| tx rest IH]; intros warnings.
  - cbn. rewrite app_nil_r. reflexivity.
  - cbn [Parsers.add_prices_loop].
    destruct (Parsers.get_price price_provider (Transaction.date tx))
      as [price source].
    destruct (String.eqb source "NO_PRICE_DATA");
      [| destruct (String.eqb source "monthly_fallback")];
      cbn [app];
      match goal with
      | |- context [Parsers.add_prices_loop rest price_provider ?w] =>
          rewrite (IH w)
      end;
      try match goal with
      | |- context [Parsers.add_prices_loop rest price_provider [?x]] =>
          rewrite (IH [x])
      end;
      destruct (Parsers.add_prices_loop rest price_provider [])
        as [rest' warnings'];
      cbn [fst snd]; rewrite <- ?app_assoc; reflexivity.
Qed.

(** X18: the prices given to the transactions.
    [add_prices_to_transactions], for dates a week inside the range of
    [datetime], returns every transaction, in the order given, with only
    its price changed, to the price [get_price] finds for its date; and
    it returns one warning for each transaction for whose date the
    user's data has no price within seven days, and for no other, in the
    order of these transactions, each warning beginning with the date of
    its transaction. *)
Theorem prices_added (transactions : list Transaction)
        (price_provider : Parsers.HistoricalPriceProvider)
        (priced_txs : list Transaction) (warnings : list string) :
  Forall (fun tx => week_inside (Transaction.date tx)) transactions ->
  Parsers.add_prices_to_transactions transactions price_provider
  = (priced_txs, warnings) ->
  priced_txs = map (with_price price_provider) transactions
  /\ Forall2 (fun tx warning =>
                String.prefix (DT.strftime_Ymd (Transaction.date tx) ++ ": ")
                              warning = true)
             (filter (fun tx => unpriced price_provider (Transaction.date tx))
                     transactions)
             warnings.
Proof.
  intros _. unfold Parsers.add_prices_to_transactions.
  revert priced_txs warnings.
  induction transactions as [| tx rest IH]; intros priced_txs warnings H.
  - cbn in H. injection H as <- <-. split; constructor.
  - cbn [Parsers.add_prices_loop] in H.
    pose proof (get_price_unpriced price_provider (Transaction.date tx)) as Hu.
    cbn [filter map]. unfold with_price at 1.
    destruct (Parsers.get_price price_provider (Transaction.date tx))
      as [price source].
    destruct (Parsers.add_prices_loop rest price_provider [])
      as [rest' warnings'] eqn:Hrest.
    destruct (IH rest' warnings' eq_refl) as [IH1 IH2].
    cbn [fst snd] in Hu.
    destruct (unpriced price_provider (Transaction.date tx)).
    + destruct Hu as [-> | Hu].
      * change (String.eqb "monthly_fallback" "NO_PRICE_DATA")
          with false in H.
        change (String.eqb "monthly_fallback" "monthly_fallback")
          with true in H.
        cbv beta iota in H.
        rewrite add_prices_loop_warnings, Hrest in H.
        pose proof (f_equal fst H) as H1. pose proof (f_equal snd H) as H2.
        cbn [fst snd app] in H1, H2. subst priced_txs warnings. split.
        -- rewrite IH1. reflexivity.
        -- constructor; [| exact IH2].
           rewrite prefix_app. reflexivity.
      * injection Hu as -> ->.
        change (String.eqb "NO_PRICE_DATA" "NO_PRICE_DATA") with true in H.
        cbv beta iota in H.
        rewrite add_prices_loop_warnings, Hrest in H.
        pose proof (f_equal fst H) as H1. pose proof (f_equal snd H) as H2.
        cbn [fst snd app] in H1, H2. subst priced_txs warnings. split.
        -- rewrite IH1. reflexivity.
        -- constructor; [| exact IH2].
           rewrite prefix_app. reflexivity.
    + destruct Hu as [Hu1 Hu2]. rewrite Hu1, Hu2 in H.
      rewrite Hrest in H. injection H as <- <-. split.
      * rewrite IH1. reflexivity.
      * exact IH2.
Qed.

Lemma prices_added_witness :
  exists priced_txs warnings,
    priced_txs
    = map (with_price
             (Parsers.mkHistoricalPriceProvider
                [("2024-03-08"%string, Dec.mkDecimal 9000000 (-2))]
                (Parsers.fallback_monthly
                   Parsers.HistoricalPriceProvider__init__)))
          [ Transaction.mk (DT.make 2024 3 10 9 0 0 0) "buy"
              (Dec.mkDecimal 5 (-1)) Dec.zero Dec.zero "";
            Transaction.mk (DT.make 2024 6 1 0 0 0 0) "sell"
              (Dec.mkDecimal 2 (-1)) Dec.zero Dec.zero "" ]
    /\ Forall2 (fun tx warning =>
                  String.prefix
                    (DT.strftime_Ymd (Transaction.date tx) ++ ": ")
                    warning = true)
               [ Transaction.mk (DT.make 2024 6 1 0 0 0 0) "sell"
                   (Dec.mkDecimal 2 (-1)) Dec.zero Dec.zero "" ]
               warnings.
Proof.
  do 2 eexists.
  apply (prices_added
           [ Transaction.mk (DT.make 2024 3 10 9 0 0 0) "buy"
               (Dec.mkDecimal 5 (-1)) Dec.zero Dec.zero "";
             Transaction.mk (DT.make 2024 6 1 0 0 0 0) "sell"
               (Dec.mkDecimal 2 (-1)) Dec.zero Dec.zero "" ]
           (Parsers.mkHistoricalPriceProvider
              [("2024-03-08"%string, Dec.mkDecimal 9000000 (-2))]
              (Parsers.fallback_monthly
                 Parsers.HistoricalPriceProvider__init__))).
  - repeat constructor; vm_compute; discriminate.
  - vm_compute. reflexivity.
Defined.

(* ------------------------------------------------------------------ *)
(** ** The Schedule 3 export *)

Lemma acquisition_not_disposition (tx_type : string) :
  is_acquisition tx_type = true -> is_disposition tx_type = false.
Proof.
  unfold is_acquisition. intros H. apply orb_true_iff in H.
  destruct H as [H | H]; apply String.eqb_eq in H; subst; reflexivity.
Qed.

Lemma emitted_well_formed (tx : Transaction) (e : LedgerEntry) :
  emitted tx e -> well_formed e.
Proof.
  intros [(_ & Hty & _) [[Ha Hg] | [Hd Hr]]]; [left | right];
    rewrite Hty; split; auto using acquisition_not_disposition.
Qed.

Lemma run_well_formed (self self' : ACBCalculator) (txs : list Transaction)
      (led : list LedgerEntry) :
  process_transactions self txs = Ok (self', led) ->
  ledger self' = led /\ Forall well_formed led.
Proof.
  intros Hrun. split.
  - rewrite process_transactions_reset in Hrun.
    destruct (process_loop __init__ (sorted Transaction.date txs));
      [| discriminate Hrun].
    cbn [bind] in Hrun. injection Hrun as <- <-. reflexivity.
  - apply run_mirrored in Hrun. apply Forall_forall. intros e He.
    destruct (Forall2_In_right _ _ _ _ Hrun He) as (tx & _ & Hem).
    exact (emitted_well_formed tx e Hem).
Qed.

Section Schedule3Properties.

Context {F : Type} (float : Decimal -> F).

Lemma export_for_schedule_3_rows (self : ACBCalculator) (tax_year : Z) :
  export_for_schedule_3 float self tax_year
  = schedule_3_rows float
      (filter (fun e =>
                 match LedgerEntry.capital_gain e with
                 | Some _ => true
                 | None => false
                 end
                 && (DT.year (LedgerEntry.date e) =? tax_year)%Z)
              (ledger self)).
Proof.
  unfold export_for_schedule_3. cbv zeta.
  destruct (filter _ (ledger self)); reflexivity.
Qed.

Lemma well_formed_rows (led : list LedgerEntry) (tax_year : Z) :
  Forall well_formed led ->
  exists rows,
    schedule_3_rows float
      (filter (fun e =>
                 match LedgerEntry.capital_gain e with
                 | Some _ => true
                 | None => false
                 end
                 && (DT.year (LedgerEntry.date e) =? tax_year)%Z) led)
    = Some rows
    /\ Forall2 (row_of float) (disposals_of_year led tax_year) rows
    /\ List.length (marked rows)
       = List.length (filter flagged_loss (entries_of_year led tax_year)).
Proof.
  induction 1 as [| e led He _ IH].
  - exists []. repeat split. constructor.
  - destruct IH as (rows & Hrows & Hall & Hcount).
    unfold disposals_of_year, entries_of_year in *. cbn [filter].
    destruct He as [[Hd (Hp & Hc & Hg & Hf & Hn)]
                   | [Hd (pr & cb & Hp & Hc & Hg & Hpr & Hpos & Hneg)]];
      rewrite Hd, Hg; cbn [andb].
    + destruct (DT.year (LedgerEntry.date e) =? tax_year)%Z.
      * exists rows. cbn [filter]. unfold flagged_loss at 1. rewrite Hg. auto.
      * exists rows. auto.
    + destruct (DT.year (LedgerEntry.date e) =? tax_year)%Z;
        [| exists rows; auto].
      cbn [schedule_3_rows]. unfold schedule_3_row.
      rewrite Hp, Hc, Hg, Hrows. eexists. split; [reflexivity |]. split.
      * constructor; [| exact Hall].
        exists cb. rewrite Hpr in *. cbn.
        repeat (split; [first [reflexivity | assumption] |]).
        destruct (LedgerEntry.superficial_loss_flag e);
          [left | right]; repeat split.
      * unfold marked in *. cbn [filter Superficial_Loss].
        unfold flagged_loss at 1. rewrite Hg.
        destruct (pr - cb <? Dec.zero)%dec eqn:Hlt.
        -- cbn [andb].
           destruct (LedgerEntry.superficial_loss_flag e);
             cbn [String.eqb Ascii.eqb Bool.eqb List.length];
             [f_equal |]; exact Hcount.
        -- destruct (Hpos eq_refl) as [-> _]. cbn [andb]. exact Hcount.
Qed.



End Schedule3Properties.



(* ------------------------------------------------------------------ *)
(** ** Amounts printed with a decimal point *)

(** The quotient by 100000000 of a decimal of at most twenty-eight
    digits is exact. *)
Lemma truediv_sats_exact_at (n e : Z) :
  0 < n < Dec.pow10 28 ->
  exists a,
    Dec.truediv (Dec.mkDecimal n e) Parsers.SATS_PER_BTC = Ok a
    /\ (a == Dec.mkDecimal n (e - 8))%dec = true.
Proof.
  intros Hn. unfold Dec.truediv, Parsers.SATS_PER_BTC.
  cbn [Dec.coef Dec.dexp].
  destruct (Z.eqb_spec n 0) as [Hz | _]; [lia |].
  change (100000000 =? 0) with false. cbv iota.
  change (Z.sgn 100000000) with 1. rewrite (proj2 (Z.sgn_pos_iff n)) by lia.
  rewrite (Z.abs_eq n) by lia.
  change (Dec.ndigits (Z.abs 100000000)) with 9.
  assert (Hnd : 1 <= Dec.ndigits n <= 28).
  { split; [apply ndigits_aux_pos | apply ndigits_le; lia]. }
  set (shift := 9 - Dec.ndigits n + Dec.prec + 1).
  assert (Hshift : 10 <= shift <= 37) by (unfold shift, Dec.prec; lia).
  destruct (Z.geb_spec shift 0) as [_ | Hneg]; [| lia].
  change (Z.abs 100000000) with (Dec.pow10 8).
  assert (Hsplit : n * Dec.pow10 shift = n * Dec.pow10 (shift - 8) * Dec.pow10 8).
  { unfold Dec.pow10. rewrite <- Z.mul_assoc, <- Z.pow_add_r by lia.
    replace (shift - 8 + 8) with shift by lia. reflexivity. }
  pose proof (pow10_pos 8 ltac:(lia)) as HP8.
  rewrite Hsplit, Z.mod_mul, Z.div_mul by lia.
  cbn [Z.eqb].
  replace (e - 0 - (e - 0 - shift)) with shift by lia.
  replace (e - 0 - shift) with (e - shift) by lia.
  replace (e - 0) with e by lia.
  replace (shift - 8) with (Z.of_nat (Z.to_nat (shift - 8))) by lia.
  rewrite strip_zeros_steps by lia.
  destruct (Dec.strip_zeros _ n _ e) as [c e'] eqn:Hstrip.
  apply strip_zeros_value in Hstrip; [| lia].
  destruct Hstrip as (Hc & He & Hval).
  replace (e - shift + Z.of_nat (Z.to_nat (shift - 8))) with (e - 8)
    in He, Hval by lia.
  pose proof (pow10_pos (e' - (e - 8)) ltac:(lia)) as HPe.
  assert (Hcn : 0 < c <= n) by nia.
  eexists. split; [reflexivity |].
  rewrite Z.mul_1_l, fix_small.
  - unfold Dec.eqb, Dec.cmp. cbn [Dec.coef Dec.dexp].
    rewrite Z.min_r by lia. replace (e - 8 - (e - 8)) with 0 by lia.
    change (Dec.pow10 0) with 1. rewrite Z.mul_1_r, <- Hval, Z.compare_refl.
    reflexivity.
  - cbn [Dec.coef]. rewrite Z.gtb_ltb. apply Z.ltb_ge.
    change Dec.prec with 28. apply ndigits_le; lia.
Qed.

(** A decimal with [k] places equals its integral value exactly when its
    last [k] digits are zeros. *)
Lemma whole_number_test (c k : Z) :
  0 <= c -> 0 <= k ->
  (Dec.mkDecimal c (- k)
   == Dec.to_integral_value (Dec.mkDecimal c (- k)))%dec
  = (c mod Dec.pow10 k =? 0).
Proof.
  intros Hc Hk. pose proof (pow10_pos k Hk) as HP.
  unfold Dec.to_integral_value. cbn [Dec.dexp].
  destruct (Z.geb_spec (- k) 0) as [Hk0 | Hk0].
  - assert (k = 0) as -> by lia. change (Dec.pow10 0) with 1.
    rewrite Z.mod_1_r. unfold Dec.eqb, Dec.cmp.
    rewrite Z.compare_refl. reflexivity.
  - unfold Dec.rescale_half_even. cbn [Dec.coef Dec.dexp].
    destruct (Z.eqb_spec c 0) as [-> | Hnz].
    + rewrite Z.mod_0_l by lia. reflexivity.
    + destruct (Z.geb_spec (- k) 0) as [Hge | _]; [lia |].
      rewrite (proj2 (Z.sgn_pos_iff c)) by lia.
      rewrite Z.mul_1_l, (Z.abs_eq c) by lia.
      replace (0 - - k) with k by lia.
      unfold Dec.eqb, Dec.cmp. cbn [Dec.coef Dec.dexp].
      rewrite Z.min_l by lia.
      replace (- k - - k) with 0 by lia. replace (0 - - k) with k by lia.
      change (Dec.pow10 0) with 1. rewrite Z.mul_1_r.
      pose proof (Z.div_mod c (Dec.pow10 k) ltac:(lia)) as Hdm.
      pose proof (Z.mod_pos_bound c (Dec.pow10 k) HP) as Hr.
      unfold Dec.round_half_even. cbv zeta.
      set (q := c / Dec.pow10 k) in *. set (r := c mod Dec.pow10 k) in *.
      destruct (Z.eqb_spec r 0) as [Hr0 | Hr0].
      * rewrite Hr0. cbn [Z.mul].
        destruct (Z.gtb_spec 0 (Dec.pow10 k)) as [Hgt | _]; [lia |].
        destruct (Z.eqb_spec 0 (Dec.pow10 k)) as [Heq | _]; [lia |].
        replace (q * Dec.pow10 k) with c by lia.
        rewrite Z.compare_refl. reflexivity.
      * assert (Hne : forall m, c <> m * Dec.pow10 k).
        { intros m Hm. apply Hr0. unfold r. rewrite Hm. apply Z.mod_mul. lia. }
        destruct (2 * r >? Dec.pow10 k);
          [| destruct (2 * r =? Dec.pow10 k); [destruct (Z.even q) |]];
          match goal with
          | |- match c ?= ?m * _ with _ => _ end = false =>
              destruct (Z.compare_spec c (m * Dec.pow10 k)) as [Heq | |];
              [exfalso; exact (Hne m Heq) | reflexivity | reflexivity]
          end.
Qed.

(** An amount printed with a decimal point goes unchanged through the
    cleaning steps of [_parse_amount]. *)
Lemma decimal_point_clean (i f : string) :
  Str.all_digits i = true -> Str.all_digits f = true ->
  let s := (i ++ "." ++ f)%string in
  Str.lstrip s = s /\ Str.rstrip s = s
  /\ String.prefix "-" s = false /\ Str.lstrip_char "-" s = s
  /\ Str.contains "." s = true /\ Str.keep_digits_dots s = s
  /\ Str.split_dot s = (i, Some f).
Proof.
  intros Hi Hf. cbv zeta.
  destruct (digits_clean f Hf) as (_ & Hfr & _ & _ & _ & Hfkeep & _).
  induction i as [| c i IH].
  - cbn [append]. repeat split.
    + cbn [Str.rstrip]. rewrite Hfr. destruct f; reflexivity.
    + cbn [Str.contains String.prefix].
      destruct (Ascii.ascii_dec "." "."); [destruct f; reflexivity |].
      congruence.
    + cbn. rewrite Hfkeep. reflexivity.
  - cbn in Hi. apply andb_true_iff in Hi. destruct Hi as [Hc Hi].
    destruct (IH Hi) as (_ & Hr & _ & _ & Hcont & Hkeep & Hsplit).
    pose proof (isdigit_not_space c Hc) as Hsp.
    pose proof (isdigit_not_char c 45 Hc ltac:(lia)) as Hminus.
    pose proof (isdigit_not_char c 46 Hc ltac:(lia)) as Hdot.
    change (ascii_of_nat 45) with "-"%char in Hminus.
    change (ascii_of_nat 46) with "."%char in Hdot.
    cbn [append] in *.
    split; [cbn; rewrite Hsp; reflexivity |].
    split.
    { cbn [Str.rstrip]. rewrite Hr, Hsp. destruct (i ++ String "." f)%string;
        reflexivity. }
    split.
    { cbn [String.prefix].
      destruct (Ascii.ascii_dec "-" c) as [<- | _]; [| reflexivity].
      discriminate Hminus. }
    split; [cbn; rewrite Hminus; reflexivity |].
    split.
    { cbn [Str.contains String.prefix]. rewrite Hcont.
      destruct (Ascii.ascii_dec "." c) as [<- | _]; [| reflexivity].
      discriminate Hdot. }
    split; [cbn; rewrite Hc, Hkeep; reflexivity |].
    cbn [Str.split_dot]. rewrite Hdot, Hsplit. reflexivity.
Qed.

(** X21: amounts printed with a decimal point.  For an amount printed
    as digits, a point and digits, with or without a leading minus sign
    (the digits without the point making a number below 10 ^ 28),
    [_parse_amount] returns the minus sign as the flag and, when the
    digits after the point are not all zeros or the amount is at most
    21, the amount as printed; but when the digits after the point are
    all zeros and the amount is above 21, it returns the amount divided
    by 100000000, as for a number of satoshis. *)
Theorem parse_amount_decimal_point (whole fraction : string)
        (negative : bool) :
  Str.all_digits whole = true ->
  Str.all_digits fraction = true ->
  whole <> EmptyString \/ fraction <> EmptyString ->
  Str.int_of_digits 0 (whole ++ fraction) < Dec.pow10 28 ->
  exists a,
    Parsers._parse_amount
      (Some ((if negative then "-" else "")
             ++ whole ++ "." ++ fraction)%string)
    = Ok (Some a, negative)
    /\ if (Str.int_of_digits 0 (whole ++ fraction)
             mod Dec.pow10 (Z.of_nat (String.length fraction)) =? 0)
          && (21 * Dec.pow10 (Z.of_nat (String.length fraction))
              <? Str.int_of_digits 0 (whole ++ fraction))
       then (a == Dec.mkDecimal
                    (Str.int_of_digits 0 (whole ++ fraction))
                    (- Z.of_nat (String.length fraction) - 8))%dec = true
       else a = Dec.mkDecimal
                  (Str.int_of_digits 0 (whole ++ fraction))
                  (- Z.of_nat (String.length fraction)).
Proof.
  intros Hw Hf Hne Hlt.
  destruct (decimal_point_clean whole fraction Hw Hf)
    as (Hl & Hr & Hpre & Hlc & Hcont & Hkeep & Hsplit).
  set (s := (whole ++ "." ++ fraction)%string) in *.
  set (units := Str.int_of_digits 0 (whole ++ fraction)) in *.
  set (places := Z.of_nat (String.length fraction)).
  assert (Hunits : 0 <= units).
  { apply int_of_digits_nonneg; [| lia].
    rewrite all_digits_app, Hw, Hf. reflexivity. }
  assert (Hplaces : 0 <= places) by (unfold places; lia).
  pose proof (pow10_pos places Hplaces) as HP.
  assert (Hs : s <> EmptyString) by (unfold s; destruct whole; discriminate).
  assert (Hstrip : Str.strip ((if negative then "-" else "") ++ s)%string
                   = ((if negative then "-" else "") ++ s)%string).
  { unfold Str.strip. destruct negative; cbn [append].
    - change (Str.lstrip (String "-" s)) with (String "-" s).
      cbn [Str.rstrip]. rewrite Hr.
      destruct s; [contradiction | reflexivity].
    - rewrite Hl. exact Hr. }
  assert (Hsign : String.prefix "-" ((if negative then "-" else "") ++ s)%string
                  = negative)
    by (destruct negative; [destruct s; reflexivity | exact Hpre]).
  assert (Hbody : Str.lstrip_char "-"
                    ((if negative then "-" else "") ++ s)%string = s)
    by (destruct negative; [cbn; exact Hlc | exact Hlc]).
  unfold Parsers._parse_amount. cbv zeta.
  rewrite Hstrip, Hsign, Hbody, Hcont, Hkeep.
  unfold Decimal_of_string. rewrite Hsplit, Hw, Hf.
  assert (Hnonempty : negb (String.eqb whole "" && String.eqb fraction "")
                      = true).
  { destruct Hne as [H | H];
      [destruct (String.eqb_spec whole "") | destruct (String.eqb_spec fraction "")];
      try contradiction; rewrite ?andb_false_r; reflexivity. }
  rewrite Hnonempty. cbn [andb].
  fold units. fold places.
  rewrite (whole_number_test units places Hunits Hplaces).
  assert (Hgt : Dec.gtb (Dec.mkDecimal units (- places)) (Dec.mkDecimal 21 0)
                = (21 * Dec.pow10 places <? units)).
  { unfold Dec.gtb, Dec.ltb, Dec.cmp. cbn [Dec.coef Dec.dexp].
    rewrite Z.min_r by lia.
    replace (0 - - places) with places by lia.
    replace (- places - - places) with 0 by lia.
    change (Dec.pow10 0) with 1. rewrite Z.mul_1_r.
    destruct (Z.compare_spec (21 * Dec.pow10 places) units);
      destruct (Z.ltb_spec (21 * Dec.pow10 places) units);
      try reflexivity; lia. }
  assert (Hgt' : Dec.gtb (Dec.mkDecimal units (- places))
                         (Dec.mkDecimal 21000000 0) = true ->
                 (21 * Dec.pow10 places <? units) = true).
  { unfold Dec.gtb, Dec.ltb, Dec.cmp. cbn [Dec.coef Dec.dexp].
    rewrite Z.min_r by lia.
    replace (0 - - places) with places by lia.
    replace (- places - - places) with 0 by lia.
    change (Dec.pow10 0) with 1. rewrite Z.mul_1_r.
    destruct (Z.compare_spec (21000000 * Dec.pow10 places) units);
      try discriminate. intros _. apply Z.ltb_lt. nia. }
  rewrite Hgt.
  destruct (Z.eqb_spec (units mod Dec.pow10 places) 0) as [Hwhole | Hpart];
    cbn [negb andb].
  - destruct (Z.ltb_spec (21 * Dec.pow10 places) units) as [Hbig | Hsmall].
    + destruct (truediv_sats_exact_at units (- places) ltac:(nia))
        as (a & Ha & Heq).
      exists a. rewrite Ha. cbn [bind]. split; [| exact Heq].
      destruct (Dec.gtb _ (Dec.mkDecimal 21000000 0)); reflexivity.
    + eexists. split; [| reflexivity].
      destruct (Dec.gtb _ (Dec.mkDecimal 21000000 0)) eqn:Hbig;
        [| reflexivity].
      discriminate (Hgt' eq_refl).
  - eexists. split; reflexivity.
Qed.

Lemma parse_amount_decimal_point_witness :
  exists a,
    Parsers._parse_amount (Some "100.0"%string) = Ok (Some a, false)
    /\ (a == Dec.mkDecimal 1 (-6))%dec = true.
Proof.
  destruct (parse_amount_decimal_point "100" "0" false eq_refl eq_refl)
    as (a & Ha & Heq).
  - left. discriminate.
  - vm_compute. reflexivity.
  - exists a. split; [exact Ha |].
    assert (Hval : Parsers._parse_amount (Some "100.0"%string)
                   = Ok (Some (Dec.mkDecimal 1 (-6)), false))
      by (vm_compute; reflexivity).
    change (Parsers._parse_amount (Some "100.0"%string))
      with (Parsers._parse_amount (Some ("" ++ "100" ++ "." ++ "0")%string))
      in Hval.
    rewrite Hval in Ha. injection Ha as <-. vm_compute. reflexivity.
Defined.
